(** * Signature placement and document versioning: a shallow embedding

    The development embeds the two document controllers of the server

    - [TS]: [server/controllers/documentController.ts] with the model
      [server/models/Document.ts] (owner-only signing, coordinate mapping,
      a new file per signed version, [updateDocument]);
    - [JS]: the ES-module controller with the model
      [server/models/documentModel.js] (sharing, [signedBy] audit trail,
      centred image, in-place overwrite);

    the error middleware, the authentication middleware ([Auth]), the upload
    middleware of [utils/fileUpload.ts] ([Upload]) and the content handler of
    the ES-module controller ([JSRead]), and proves properties of them.

    Conventions.
    - A JavaScript number is modelled by an exact rational ([Q]); IEEE
      rounding is not modelled.  Equalities between computed coordinates are
      stated with [==] ([Qeq]).
    - Mongo ObjectIds are modelled by their string form.
    - The collaborators that live outside the repository (pdf-lib's decoders
      and font metrics, Node's [path] and [fs] failure modes, the clock) are
      the fields of [Env].
    - A file on disk is modelled by what pdf-lib decodes it to.
    - A JavaScript string is modelled by its UTF-8 bytes. *)

From Stdlib Require Import QArith Qminmax Qround ZArith String Ascii List Lia Lqa.
From stdpp Require Import gmap strings pretty.

Set Default Proof Using "Type".

(** ** JavaScript numbers and strings *)

Abbreviation Number := Q (only parsing).
Abbreviation ObjectId := string (only parsing).

Definition Math_max (a b : Number) : Number := Qmax a b.
Definition Math_min (a b : Number) : Number := Qmin a b.

(** [a < b] and [a <= b] on numbers, as booleans. *)
Definition num_le (a b : Number) : bool := Qle_bool a b.
Definition num_lt (a b : Number) : bool := negb (Qle_bool b a).
Definition num_of_nat (n : nat) : Number := inject_Z (Z.of_nat n).

(** [s.startsWith(p)] *)
Definition startsWith (s p : string) : bool := String.prefix p s.

(** [l.includes(s)] on an array of strings *)
Definition includes (l : list string) (s : string) : bool :=
  existsb (String.eqb s) l.

(** [String.prototype.trim] removes the code points of WhiteSpace and
    LineTerminator: U+0009..U+000D, U+0020, U+00A0, U+1680, U+2000..U+200A,
    U+2028, U+2029, U+202F, U+205F, U+3000 and U+FEFF.  On the UTF-8 bytes
    these are one, two or three bytes long. *)
Definition isWhiteSpace (c : ascii) : bool :=
  let n := nat_of_ascii c in
  (n =? 32)%nat || ((9 <=? n)%nat && (n <=? 13)%nat).

(** U+00A0 is [C2 A0]. *)
Definition isWhiteSpace2 (c1 c2 : ascii) : bool :=
  (nat_of_ascii c1 =? 194)%nat && (nat_of_ascii c2 =? 160)%nat.

(** U+1680 is [E1 9A 80]; U+2000..U+200A are [E2 80 80] .. [E2 80 8A];
    U+2028, U+2029 and U+202F are [E2 80 A8], [E2 80 A9] and [E2 80 AF];
    U+205F is [E2 81 9F]; U+3000 is [E3 80 80]; U+FEFF is [EF BB BF]. *)
Definition isWhiteSpace3 (c1 c2 c3 : ascii) : bool :=
  let n1 := nat_of_ascii c1 in
  let n2 := nat_of_ascii c2 in
  let n3 := nat_of_ascii c3 in
  ((n1 =? 225) && (n2 =? 154) && (n3 =? 128))%nat
  || ((n1 =? 226) && (n2 =? 128)
      && (((128 <=? n3) && (n3 <=? 138)) || (n3 =? 168) || (n3 =? 169) || (n3 =? 175)))%nat
  || ((n1 =? 226) && (n2 =? 129) && (n3 =? 159))%nat
  || ((n1 =? 227) && (n2 =? 128) && (n3 =? 128))%nat
  || ((n1 =? 239) && (n2 =? 187) && (n3 =? 191))%nat.

Fixpoint trimStart (s : string) : string :=
  match s with
  | EmptyString => EmptyString
  | String c1 r1 =>
      if isWhiteSpace c1 then trimStart r1
      else match r1 with
           | EmptyString => s
           | String c2 r2 =>
               if isWhiteSpace2 c1 c2 then trimStart r2
               else match r2 with
                    | EmptyString => s
                    | String c3 r3 =>
                        if isWhiteSpace3 c1 c2 c3 then trimStart r3 else s
                    end
           end
  end.

(** [trimEnd] on the reversed bytes: the bytes of a code point come last
    byte first. *)
Fixpoint trimEnd_rev (s : string) : string :=
  match s with
  | EmptyString => EmptyString
  | String c1 r1 =>
      if isWhiteSpace c1 then trimEnd_rev r1
      else match r1 with
           | EmptyString => s
           | String c2 r2 =>
               if isWhiteSpace2 c2 c1 then trimEnd_rev r2
               else match r2 with
                    | EmptyString => s
                    | String c3 r3 =>
                        if isWhiteSpace3 c3 c2 c1 then trimEnd_rev r3 else s
                    end
           end
  end.

Definition trimEnd (s : string) : string :=
  String.rev (trimEnd_rev (String.rev s)).

Definition trim (s : string) : string := trimEnd (trimStart s).

(** The double quote, as a one-character string. *)
Definition dquote : string := String (ascii_of_nat 34) EmptyString.

(** [String.prototype.toLowerCase], on the letters of ASCII.  The handlers
    compare its result with words of ASCII letters that no letter outside
    ASCII lowercases into. *)
Definition toLowerCase_ascii (c : ascii) : ascii :=
  let n := nat_of_ascii c in
  if (65 <=? n)%nat && (n <=? 90)%nat then ascii_of_nat (n + 32) else c.

Fixpoint toLowerCase (s : string) : string :=
  match s with
  | EmptyString => EmptyString
  | String c r => String (toLowerCase_ascii c) (toLowerCase r)
  end.

Definition comma : ascii := ","%char.

Fixpoint after_comma (s : string) : option string :=
  match s with
  | EmptyString => None
  | String c r => if Ascii.eqb c comma then Some r else after_comma r
  end.

Fixpoint until_comma (s : string) : string :=
  match s with
  | EmptyString => EmptyString
  | String c r => if Ascii.eqb c comma then EmptyString else String c (until_comma r)
  end.

(** [s.split(',')[1]]; [None] is [undefined] (no comma in [s]). *)
Definition split_comma_1 (s : string) : option string :=
  until_comma <$> after_comma s.

(** ** pdf-lib documents *)

(** An embedded image, with the intrinsic pixel size the decoder reports. *)
Record PDFImage := { image_width : positive; image_height : positive }.

(** The options object handed to [page.drawText] / [page.drawImage]. *)
Inductive DrawOp :=
| drawText (text : string) (x y : Number) (size : Number)
| drawImage (image : PDFImage) (x y width height : Number) (opacity : option Number).

Record PDFPage := {
  getWidth : Number;
  getHeight : Number;
  content : list DrawOp
}.

Record PDFDocument := { getPages : list PDFPage }.

(** What a path on disk holds: bytes that pdf-lib loads to a document, or
    bytes it rejects. *)
Inductive FileData :=
| PdfBytes (doc : PDFDocument)
| OtherBytes (raw : string).

Definition PDFDocument_save (doc : PDFDocument) : FileData := PdfBytes doc.

(** [page.drawX(...)] on page [i] of the in-memory document. *)
Definition draw_on (doc : PDFDocument) (i : nat) (op : DrawOp) : PDFDocument :=
  match getPages doc !! i with
  | Some page =>
      {| getPages :=
           <[i := {| getWidth := getWidth page; getHeight := getHeight page;
                     content := content page ++ [op] |}]> (getPages doc) |}
  | None => doc
  end.

(** ** Collaborators outside the repository *)

Record Env := {
  (** [Date.now()], milliseconds *)
  Date_now : Z;
  (** the id Mongo gives to a created document *)
  new_ObjectId : ObjectId;
  (** the server's [__dirname] and Node's [path] functions *)
  dirname : string;
  path_join : string → string → string;
  path_extname : string → string;
  path_basename : string → string → string;
  (** pdf-lib decoders, on the base64 payload; [None]: the decoder throws *)
  embedPng : string → option PDFImage;
  embedJpg : string → option PDFImage;
  (** metrics of the embedded Helvetica font; [None]: the text cannot be encoded *)
  widthOfTextAtSize : string → Number → option Number;
  heightAtSize : Number → Number;
  (** whether a write to the given path succeeds *)
  fs_write_ok : string → bool;
  (** whether the file system lets the given path be removed *)
  fs_unlink_ok : string → bool;
  (** whether the metadata store accepts a save *)
  db_save_ok : bool
}.

(** ** Handlers: state and exceptions

    A thrown error carries [res.statusCode] as it was when the error was
    thrown (200 when nobody set it) and the message. *)

Inductive Message :=
| Msg (text : string)
(** [`Page number ${pageNumber} is out of bounds. Document has ${pages.length} pages.`] *)
| PageOutOfBounds (pageNumber : Number) (pages : nat)
(** [`Failed to apply signature to PDF: ${err.message}`] *)
| FailedToApply (inner : Message)
(** an error raised by Node, pdf-lib or mongoose *)
| LibraryError (what : string).

Record HttpError := { statusCode : Z; message : Message }.

Inductive Outcome (A : Type) :=
| Return (a : A)
| Throw (e : HttpError).
Arguments Return {A} a.
Arguments Throw {A} e.

(** [res.status(code); throw new Error(msg)] *)
Definition error {A} (code : Z) (msg : Message) : Outcome A :=
  Throw {| statusCode := code; message := msg |}.

(** A library call that throws: nobody set the status. *)
Definition library_error {A} (what : string) : Outcome A :=
  error 200 (LibraryError what).

Global Instance outcome_ret : MRet Outcome := λ A a, Return a.

Global Instance outcome_bind : MBind Outcome :=
  λ A B k m, match m with
             | Return a => k a
             | Throw e => Throw e
             end.

Definition Handler (W A : Type) : Type := W → Outcome A * W.

(** A computation that neither reads nor writes the world. *)
Definition lift {W A} (o : Outcome A) : Handler W A := λ w, (o, w).

Global Instance handler_ret {W} : MRet (Handler W) :=
  λ A a w, (Return a, w).

Global Instance handler_bind {W} : MBind (Handler W) :=
  λ A B k m w,
    match m w with
    | (Return a, w') => k a w'
    | (Throw e, w') => (Throw e, w')
    end.

Definition throw {W A} (code : Z) (msg : Message) : Handler W A :=
  lift (error code msg).

Definition raise {W A} (what : string) : Handler W A :=
  lift (library_error what).

Definition try_catch {W A} (body : Handler W A) (handler : HttpError → Handler W A)
  : Handler W A :=
  λ w, match body w with
       | (Return a, w') => (Return a, w')
       | (Throw e, w') => handler e w'
       end.

(** [errorHandler] of the error middleware: the status sent with an error. *)
Definition errorHandler (e : HttpError) : HttpError :=
  {| statusCode := if (statusCode e =? 200)%Z then 500%Z else statusCode e;
     message := message e |}.

(** ** The TypeScript controller ([documentController.ts], [Document.ts]) *)

Module TS.

(** [status: 'pending' | 'signed' | 'archived' | 'reviewed'] *)
Inductive Status := pending | signed | archived | reviewed.

(** The schema's [enum] for [status]: a string outside it fails validation. *)
Definition status_of_string (s : string) : option Status :=
  if String.eqb s "pending" then Some pending
  else if String.eqb s "signed" then Some signed
  else if String.eqb s "archived" then Some archived
  else if String.eqb s "reviewed" then Some reviewed
  else None.

Record IDocument := {
  user : ObjectId;
  fileName : string;
  filePath : string;
  originalName : string;
  fileType : string;
  fileSize : Number;
  uploadDate : Z;
  status : Status;
  lastSignedAt : option Z
}.

(** The metadata store (the [Document] collection) and the disk. *)
Record World := {
  documents : gmap string IDocument;
  files : gmap string FileData
}.

(** [req.file], as Multer leaves it. *)
Record MulterFile := {
  originalname : string;
  filename : string;
  path : string;
  mimetype : string;
  size : Number
}.

(** The body of a sign request.  A field is [None] when it is absent or does
    not have the JavaScript type the validation asks for. *)
Record SignBody := {
  signatureData : option string;
  signaturePosition : option (Number * Number);
  pdfPageDimensions : option (Number * Number);
  pageNumber : option Number;
  signatureType : option string;
  signatureFileExtension : option string
}.

(** The request after validation: every field the handler reads. *)
Record SignRequest := {
  data : string;
  position_x : Number;
  position_y : Number;
  dimensions_width : Number;
  dimensions_height : Number;
  page : Number;
  type : string;
  extension : option string
}.

Inductive Reply :=
| DocumentUploaded (id : ObjectId) (doc : IDocument)
| DocumentList (docs : list (ObjectId * IDocument))
| DocumentJson (doc : IDocument)
| DocumentRemoved
| FileSent (path : string) (bytes : FileData)
| DocumentSigned (documentId : ObjectId) (newStatus : Status) (signedDocumentUrl : string)
| DocumentUpdated (id : ObjectId) (originalName : string) (status : Status).

Record Response := { res_status : Z; res_json : Reply }.

Definition SIGNED_DOCS_DIR (env : Env) : string :=
  path_join env (dirname env) "../../signed_documents".

(** *** Store and disk primitives *)

Definition findById (id : ObjectId) : Handler World (option IDocument) :=
  λ w, (Return (documents w !! id), w).

(** [document.save()]: the record is replaced in the store, or the store
    refuses and nothing changes. *)
Definition document_save (env : Env) (id : ObjectId) (doc : IDocument) : Handler World () :=
  λ w, if db_save_ok env
       then (Return (), {| documents := <[id := doc]> (documents w); files := files w |})
       else raise "document.save" w.

Definition deleteOne (id : ObjectId) : Handler World () :=
  λ w, (Return (), {| documents := delete id (documents w); files := files w |}).

Definition fs_readFile (p : string) : Handler World FileData :=
  λ w, match files w !! p with
       | Some bytes => (Return bytes, w)
       | None => raise "ENOENT" w
       end.

Definition fs_writeFile (env : Env) (p : string) (bytes : FileData) : Handler World () :=
  λ w, if fs_write_ok env p
       then (Return (), {| documents := documents w; files := <[p := bytes]> (files w) |})
       else raise "fs.writeFile" w.

(** [fs.access] then [fs.unlink] inside the [try] of lines 143-155: the file
    is removed, or the error (no such file, or a refusal of the file system)
    is logged and the file, if any, stays. *)
Definition fs_unlink (env : Env) (p : string) : Handler World () :=
  λ w, (Return (),
        {| documents := documents w;
           files := if fs_unlink_ok env p then delete p (files w) else files w |}).

Definition PDFDocument_load {W} (bytes : FileData) : Handler W PDFDocument :=
  match bytes with
  | PdfBytes doc => mret doc
  | OtherBytes _ => raise "PDFDocument.load"
  end.

(** *** [uploadDocument] *)

Definition uploadDocument (env : Env) (req_user : option ObjectId)
    (req_file : option MulterFile) : Handler World Response :=
  match req_file with
  | None => throw 400 (Msg "No file uploaded.")
  | Some file =>
    match req_user with
    | None => throw 401 (Msg "Not authorized, no user token")
    | Some uid =>
      let document :=
        {| user := uid;
           fileName := trim (filename file);
           filePath := path file;
           originalName := originalname file;
           fileType := mimetype file;
           fileSize := size file;
           uploadDate := Date_now env;
           status := pending;
           lastSignedAt := None |} in
      (* the schema's [required] strings *)
      if String.eqb (fileName document) "" || String.eqb (filePath document) ""
         || String.eqb (originalName document) "" || String.eqb (fileType document) ""
      then raise "ValidationError"
      else
        existing ← findById (new_ObjectId env);
        match existing with
        | Some _ => raise "E11000 duplicate key"
        | None =>
            document_save env (new_ObjectId env) document;;
            mret {| res_status := 201;
                    res_json := DocumentUploaded (new_ObjectId env) document |}
        end
    end
  end.

(** *** Read-only handlers *)

Definition getMyDocuments (req_user : option ObjectId) : Handler World Response :=
  match req_user with
  | None => throw 401 (Msg "Not authorized, no user token")
  | Some uid =>
    λ w, (Return {| res_status := 200;
                    res_json := DocumentList
                      (filter (λ d, String.eqb (user d.2) uid = true)
                              (map_to_list (documents w))) |}, w)
  end.

Definition getDocumentById (req_user : option ObjectId) (id : ObjectId)
  : Handler World Response :=
  match req_user with
  | None => throw 401 (Msg "Not authorized, no user token")
  | Some uid =>
    found ← findById id;
    match found with
    | Some document =>
        if negb (String.eqb (user document) uid)
        then throw 403 (Msg "Not authorized to view this document")
        else mret {| res_status := 200; res_json := DocumentJson document |}
    | None => throw 404 (Msg "Document not found")
    end
  end.

Definition viewDocument (req_user : option ObjectId) (id : ObjectId)
  : Handler World Response :=
  match req_user with
  | None => throw 401 (Msg "Not authorized, no user token")
  | Some uid =>
    found ← findById id;
    match found with
    | Some document =>
        if negb (String.eqb (user document) uid)
        then throw 403 (Msg "Not authorized to view this document")
        else
          let filePathToServe := filePath document in
          try_catch
            (bytes ← fs_readFile filePathToServe;
             mret {| res_status := 200; res_json := FileSent filePathToServe bytes |})
            (λ _, throw 404 (Msg "File not found on server."))
    | None => throw 404 (Msg "Document metadata not found.")
    end
  end.

(** *** [deleteDocument] *)

Definition deleteDocument (env : Env) (req_user : option ObjectId) (id : ObjectId)
  : Handler World Response :=
  match req_user with
  | None => throw 401 (Msg "Not authorized, no user token")
  | Some uid =>
    found ← findById id;
    match found with
    | Some document =>
        if negb (String.eqb (user document) uid)
        then throw 403 (Msg "Not authorized to delete this document")
        else
          (* a failure to remove the file is logged, not fatal *)
          fs_unlink env (filePath document);;
          deleteOne id;;
          mret {| res_status := 200; res_json := DocumentRemoved |}
    | None => throw 404 (Msg "Document not found")
    end
  end.

(** *** [updateDocument] *)

(** [req.body.status], [None] when absent or falsy (the empty string is
    falsy). *)
Definition updateDocument (env : Env) (req_user : option ObjectId) (id : ObjectId)
    (body_status : option string) : Handler World Response :=
  match req_user with
  | None => throw 401 (Msg "Not authorized, no user token")
  | Some uid =>
    found ← findById id;
    match found with
    | Some document =>
        if negb (String.eqb (user document) uid)
        then throw 403 (Msg "Not authorized to update this document")
        else
          (* document.status = req.body.status || document.status *)
          let requested :=
            match body_status with
            | None => Some (status document)
            | Some s => if String.eqb s "" then Some (status document)
                        else status_of_string s
            end in
          match requested with
          | None => raise "ValidationError"
          | Some new_status =>
              let updatedDocument :=
                {| user := user document;
                   fileName := fileName document;
                   filePath := filePath document;
                   originalName := originalName document;
                   fileType := fileType document;
                   fileSize := fileSize document;
                   uploadDate := uploadDate document;
                   status := new_status;
                   lastSignedAt := lastSignedAt document |} in
              document_save env id updatedDocument;;
              mret {| res_status := 200;
                      res_json := DocumentUpdated id (originalName updatedDocument)
                                                  (status updatedDocument) |}
          end
    | None => throw 404 (Msg "Document not found")
    end
  end.

(** *** [applySignature]: validation of the request body (lines 231-276) *)

(** The messages of lines 258 and 272, which quote the accepted values. *)
Definition invalid_signature_type : string :=
  "Invalid signature type. Must be " +:+ dquote +:+ "draw" +:+ dquote +:+ ", "
  +:+ dquote +:+ "upload" +:+ dquote +:+ ", or " +:+ dquote +:+ "text" +:+ dquote +:+ ".".

Definition invalid_file_extension : string :=
  "Missing or invalid signature file extension for image types. Must be "
  +:+ dquote +:+ "png" +:+ dquote +:+ " or " +:+ dquote +:+ "jpeg" +:+ dquote +:+ ".".

Definition validateBody (body : SignBody) : Outcome SignRequest :=
  match signatureData body with
  | None => error 400 (Msg "Missing or empty signature data.")
  | Some signatureData =>
    if String.eqb (trim signatureData) ""
    then error 400 (Msg "Missing or empty signature data.")
    else
    match signaturePosition body with
    | None => error 400 (Msg "Invalid signaturePosition. Must be an object with numeric x and y.")
    | Some (x, y) =>
    match pdfPageDimensions body with
    | None => error 400 (Msg "Invalid PDF container dimensions. Must be an object with positive numeric width and height.")
    | Some (width, height) =>
    if num_le width 0 || num_le height 0
    then error 400 (Msg "Invalid PDF container dimensions. Must be an object with positive numeric width and height.")
    else
    match pageNumber body with
    | None => error 400 (Msg "Invalid page number. Must be a positive integer.")
    | Some pageNumber =>
    if num_lt pageNumber 1
    then error 400 (Msg "Invalid page number. Must be a positive integer.")
    else
    match signatureType body with
    | None => error 400 (Msg invalid_signature_type)
    | Some signatureType =>
    if String.eqb signatureType "" || negb (includes ["draw"; "upload"; "text"] signatureType)
    then error 400 (Msg invalid_signature_type)
    else
      let request :=
        {| data := signatureData; position_x := x; position_y := y;
           dimensions_width := width; dimensions_height := height;
           page := pageNumber; type := signatureType;
           extension := signatureFileExtension body |} in
      if String.eqb signatureType "draw" || String.eqb signatureType "upload"
      then
        if negb (startsWith signatureData "data:image/")
        then error 400 (Msg "Image signature data must be a valid data URL (e.g., data:image/png;base64,...).")
        else
          match signatureFileExtension body with
          | None => error 400 (Msg invalid_file_extension)
          | Some ext =>
              if String.eqb ext "" || negb (includes ["png"; "jpeg"; "jpg"] (toLowerCase ext))
              then error 400 (Msg invalid_file_extension)
              else Return request
          end
      else Return request
    end end end end
  end.

(** *** [applySignature]: placement of the artifact (lines 315-394)

    [pages[pageNumber - 1]]: an index that is not a natural number reads
    [undefined]. *)
Definition array_index (n : Number) : option nat :=
  let q := Qred n in
  if (Zpos (Qden q) =? 1)%Z && (0 <=? Qnum q)%Z then Some (Z.to_nat (Qnum q)) else None.

(** The block returns the document with the artifact drawn on the target
    page, and the values the locals [finalX] and [finalY] hold when the block
    ends; nothing reads them afterwards. *)
Definition placeSignature (env : Env) (pdfDoc : PDFDocument) (index : nat)
    (targetPage : PDFPage) (req : SignRequest)
  : Outcome (PDFDocument * (Number * Number)) :=
  let pdfPageOriginalWidth := getWidth targetPage in
  let pdfPageOriginalHeight := getHeight targetPage in
  let scaleX := (pdfPageOriginalWidth / dimensions_width req)%Q in
  let scaleY := (pdfPageOriginalHeight / dimensions_height req)%Q in
  let finalX := (position_x req * scaleX)%Q in
  drawn ←
    (if String.eqb (type req) "text" then
       let fontSize := 24%Q in
       match widthOfTextAtSize env (data req) fontSize with
       | None => library_error "widthOfTextAtSize"
       | Some textWidth =>
           let textHeight := heightAtSize env fontSize in
           let finalSignatureWidth := textWidth in
           let finalSignatureHeight := textHeight in
           let finalY :=
             (pdfPageOriginalHeight - (position_y req * scaleY) - finalSignatureHeight)%Q in
           mret (draw_on pdfDoc index (drawText (data req) finalX finalY fontSize),
                 (finalY, (finalSignatureWidth, finalSignatureHeight)))
       end
     else
       match split_comma_1 (data req) with
       | None => library_error "TypeError"
       | Some base64ImagePart =>
           embedded ←
             (if startsWith (data req) "data:image/png" then
                match embedPng env base64ImagePart with
                | Some image => mret image
                | None => library_error "embedPng"
                end
              else if startsWith (data req) "data:image/jpeg"
                      || startsWith (data req) "data:image/jpg" then
                match embedJpg env base64ImagePart with
                | Some image => mret image
                | None => library_error "embedJpg"
                end
              else
                error 400 (Msg "Unsupported signature image format. Only PNG and JPEG are supported."));
           let embeddedSignatureImage : PDFImage := embedded in
           let frontendDisplayWidth := 150%Q in
           let frontendDisplayHeight :=
             (inject_Z (Zpos (image_height embeddedSignatureImage))
              * (frontendDisplayWidth
                 / inject_Z (Zpos (image_width embeddedSignatureImage))))%Q in
           let finalSignatureWidth := (frontendDisplayWidth * scaleX)%Q in
           let finalSignatureHeight := (frontendDisplayHeight * scaleY)%Q in
           let finalY :=
             (pdfPageOriginalHeight - (position_y req * scaleY) - finalSignatureHeight)%Q in
           mret (draw_on pdfDoc index
                   (drawImage embeddedSignatureImage finalX finalY
                              finalSignatureWidth finalSignatureHeight None),
                 (finalY, (finalSignatureWidth, finalSignatureHeight)))
       end);
  let '(pdfDoc, (finalY, (finalSignatureWidth, finalSignatureHeight))) := drawn in
  (* lines 393-394, after the draw calls *)
  let finalX := Math_max 0 (Math_min finalX (pdfPageOriginalWidth - finalSignatureWidth)) in
  let finalY := Math_max 0 (Math_min finalY (pdfPageOriginalHeight - finalSignatureHeight)) in
  mret (pdfDoc, (finalX, finalY)).

(** *** [applySignature] *)

Definition newFileName (env : Env) (document : IDocument) : string :=
  let originalExt := path_extname env (originalName document) in
  let baseName := path_basename env (originalName document) originalExt in
  baseName +:+ "_signed_" +:+ pretty (Date_now env) +:+ ".pdf".

Definition newFilePath (env : Env) (document : IDocument) : string :=
  path_join env (SIGNED_DOCS_DIR env) (newFileName env document).

(** The record as lines 408-411 leave it ([fileName] has [trim: true] in the
    schema). *)
Definition signedDocument (env : Env) (document : IDocument) : IDocument :=
  {| user := user document;
     fileName := trim (newFileName env document);
     filePath := newFilePath env document;
     originalName := originalName document;
     fileType := fileType document;
     fileSize := fileSize document;
     uploadDate := uploadDate document;
     status := signed;
     lastSignedAt := Some (Date_now env) |}.

Definition applySignature (env : Env) (req_user : option ObjectId)
    (documentId : ObjectId) (body : SignBody) : Handler World Response :=
  match req_user with
  | None => throw 401 (Msg "Not authorized, no user token")
  | Some uid =>
    req ← lift (validateBody body);
    try_catch
      (found ← findById documentId;
       match found with
       | None => throw 404 (Msg "Document not found.")
       | Some document =>
         if negb (String.eqb (user document) uid)
         then throw 403 (Msg "Not authorized to sign this document.")
         else
           existingPdfBytes ← fs_readFile (filePath document);
           pdfDoc ← PDFDocument_load existingPdfBytes;
           let pages := getPages pdfDoc in
           if num_lt (page req) 1 || num_lt (num_of_nat (length pages)) (page req)
           then throw 400 (PageOutOfBounds (page req) (length pages))
           else
             match array_index (page req - 1)%Q with
             | None => raise "TypeError"
             | Some index =>
               match pages !! index with
               | None => raise "TypeError"
               | Some targetPage =>
                 placed ← lift (placeSignature env pdfDoc index targetPage req);
                 let modifiedPdfBytes := PDFDocument_save placed.1 in
                 fs_writeFile env (newFilePath env document) modifiedPdfBytes;;
                 document_save env documentId (signedDocument env document);;
                 mret {| res_status := 200;
                         res_json := DocumentSigned documentId signed
                                       ("/api/docs/view/" +:+ documentId) |}
               end
             end
       end)
      (λ err,
         throw (if (statusCode err =? 200)%Z then 500%Z else statusCode err)
               (FailedToApply (message err)))
  end.

(** *** Requests and the routes of [documentRoutes.ts] *)

Inductive Request :=
| Upload (file : option MulterFile)
| GetMine
| GetById (id : ObjectId)
| Delete (id : ObjectId)
| View (id : ObjectId)
| Update (id : ObjectId) (body_status : option string)
| Sign (id : ObjectId) (body : SignBody).

Definition handle (env : Env) (req_user : option ObjectId) (r : Request)
  : Handler World Response :=
  match r with
  | Upload file => uploadDocument env req_user file
  | GetMine => getMyDocuments req_user
  | GetById id => getDocumentById req_user id
  | Delete id => deleteDocument env req_user id
  | View id => viewDocument req_user id
  | Update id body_status => updateDocument env req_user id body_status
  | Sign id body => applySignature env req_user id body
  end.


(** The placement rectangle of a request in the viewport: the top-left corner
    the request carries and the size at which the client displays the
    artifact. *)
Definition placement_inside_viewport (req : SignRequest)
    (displayWidth displayHeight : Number) : Prop :=
  (0 <= position_x req ∧ position_x req + displayWidth <= dimensions_width req ∧
   0 <= position_y req ∧ position_y req + displayHeight <= dimensions_height req)%Q.

(** A rectangle of the page, anchored at its bottom-left corner. *)
Definition inside_page (page : PDFPage) (x y width height : Number) : Prop :=
  (0 <= x ∧ x + width <= getWidth page ∧ 0 <= y ∧ y + height <= getHeight page)%Q.

End TS.

(** ** The ES-module controller ([documentModel.js] and its controller) *)

Module JS.

(** [enum: ['view', 'view_and_sign']] *)
Inductive Permission := view | view_and_sign.

Global Instance Permission_eq_dec : EqDecision Permission.
Proof. solve_decision. Defined.

(** An element of [sharedWith]. *)
Record Share := { share_user : ObjectId; permission : Permission }.

(** An element of [signedBy]. *)
Record Signer := {
  signer_user : ObjectId;
  signedAt : Z;
  signatureImage : string
}.

Record Document := {
  owner : ObjectId;
  originalName : string;
  fileName : string;
  filePath : string;
  size : Number;
  status : string;
  sharedWith : list Share;
  signedBy : list Signer
}.

(** The [Document] collection, the [User] collection by email, the disk. *)
Record World := {
  documents : gmap string Document;
  users : gmap string ObjectId;
  files : gmap string FileData
}.

Record MulterFile := {
  originalname : string;
  filename : string;
  path : string;
  file_size : Number
}.

Inductive Reply :=
| DocumentJson (doc : Document)
| DocumentRemoved
| PermissionUpdated (shareWithEmail : string) (doc : Document)
| SharedSuccessfully (shareWithEmail : string) (doc : Document)
| SignedSuccessfully (doc : Document).

Record Response := { res_status : Z; res_json : Reply }.

(** *** Store and disk primitives *)

Definition findById (id : ObjectId) : Handler World (option Document) :=
  λ w, (Return (documents w !! id), w).

Definition User_findOne (email : string) : Handler World (option ObjectId) :=
  λ w, (Return (users w !! email), w).

Definition document_save (env : Env) (id : ObjectId) (doc : Document) : Handler World () :=
  λ w, if db_save_ok env
       then (Return (), {| documents := <[id := doc]> (documents w);
                           users := users w; files := files w |})
       else raise "document.save" w.

Definition deleteOne (id : ObjectId) : Handler World () :=
  λ w, (Return (), {| documents := delete id (documents w);
                      users := users w; files := files w |}).

Definition fs_readFileSync (p : string) : Handler World FileData :=
  λ w, match files w !! p with
       | Some bytes => (Return bytes, w)
       | None => raise "ENOENT" w
       end.

Definition fs_writeFileSync (env : Env) (p : string) (bytes : FileData) : Handler World () :=
  λ w, if fs_write_ok env p
       then (Return (), {| documents := documents w; users := users w;
                           files := <[p := bytes]> (files w) |})
       else raise "fs.writeFileSync" w.

(** [fs.unlink(path, callback)]: the file is removed, or the callback gets
    the error, logs it, and the file, if any, stays. *)
Definition fs_unlink (env : Env) (p : string) : Handler World () :=
  λ w, (Return (), {| documents := documents w; users := users w;
                      files := if fs_unlink_ok env p then delete p (files w)
                               else files w |}).

Definition PDFDocument_load (bytes : FileData) : Handler World PDFDocument :=
  match bytes with
  | PdfBytes doc => mret doc
  | OtherBytes _ => raise "PDFDocument.load"
  end.

(** *** [uploadDocument] *)

Definition uploadDocument (env : Env) (userId : ObjectId) (req_file : option MulterFile)
  : Handler World Response :=
  match req_file with
  | None => throw 400 (Msg "No document file uploaded")
  | Some file =>
      let document :=
        {| owner := userId;
           originalName := originalname file;
           fileName := filename file;
           filePath := path file;
           size := file_size file;
           status := "pending";
           sharedWith := [];
           signedBy := [] |} in
      if String.eqb (originalName document) "" || String.eqb (fileName document) ""
         || String.eqb (filePath document) ""
      then raise "ValidationError"
      else
        existing ← findById (new_ObjectId env);
        match existing with
        | Some _ => raise "E11000 duplicate key"
        | None =>
            document_save env (new_ObjectId env) document;;
            mret {| res_status := 201; res_json := DocumentJson document |}
        end
  end.

(** *** [deleteDocument] *)

Definition deleteDocument (env : Env) (userId : ObjectId) (id : ObjectId)
  : Handler World Response :=
  found ← findById id;
  match found with
  | None => throw 404 (Msg "Document not found")
  | Some document =>
      if negb (String.eqb (owner document) userId)
      then throw 403 (Msg "Not authorized to delete this document")
      else
        fs_unlink env (filePath document);;
        deleteOne id;;
        mret {| res_status := 200; res_json := DocumentRemoved |}
  end.

(** *** [shareDocument] *)

Definition set_sharedWith (document : Document) (shares : list Share) : Document :=
  {| owner := owner document;
     originalName := originalName document;
     fileName := fileName document;
     filePath := filePath document;
     size := size document;
     status := status document;
     sharedWith := shares;
     signedBy := signedBy document |}.

Definition shareDocument (env : Env) (userId : ObjectId) (id : ObjectId)
    (shareWithEmail : string) (perm : Permission) : Handler World Response :=
  found ← findById id;
  match found with
  | None => throw 404 (Msg "Document not found")
  | Some document =>
    if negb (String.eqb (owner document) userId)
    then throw 403 (Msg "Not authorized to share this document")
    else
      userToShareWith ← User_findOne shareWithEmail;
      match userToShareWith with
      | None => throw 404 (Msg "User with that email not found")
      | Some grantee =>
        if String.eqb grantee userId
        then throw 400 (Msg "Cannot share a document with yourself")
        else
          let isAlreadyShared :=
            existsb (λ share, String.eqb (share_user share) grantee) (sharedWith document) in
          if isAlreadyShared then
            let document :=
              set_sharedWith document
                (map (λ share, if String.eqb (share_user share) grantee
                               then {| share_user := grantee; permission := perm |}
                               else share)
                     (sharedWith document)) in
            document_save env id document;;
            mret {| res_status := 200; res_json := PermissionUpdated shareWithEmail document |}
          else
            let document :=
              set_sharedWith document
                (sharedWith document ++ [{| share_user := grantee; permission := perm |}]) in
            document_save env id document;;
            mret {| res_status := 200; res_json := SharedSuccessfully shareWithEmail document |}
      end
  end.

(** *** [applySignatures] *)

(** The error every failure inside the [try] block is turned into. *)
Definition pdf_failure : HttpError :=
  {| statusCode := 500; message := Msg "Failed to apply signature to the PDF document." |}.

(** Lines 290-341: the PDF on disk is read, the image is drawn in the centre
    of the first page, and the result is written back to [document.filePath]. *)
Definition embedSignature (env : Env) (document : Document) (signature : string)
  : Handler World () :=
  try_catch
    (existingPdfBytes ← fs_readFileSync (filePath document);
     pdfDoc ← PDFDocument_load existingPdfBytes;
     let pages := getPages pdfDoc in
     let decode (embed : string → option PDFImage) : Handler World PDFImage :=
       match split_comma_1 signature with
       | None => raise "TypeError"
       | Some signatureImageBase64 =>
           match embed signatureImageBase64 with
           | Some image => mret image
           | None => raise "embed"
           end
       end in
     signatureImage ←
       (if startsWith signature "data:image/png" then decode (embedPng env)
        else if startsWith signature "data:image/jpeg" || startsWith signature "data:image/jpg"
        then decode (embedJpg env)
        else throw 400 (Msg "Unsupported signature image format. Only PNG and JPEG are supported."));
     match pages !! 0%nat with
     | None => raise "TypeError"
     | Some firstPage =>
         let width := getWidth firstPage in
         let height := getHeight firstPage in
         let signatureWidth := 250%Q in
         let signatureHeight := 125%Q in
         let xPos := ((width / 2) - (signatureWidth / 2))%Q in
         let yPos := ((height / 2) - (signatureHeight / 2))%Q in
         let pdfDoc :=
           draw_on pdfDoc 0
             (drawImage signatureImage xPos yPos signatureWidth signatureHeight
                        (Some (9 # 10)%Q)) in
         let modifiedPdfBytes := PDFDocument_save pdfDoc in
         fs_writeFileSync env (filePath document) modifiedPdfBytes
     end)
    (λ _, lift (Throw pdf_failure)).

(** Lines 346-364: the status and the signer's entry. *)
Definition recordSigner (env : Env) (userId : ObjectId) (signature : string)
    (document : Document) : Document :=
  let existingSignatureIndex :=
    list_find (λ signer, signer_user signer = userId) (signedBy document) in
  {| owner := owner document;
     originalName := originalName document;
     fileName := fileName document;
     filePath := filePath document;
     size := size document;
     status := "signed";
     sharedWith := sharedWith document;
     signedBy :=
       match existingSignatureIndex with
       | Some (index, entry) =>
           <[index := {| signer_user := signer_user entry;
                         signedAt := Date_now env;
                         signatureImage := signature |}]> (signedBy document)
       | None =>
           signedBy document ++
             [{| signer_user := userId; signedAt := Date_now env;
                 signatureImage := signature |}]
       end |}.

(** [signature] is [None] when the body has none. *)
Definition applySignatures (env : Env) (userId : ObjectId) (id : ObjectId)
    (signature : option string) : Handler World Response :=
  match signature with
  | None => throw 400 (Msg "Signature data is required.")
  | Some signature =>
    if String.eqb signature "" then throw 400 (Msg "Signature data is required.")
    else
      found ← findById id;
      match found with
      | None => throw 404 (Msg "Document not found.")
      | Some document =>
        let isOwner := String.eqb (owner document) userId in
        let hasSignPermission :=
          existsb (λ share, String.eqb (share_user share) userId
                            && bool_decide (permission share = view_and_sign))
                  (sharedWith document) in
        if negb isOwner && negb hasSignPermission
        then throw 403 (Msg "Not authorized to sign this document.")
        else
          embedSignature env document signature;;
          let document := recordSigner env userId signature document in
          document_save env id document;;
          mret {| res_status := 200; res_json := SignedSuccessfully document |}
      end
  end.

(** *** Requests and runs of the controller *)

Inductive Request :=
| Upload (userId : ObjectId) (file : option MulterFile)
| Delete (userId : ObjectId) (id : ObjectId)
| ShareWith (userId : ObjectId) (id : ObjectId) (shareWithEmail : string) (perm : Permission)
| Sign (userId : ObjectId) (id : ObjectId) (signature : option string).

Definition handle (env : Env) (r : Request) : Handler World Response :=
  match r with
  | Upload userId file => uploadDocument env userId file
  | Delete userId id => deleteDocument env userId id
  | ShareWith userId id email perm => shareDocument env userId id email perm
  | Sign userId id signature => applySignatures env userId id signature
  end.

(** The worlds the controller can produce from an empty collection. *)
Inductive reachable : World → Prop :=
| reachable_init (us : gmap string ObjectId) (fs : gmap string FileData) :
    reachable {| documents := ∅; users := us; files := fs |}
| reachable_step (env : Env) (r : Request) (w : World) :
    reachable w → reachable (handle env r w).2
| reachable_outside (w : World) (us : gmap string ObjectId) (fs : gmap string FileData) :
    (* registration adds users, Multer stores uploads: the controller does
       not see them happen *)
    reachable w →
    reachable {| documents := documents w; users := us; files := fs |}.

(** The invariants of the data model: one grant per grantee, one entry per
    signer, and the owner is not a grantee. *)
Definition document_ok (document : Document) : Prop :=
  NoDup (share_user <$> sharedWith document) ∧
  NoDup (signer_user <$> signedBy document) ∧
  owner document ∉ share_user <$> sharedWith document.

Definition well_formed (w : World) : Prop :=
  ∀ id document, documents w !! id = Some document → document_ok document.

End JS.

(** ** Concrete collaborators and worlds used by the examples *)

Module Examples.

Definition page_612x792 : PDFPage :=
  {| getWidth := 612; getHeight := 792; content := [] |}.

Definition three_pages : PDFDocument :=
  {| getPages := [page_612x792; page_612x792; page_612x792] |}.

(** The base64 form of a PNG file: 300x150 pixels, 8-bit RGBA, opaque
    black. *)
Definition png_base64 : string :=
  "iVBORw0KGgoAAAANSUhEUgAAASwAAACWCAYAAABkW7XSAAABh0lEQVR42u3UMQ0AAAjAsPk3DTYg6VEDO1Y1AE+IABgWgGEBhgVgWACGBRgWgGEBGBZgWACGBWBYgGEBGBaAYQGGBWBYAIYFGBaAYQEYFmBYAIYFYFiAYQEYFoBhAYYFYFiAYYkAGBaAYQGGBWBYAIYFGBaAYQEYFmBYAIYFYFiAYQEYFoBhAYYFYFgAhgUYFoBhARgWYFgAhgVgWIBhARgWgGEBhgVgWIBhARgWgGEBhgVgWACGBRgWgGEBGBZgWACGBWBYgGEBGBaAYQGGBWBYAIYFGBaAYQEYFmBYAIYFYFiAYQEYFoBhAYYFYFiAYQEYFoBhAYYFYFgAhgUYFoBhARgWYFgAhgVgWIBhARgWgGEBhgVgWACGBRgWgGEBGBZgWACGBWBYgGEBGBaAYQGGBWBYgGEBGBaAYQGGBWBYAIYFGBaAYQEYFmBYAIYFYFiAYQEYFoBhAYYFYFgAhgUYFoBhARgWYFgAhgVgWIBhARgWgGEBhgVgWIBhARgWgGEBhgVw1QI3hSJ6Ck/t1AAAAABJRU5ErkJggg==".

(** The data URL a signature pad produces for it. *)
Definition png : string := Eval cbv in ("data:image/png;base64," +:+ png_base64).

(** A server whose PNG decoder reads the image above (300x150) and refuses
    any other payload, whose JPEG decoder is given no JPEG, with Helvetica's
    height at 24pt, (718 + 207) / 1000 * 24 = 22.2.  When the disk fails it
    refuses writes and removals alike. *)
Definition server (now : Z) (disk_ok db_ok : bool) : Env :=
  {| Date_now := now;
     new_ObjectId := "doc1";
     dirname := "/srv/server/controllers";
     path_join := λ a b, a +:+ "/" +:+ b;
     path_extname := λ _, ".pdf";
     path_basename := λ p ext,
       String.substring 0 (String.length p - String.length ext) p;
     embedPng := λ payload,
       if String.eqb payload png_base64
       then Some {| image_width := 300; image_height := 150 |} else None;
     embedJpg := λ _, None;
     widthOfTextAtSize := λ _ _, Some 96%Q;
     heightAtSize := λ _, (111 # 5)%Q;
     fs_write_ok := λ _, disk_ok;
     fs_unlink_ok := λ _, disk_ok;
     db_save_ok := db_ok |}.

Definition ts_upload : TS.MulterFile :=
  {| TS.originalname := "contract.pdf";
     TS.filename := "document-1700000000000.pdf";
     TS.path := "uploads/document-1700000000000.pdf";
     TS.mimetype := "application/pdf";
     TS.size := 1024 |}.

(** The disk after Multer stored the upload, and an empty collection. *)
Definition ts_empty : TS.World :=
  {| TS.documents := ∅;
     TS.files := {[ "uploads/document-1700000000000.pdf" := PdfBytes three_pages ]} |}.

Definition ts_uploaded : TS.World :=
  (TS.uploadDocument (server 1700000000000 true true) (Some "alice") (Some ts_upload)
                     ts_empty).2.

Definition image_body (x y : Number) (pageNumber : Number) : TS.SignBody :=
  {| TS.signatureData := Some png;
     TS.signaturePosition := Some (x, y);
     TS.pdfPageDimensions := Some (300%Q, 400%Q);
     TS.pageNumber := Some pageNumber;
     TS.signatureType := Some "draw";
     TS.signatureFileExtension := Some "png" |}.

Definition text_body (x y : Number) : TS.SignBody :=
  {| TS.signatureData := Some "Jane Roe";
     TS.signaturePosition := Some (x, y);
     TS.pdfPageDimensions := Some (300%Q, 400%Q);
     TS.pageNumber := Some 1%Q;
     TS.signatureType := Some "text";
     TS.signatureFileExtension := None |}.

Definition ts_signed : TS.World :=
  (TS.applySignature (server 1700000001000 true true) (Some "alice") "doc1"
                     (image_body 50 100 1) ts_uploaded).2.

Definition js_upload : JS.MulterFile :=
  {| JS.originalname := "contract.pdf";
     JS.filename := "document-1700000000000.pdf";
     JS.path := "uploads/document-1700000000000.pdf";
     JS.file_size := 1024 |}.

Definition js_empty : JS.World :=
  {| JS.documents := ∅;
     JS.users := {[ "alice@example.org" := "alice"; "bob@example.org" := "bob" ]};
     JS.files := {[ "uploads/document-1700000000000.pdf" := PdfBytes three_pages ]} |}.

Definition js_uploaded : JS.World :=
  (JS.handle (server 1700000000000 true true) (JS.Upload "alice" (Some js_upload))
             js_empty).2.

(** The request of the mapping scenario, as validation hands it on. *)
Definition scenario_request : TS.SignRequest :=
  {| TS.data := png;
     TS.position_x := 50; TS.position_y := 100;
     TS.dimensions_width := 300; TS.dimensions_height := 400;
     TS.page := 1; TS.type := "draw"; TS.extension := Some "png" |}.

(** The records the uploads create. *)
Definition ts_document : TS.IDocument :=
  {| TS.user := "alice";
     TS.fileName := "document-1700000000000.pdf";
     TS.filePath := "uploads/document-1700000000000.pdf";
     TS.originalName := "contract.pdf";
     TS.fileType := "application/pdf";
     TS.fileSize := 1024;
     TS.uploadDate := 1700000000000;
     TS.status := TS.pending;
     TS.lastSignedAt := None |}.

Definition js_document : JS.Document :=
  {| JS.owner := "alice";
     JS.originalName := "contract.pdf";
     JS.fileName := "document-1700000000000.pdf";
     JS.filePath := "uploads/document-1700000000000.pdf";
     JS.size := 1024;
     JS.status := "pending";
     JS.sharedWith := [];
     JS.signedBy := [] |}.

Definition ts_signed_response : TS.Response :=
  {| TS.res_status := 200;
     TS.res_json := TS.DocumentSigned "doc1" TS.signed "/api/docs/view/doc1" |}.


Definition js_signed : JS.World :=
  (JS.applySignatures (server 1700000001000 true true) "alice" "doc1" (Some png)
                      js_uploaded).2.


Definition js_shared : JS.World :=
  (JS.shareDocument (server 1700000001000 true true) "alice" "doc1" "bob@example.org"
                    JS.view js_uploaded).2.

Definition js_shared_twice : JS.World :=
  (JS.shareDocument (server 1700000002000 true true) "alice" "doc1" "bob@example.org"
                    JS.view_and_sign js_shared).2.

End Examples.
(** ** The authentication middleware ([authMiddleware]) *)

Module Auth.

(** What the middleware asks of its surroundings: the configured secret,
    jsonwebtoken's [verify] (the id in the payload of a valid token) and
    [User.findById] (the user, if there still is one). *)
Record Tokens := {
  JWT_SECRET : option string;
  jwt_verify : string → string → option string;
  User_findById : string → option ObjectId
}.

Definition space : ascii := " "%char.

Fixpoint after_space (s : string) : option string :=
  match s with
  | EmptyString => None
  | String c r => if Ascii.eqb c space then Some r else after_space r
  end.

Fixpoint until_space (s : string) : string :=
  match s with
  | EmptyString => EmptyString
  | String c r => if Ascii.eqb c space then EmptyString else String c (until_space r)
  end.

(** [s.split(' ')[1]]; [None] is [undefined] (no space in [s]). *)
Definition split_space_1 (s : string) : option string :=
  until_space <$> after_space s.

(** [protect], given the [Authorization] header.  [Return u] stands for the
    call of [next()] with [req.user = u]; [u] is [None] when the token names
    a user that no longer exists. *)
Definition protect (tokens : Tokens) (authorization : option string)
  : Outcome (option ObjectId) :=
  match authorization with
  | Some header =>
      if startsWith header "Bearer" then
        (* the [try] block: whatever it throws becomes "token failed" *)
        match split_space_1 header with
        | None => error 401 (Msg "Not authorized, token failed")
        | Some token =>
            match JWT_SECRET tokens with
            | None => error 401 (Msg "Not authorized, token failed")
            | Some secret =>
                if String.eqb secret "" || String.eqb token ""
                then error 401 (Msg "Not authorized, token failed")
                else
                  match jwt_verify tokens token secret with
                  | None => error 401 (Msg "Not authorized, token failed")
                  | Some id => Return (User_findById tokens id)
                  end
            end
        end
      else error 401 (Msg "Not authorized, no token provided")
  | None => error 401 (Msg "Not authorized, no token provided")
  end.

(** [protect] of the ES-module middleware ([authMiddleware.js]): it has no
    guard of its own on the secret (jsonwebtoken refuses a missing or empty
    one, inside the same [try]) and words the missing token differently. *)
Definition protect_js (tokens : Tokens) (authorization : option string)
  : Outcome (option ObjectId) :=
  match authorization with
  | Some header =>
      if startsWith header "Bearer" then
        match split_space_1 header with
        | None => error 401 (Msg "Not authorized, token failed")
        | Some token =>
            match JWT_SECRET tokens with
            | None => error 401 (Msg "Not authorized, token failed")
            | Some secret =>
                if String.eqb secret "" || String.eqb token ""
                then error 401 (Msg "Not authorized, token failed")
                else
                  match jwt_verify tokens token secret with
                  | None => error 401 (Msg "Not authorized, token failed")
                  | Some id => Return (User_findById tokens id)
                  end
            end
        end
      else error 401 (Msg "Not authorized, no token")
  | None => error 401 (Msg "Not authorized, no token")
  end.

(** A route of [documentRoutes.ts] other than the upload:
    [router.verb(path, protect, handler)]. *)
Definition route (tokens : Tokens) (env : Env) (authorization : option string)
    (r : TS.Request) : Handler TS.World TS.Response :=
  req_user ← lift (protect tokens authorization);
  TS.handle env req_user r.

End Auth.

(** ** The upload middleware ([utils/fileUpload.ts]) *)

Module Upload.

(** A file part of a multipart request, before Multer stored it. *)
Record IncomingFile := {
  fieldname : string;
  originalname : string;
  mimetype : string;
  size : Number;
  bytes : FileData
}.

(** [limits.fileSize]: 10MB *)
Definition fileSize_limit : Number := 1024 * 1024 * 10.

(** [Math.round] *)
Definition Math_round (x : Number) : Z := Qfloor (x + (1 # 2)).

Definition fileFilter (file : IncomingFile) : Outcome () :=
  if String.eqb (mimetype file) "application/pdf" then Return ()
  else library_error "Only PDF files are allowed!".

(** The [filename] callback of the disk storage; [random] is
    [Math.random()]. *)
Definition filename (env : Env) (random : Number) (file : IncomingFile) : string :=
  let uniqueSuffix :=
    pretty (Date_now env) +:+ "-" +:+ pretty (Math_round (random * 1000000000)) in
  let fileExtension := path_extname env (originalname file) in
  fieldname file +:+ "-" +:+ uniqueSuffix +:+ fileExtension.

(** [upload.single('document')]: the file is filtered, measured against the
    limit and stored under [uploadDir]; [req.file] is the result. *)
Definition upload_single (env : Env) (uploadDir : string) (random : Number)
    (incoming : option IncomingFile) : Handler TS.World (option TS.MulterFile) :=
  match incoming with
  | None => mret None
  | Some file =>
      if negb (String.eqb (fieldname file) "document")
      then raise "LIMIT_UNEXPECTED_FILE"
      else
        lift (fileFilter file);;
        if num_lt fileSize_limit (size file) then raise "LIMIT_FILE_SIZE"
        else
          let name := filename env random file in
          let destination := path_join env uploadDir name in
          TS.fs_writeFile env destination (bytes file);;
          mret (Some {| TS.originalname := originalname file;
                        TS.filename := name;
                        TS.path := destination;
                        TS.mimetype := mimetype file;
                        TS.size := size file |})
  end.

(** [router.post('/upload', protect, upload.single('document'), uploadDocument)] *)
Definition route (tokens : Auth.Tokens) (env : Env) (uploadDir : string)
    (random : Number) (authorization : option string) (incoming : option IncomingFile)
  : Handler TS.World TS.Response :=
  req_user ← lift (Auth.protect tokens authorization);
  req_file ← upload_single env uploadDir random incoming;
  TS.uploadDocument env req_user req_file.

End Upload.

(** ** The read handlers of the ES-module controller *)

Module JSRead.

(** [hasAccess] of [getDocumentContent] and [downloadDocument]. *)
Definition hasAccess (document : JS.Document) (userId : ObjectId) : bool :=
  String.eqb (JS.owner document) userId
  || existsb (λ share, String.eqb (JS.share_user share) userId) (JS.sharedWith document).

Inductive Reply :=
| FileSent (path : string) (bytes : FileData).

(** [getDocumentContent]; [resolve fileName] is
    [path.resolve(__dirname, '../../uploads', fileName)]. *)
Definition getDocumentContent (resolve : string → string) (userId : ObjectId)
    (id : ObjectId) : Handler JS.World Reply :=
  found ← JS.findById id;
  match found with
  | None => throw 404 (Msg "Document not found")
  | Some document =>
      if negb (hasAccess document userId)
      then throw 403 (Msg "Not authorized to view this document content")
      else
        let absoluteFilePath := resolve (JS.fileName document) in
        λ w, match JS.files w !! absoluteFilePath with
             | Some bytes => (Return (FileSent absoluteFilePath bytes), w)
             | None => throw 404 (Msg "Document file not found on server.") w
             end
  end.

End JSRead.

Module MoreExamples.

(** Tokens are accepted when they read [token-of-<id>]; Alice exists, the
    user [gone] does not. *)
Definition tokens : Auth.Tokens :=
  {| Auth.JWT_SECRET := Some "secret";
     Auth.jwt_verify := λ token secret,
       if String.prefix "token-of-" token
       then Some (String.substring 9 (String.length token - 9) token) else None;
     Auth.User_findById := λ id, if String.eqb id "alice" then Some "alice" else None |}.

Definition pdf_part : Upload.IncomingFile :=
  {| Upload.fieldname := "document";
     Upload.originalname := "contract.pdf";
     Upload.mimetype := "application/pdf";
     Upload.size := 1024;
     Upload.bytes := PdfBytes Examples.three_pages |}.

Definition no_documents : TS.World := {| TS.documents := ∅; TS.files := ∅ |}.

(** A GIF behind a body that declares png. *)
Definition gif_body : TS.SignBody :=
  {| TS.signatureData := Some "data:image/gif;base64,R0lGODlhAQABAAAAACw=";
     TS.signaturePosition := Some (50%Q, 100%Q);
     TS.pdfPageDimensions := Some (300%Q, 400%Q);
     TS.pageNumber := Some 1%Q;
     TS.signatureType := Some "upload";
     TS.signatureFileExtension := Some "png" |}.

Definition gif_request : TS.SignRequest :=
  {| TS.data := "data:image/gif;base64,R0lGODlhAQABAAAAACw=";
     TS.position_x := 50; TS.position_y := 100;
     TS.dimensions_width := 300; TS.dimensions_height := 400;
     TS.page := 1; TS.type := "upload"; TS.extension := Some "png" |}.

(** A viewport of the size of the page. *)
Definition identity_request : TS.SignRequest :=
  {| TS.data := Examples.png;
     TS.position_x := 50; TS.position_y := 100;
     TS.dimensions_width := 612; TS.dimensions_height := 792;
     TS.page := 1; TS.type := "draw"; TS.extension := Some "png" |}.

(** Records whose file is no longer on disk. *)
Definition ts_lost : TS.World :=
  {| TS.documents := {[ "doc1" := Examples.ts_document ]}; TS.files := ∅ |}.

Definition js_lost : JS.World :=
  {| JS.documents := {[ "doc1" := Examples.js_document ]};
     JS.users := ∅; JS.files := ∅ |}.

Definition js_deleted : JS.World :=
  (JS.deleteDocument (Examples.server 1700000001000 true true) "alice" "doc1"
                     Examples.js_uploaded).2.

(** White space outside ASCII, in UTF-8: U+00A0, U+3000 and U+FEFF. *)
Definition nbsp : string :=
  String (ascii_of_nat 194) (String (ascii_of_nat 160) EmptyString).

Definition ideographic_space : string :=
  String (ascii_of_nat 227) (String (ascii_of_nat 128) (String (ascii_of_nat 128) EmptyString)).

Definition byte_order_mark : string :=
  String (ascii_of_nat 239) (String (ascii_of_nat 187) (String (ascii_of_nat 191) EmptyString)).

(** A typed signature that is white space only: a space and a no-break
    space. *)
Definition blank_body : TS.SignBody :=
  {| TS.signatureData := Some (" " +:+ nbsp);
     TS.signaturePosition := Some (20%Q, 200%Q);
     TS.pdfPageDimensions := Some (300%Q, 400%Q);
     TS.pageNumber := Some 1%Q;
     TS.signatureType := Some "text";
     TS.signatureFileExtension := None |}.

(** Alice shares her document with Bob for signing, signs it, and Bob signs
    it after her. *)
Definition js_signed_by_alice : JS.World :=
  (JS.handle (Examples.server 1700000003000 true true)
             (JS.Sign "alice" "doc1" (Some Examples.png)) Examples.js_shared_twice).2.

Definition js_signed_by_both : JS.World :=
  (JS.handle (Examples.server 1700000004000 true true)
             (JS.Sign "bob" "doc1" (Some Examples.png)) js_signed_by_alice).2.

(** The record after both signatures. *)
Definition js_document_signed_by_both : JS.Document :=
  {| JS.owner := "alice";
     JS.originalName := "contract.pdf";
     JS.fileName := "document-1700000000000.pdf";
     JS.filePath := "uploads/document-1700000000000.pdf";
     JS.size := 1024;
     JS.status := "signed";
     JS.sharedWith := [{| JS.share_user := "bob"; JS.permission := JS.view_and_sign |}];
     JS.signedBy :=
       [{| JS.signer_user := "alice"; JS.signedAt := 1700000003000;
           JS.signatureImage := Examples.png |};
        {| JS.signer_user := "bob"; JS.signedAt := 1700000004000;
           JS.signatureImage := Examples.png |}] |}.


(** Bob's record of a shared document whose file is gone. *)
Definition js_lost_shared : JS.World :=
  {| JS.documents :=
       {[ "doc1" := JS.set_sharedWith Examples.js_document
                      [{| JS.share_user := "bob"; JS.permission := JS.view_and_sign |}] ]};
     JS.users := ∅; JS.files := ∅ |}.

Definition png_part : Upload.IncomingFile :=
  {| Upload.fieldname := "document";
     Upload.originalname := "photo.png";
     Upload.mimetype := "image/png";
     Upload.size := 1024;
     Upload.bytes := OtherBytes "PNG" |}.

End MoreExamples.

(** ** Proof support *)

(** Unfolding of the handler monad. *)
Ltac run :=
  cbv [mbind mret handler_bind handler_ret outcome_bind outcome_ret
       throw raise lift error library_error try_catch
       TS.findById TS.document_save TS.fs_readFile TS.fs_writeFile TS.fs_unlink
       TS.deleteOne TS.PDFDocument_load
       JS.findById JS.document_save JS.fs_readFileSync JS.fs_writeFileSync
       JS.fs_unlink JS.deleteOne JS.PDFDocument_load JS.User_findOne] in *.

Lemma num_le_true (a b : Q) : num_le a b = true ↔ (a <= b)%Q.
Proof. apply Qle_bool_iff. Qed.

Lemma num_lt_true (a b : Q) : num_lt a b = true ↔ (a < b)%Q.
Proof.
  unfold num_lt. rewrite negb_true_iff, <- not_true_iff_false, Qle_bool_iff.
  split; [apply Qnot_le_lt | apply Qlt_not_le].
Qed.

Lemma num_lt_false (a b : Q) : num_lt a b = false ↔ (b <= a)%Q.
Proof.
  unfold num_lt. rewrite negb_false_iff. apply Qle_bool_iff.
Qed.

Lemma string_eqb_true (a b : string) : String.eqb a b = true ↔ a = b.
Proof. apply String.eqb_eq. Qed.

Lemma string_eqb_false (a b : string) : String.eqb a b = false ↔ a ≠ b.
Proof. apply String.eqb_neq. Qed.

(** *** The placement block *)

(** Whatever the block returns, the artifact was drawn at the coordinates
    computed before lines 393-394: the returned document is the loaded one
    with one more operation on the target page, whose [x] is
    [position.x * scaleX] and whose [y] is the unclamped [finalY]. *)
Lemma placeSignature_draws_unclamped env pdfDoc index targetPage req
    placed finalX finalY :
  TS.placeSignature env pdfDoc index targetPage req = Return (placed, (finalX, finalY)) →
  ∃ op width height x y,
    placed = draw_on pdfDoc index op ∧
    x = (TS.position_x req * (getWidth targetPage / TS.dimensions_width req))%Q ∧
    y = (getHeight targetPage
         - TS.position_y req * (getHeight targetPage / TS.dimensions_height req)
         - height)%Q ∧
    (op = drawText (TS.data req) x y 24 ∨
     ∃ image, op = drawImage image x y width height None) ∧
    finalX = Math_max 0 (Math_min x (getWidth targetPage - width)) ∧
    finalY = Math_max 0 (Math_min y (getHeight targetPage - height)).
Proof.
  unfold TS.placeSignature. run. intros H.
  destruct (String.eqb (TS.type req) "text").
  - destruct (widthOfTextAtSize env (TS.data req) 24) as [textWidth|]; [|discriminate].
    injection H as <- <- <-.
    eexists _, textWidth, (heightAtSize env 24), _, _.
    repeat split; eauto.
  - destruct (split_comma_1 (TS.data req)) as [part|]; [|discriminate].
    destruct (startsWith (TS.data req) "data:image/png").
    + destruct (embedPng env part) as [image|]; [|discriminate].
      injection H as <- <- <-.
      eexists _, _, _, _, _. repeat split; eauto.
    + destruct (startsWith (TS.data req) "data:image/jpeg" || startsWith (TS.data req) "data:image/jpg").
      * destruct (embedJpg env part) as [image|]; [|discriminate].
        injection H as <- <- <-.
        eexists _, _, _, _, _. repeat split; eauto.
      * discriminate.
Qed.

(** C5. On a 612x792 page shown in a 300x400 viewport, an image displayed at
    150x75 viewport units and placed at (50, 100) is mapped with
    scaleX = 2.04 and scaleY = 1.98 to width 306, height 148.5, x = 102 and
    y = 792 - 198 - 148.5 = 445.5; the rectangle lies inside the page and the
    clamp leaves it where it is. *)
Theorem C5_mapping_scenario env pdfDoc index targetPage req part image :
  (getWidth targetPage == 612)%Q → (getHeight targetPage == 792)%Q →
  (TS.dimensions_width req == 300)%Q → (TS.dimensions_height req == 400)%Q →
  (TS.position_x req == 50)%Q → (TS.position_y req == 100)%Q →
  TS.type req ≠ "text" →
  startsWith (TS.data req) "data:image/png" = true →
  split_comma_1 (TS.data req) = Some part →
  embedPng env part = Some image →
  (inject_Z (Zpos (image_height image))
   * (150 / inject_Z (Zpos (image_width image))) == 75)%Q →
  ∃ x y width height finalX finalY,
    TS.placeSignature env pdfDoc index targetPage req
    = Return (draw_on pdfDoc index (drawImage image x y width height None),
              (finalX, finalY)) ∧
    (getWidth targetPage / TS.dimensions_width req == 2.04)%Q ∧
    (getHeight targetPage / TS.dimensions_height req == 1.98)%Q ∧
    (width == 306)%Q ∧ (height == 148.5)%Q ∧
    (x == 102)%Q ∧ (y == 445.5)%Q ∧
    TS.inside_page targetPage x y width height ∧
    (finalX == 102)%Q ∧ (finalY == 445.5)%Q.
Proof.
  intros HW HH Hw Hh Hx Hy Htype Hpng Hpart Himage Hdisplay.
  apply string_eqb_false in Htype.
  unfold TS.placeSignature. run. rewrite Htype, Hpart, Hpng, Himage.
  do 6 eexists. split; [reflexivity|].
  assert (HsX : (getWidth targetPage / TS.dimensions_width req == 2.04)%Q)
    by (rewrite HW, Hw; reflexivity).
  assert (HsY : (getHeight targetPage / TS.dimensions_height req == 1.98)%Q)
    by (rewrite HH, Hh; reflexivity).
  assert (Hwidth : (150 * (getWidth targetPage / TS.dimensions_width req) == 306)%Q)
    by (rewrite HsX; reflexivity).
  assert (Hheight :
    (inject_Z (Zpos (image_height image)) * (150 / inject_Z (Zpos (image_width image)))
     * (getHeight targetPage / TS.dimensions_height req) == 148.5)%Q)
    by (rewrite HsY, Hdisplay; reflexivity).
  assert (HfX : (TS.position_x req * (getWidth targetPage / TS.dimensions_width req)
                 == 102)%Q)
    by (rewrite HsX, Hx; reflexivity).
  assert (HfY :
    (getHeight targetPage
     - TS.position_y req * (getHeight targetPage / TS.dimensions_height req)
     - inject_Z (Zpos (image_height image)) * (150 / inject_Z (Zpos (image_width image)))
       * (getHeight targetPage / TS.dimensions_height req) == 445.5)%Q)
    by (rewrite Hheight, HsY, Hy, HH; reflexivity).
  repeat split; try assumption.
  - rewrite HfX. discriminate.
  - rewrite HfX, Hwidth, HW. discriminate.
  - rewrite HfY. discriminate.
  - rewrite HfY, Hheight, HH. discriminate.
  - unfold Math_max, Math_min. rewrite HfX, Hwidth, HW. reflexivity.
  - unfold Math_max, Math_min. rewrite HfY, Hheight, HH. reflexivity.
Qed.

Lemma scale_nonneg (a b : Q) : (0 <= a)%Q → (0 < b)%Q → (0 <= a / b)%Q.
Proof.
  intros Ha Hb. unfold Qdiv. apply Qmult_le_0_compat; [done|].
  apply Qlt_le_weak, Qinv_lt_0_compat, Hb.
Qed.

Lemma scale_cancel (a b : Q) : (0 < b)%Q → (b * (a / b) == a)%Q.
Proof. intros Hb. field. intros E. rewrite E in Hb. discriminate. Qed.

(** In exact arithmetic the mapping alone keeps an image inside the page when
    the rectangle the server assumes for it, 150 viewport units wide with the
    image's aspect ratio, is inside the viewport. *)
Lemma mapped_image_inside_page (W H vw vh px py dh : Q) :
  (0 <= W)%Q → (0 <= H)%Q → (0 < vw)%Q → (0 < vh)%Q → (0 <= dh)%Q →
  (0 <= px)%Q → (px + 150 <= vw)%Q → (0 <= py)%Q → (py + dh <= vh)%Q →
  let scaleX := (W / vw)%Q in
  let scaleY := (H / vh)%Q in
  let x := (px * scaleX)%Q in
  let width := (150 * scaleX)%Q in
  let height := (dh * scaleY)%Q in
  let y := (H - py * scaleY - height)%Q in
  (0 <= x ∧ x + width <= W ∧ 0 <= y ∧ y + height <= H)%Q.
Proof.
  intros HW HH Hvw Hvh Hdh Hpx Hpx' Hpy Hpy'. cbv zeta.
  pose proof (scale_nonneg W vw HW Hvw) as HsX.
  pose proof (scale_nonneg H vh HH Hvh) as HsY.
  pose proof (scale_cancel W vw Hvw) as HcX.
  pose proof (scale_cancel H vh Hvh) as HcY.
  set (sX := (W / vw)%Q) in *. set (sY := (H / vh)%Q) in *.
  repeat split; nra.
Qed.

(** C1. The artifact is drawn before lines 393-394 clamp the position: a
    typed signature whose box, 80 x 10 viewport units at (20, 390), lies
    inside the 300 x 400 viewport is drawn on the 612 x 792 page at
    y = 792 - 390 * 1.98 - 22.2 = -2.4, below the page, although the clamp
    computed afterwards would have put it at y = 0. *)
Theorem C1_text_signature_drawn_below_page :
  let env := Examples.server 1700000001000 true true in
  let body := Examples.text_body 20 390 in
  let result := TS.applySignature env (Some "alice") "doc1" body Examples.ts_uploaded in
  ∃ req document x y,
    TS.validateBody body = Return req ∧
    TS.placement_inside_viewport req 80 10 ∧
    result.1 = Return {| TS.res_status := 200;
                         TS.res_json := TS.DocumentSigned "doc1" TS.signed
                                          "/api/docs/view/doc1" |} ∧
    TS.documents result.2 !! "doc1" = Some document ∧
    TS.files result.2 !! TS.filePath document
    = Some (PdfBytes
        {| getPages :=
             [ {| getWidth := 612; getHeight := 792;
                  content := [drawText "Jane Roe" x y 24] |};
               Examples.page_612x792; Examples.page_612x792 ] |}) ∧
    (x == 40.8)%Q ∧ (y == -2.4)%Q ∧
    ¬ TS.inside_page Examples.page_612x792 x y 96 22.2 ∧
    (Math_max 0 (Math_min y (792 - 22.2)) == 0)%Q.
Proof.
  cbv zeta.
  eexists _, _, (12240 # 300)%Q, (-4800 # 2000)%Q.
  split; [vm_compute; reflexivity|].
  split; [unfold TS.placement_inside_viewport; cbn; repeat split; discriminate|].
  split; [vm_compute; reflexivity|].
  split; [vm_compute; reflexivity|].
  split; [vm_compute; reflexivity|].
  split; [reflexivity|]. split; [reflexivity|].
  split; [|reflexivity].
  intros (_ & _ & Hy & _). revert Hy. vm_compute. intros Hy. apply Hy. reflexivity.
Qed.

Lemma placeSignature_image_inside_page env pdfDoc index targetPage req placed finals :
  TS.type req ≠ "text" →
  (0 <= getWidth targetPage)%Q → (0 <= getHeight targetPage)%Q →
  (0 < TS.dimensions_width req)%Q → (0 < TS.dimensions_height req)%Q →
  TS.placeSignature env pdfDoc index targetPage req = Return (placed, finals) →
  ∃ image x y width height,
    placed = draw_on pdfDoc index (drawImage image x y width height None) ∧
    (TS.placement_inside_viewport req 150
       (inject_Z (Zpos (image_height image)) * (150 / inject_Z (Zpos (image_width image)))) →
     TS.inside_page targetPage x y width height).
Proof.
  intros Htype HW HH Hvw Hvh. apply string_eqb_false in Htype.
  unfold TS.placeSignature. run. rewrite Htype. intros H.
  assert (Hdh : ∀ image, (0 <= inject_Z (Zpos (image_height image))
                          * (150 / inject_Z (Zpos (image_width image))))%Q).
  { intros image. apply Qmult_le_0_compat; [done|]. apply scale_nonneg; done. }
  repeat case_match; simplify_eq;
    (eexists _, _, _, _, _; split; [reflexivity|];
     intros (Hx & Hx' & Hy & Hy');
     apply mapped_image_inside_page; auto).
Qed.


(** *** Outcomes of [applySignature] *)

(** A successful run: every step the handler took. *)
Lemma applySignature_success env req_user id body w resp w' :
  TS.applySignature env req_user id body w = (Return resp, w') →
  ∃ uid req document pdfDoc index targetPage placed finals,
    req_user = Some uid ∧
    TS.validateBody body = Return req ∧
    TS.documents w !! id = Some document ∧
    TS.user document = uid ∧
    TS.files w !! TS.filePath document = Some (PdfBytes pdfDoc) ∧
    (1 <= TS.page req)%Q ∧ (TS.page req <= num_of_nat (length (getPages pdfDoc)))%Q ∧
    getPages pdfDoc !! index = Some targetPage ∧
    TS.placeSignature env pdfDoc index targetPage req = Return (placed, finals) ∧
    fs_write_ok env (TS.newFilePath env document) = true ∧
    db_save_ok env = true ∧
    w' = {| TS.documents := <[id := TS.signedDocument env document]> (TS.documents w);
            TS.files := <[TS.newFilePath env document := PdfBytes placed]> (TS.files w) |} ∧
    resp = {| TS.res_status := 200;
              TS.res_json := TS.DocumentSigned id TS.signed ("/api/docs/view/" +:+ id) |}.
Proof.
  unfold TS.applySignature. intros H.
  destruct req_user as [uid|]; [|discriminate].
  run. destruct (TS.validateBody body) as [req|]; [|discriminate].
  destruct (TS.documents w !! id) as [document|] eqn:Hdoc; [|discriminate].
  destruct (String.eqb (TS.user document) uid) eqn:Huser; [|discriminate].
  apply string_eqb_true in Huser. cbn [negb] in H.
  destruct (TS.files w !! TS.filePath document) as [[pdfDoc|]|] eqn:Hfile; try discriminate.
  destruct (num_lt (TS.page req) 1) eqn:Hlow; [discriminate|].
  destruct (num_lt (num_of_nat (length (getPages pdfDoc))) (TS.page req)) eqn:Hhigh;
    [discriminate|].
  apply num_lt_false in Hlow, Hhigh. cbn [orb] in H.
  destruct (TS.array_index (TS.page req - 1)) as [index|]; [|discriminate].
  destruct (getPages pdfDoc !! index) as [targetPage|] eqn:Hpage; [|discriminate].
  destruct (TS.placeSignature env pdfDoc index targetPage req) as [[placed finals]|] eqn:Hplace;
    [|discriminate].
  cbn [fst] in H.
  destruct (fs_write_ok env (TS.newFilePath env document)) eqn:Hwrite; [|discriminate].
  cbn [TS.documents TS.files] in H.
  destruct (db_save_ok env) eqn:Hsave; [|discriminate].
  injection H as <- <-.
  eexists uid, req, document, pdfDoc, index, targetPage, placed, finals.
  repeat split; try done.
Qed.

(** A failed run leaves the metadata store as it was; the disk changed only
    if the new file was written and the store then refused the save. *)
Lemma applySignature_failure env req_user id body w e w' :
  TS.applySignature env req_user id body w = (Throw e, w') →
  TS.documents w' = TS.documents w ∧
  (TS.files w' = TS.files w ∨
   ∃ document bytes,
     TS.documents w !! id = Some document ∧
     fs_write_ok env (TS.newFilePath env document) = true ∧
     db_save_ok env = false ∧
     TS.files w' = <[TS.newFilePath env document := bytes]> (TS.files w)).
Proof.
  unfold TS.applySignature. intros H.
  destruct req_user as [uid|]; [|by injection H as <- <-; auto].
  run. destruct (TS.validateBody body) as [req|]; [|by injection H as <- <-; auto].
  destruct (TS.documents w !! id) as [document|] eqn:Hdoc; [|by injection H as <- <-; auto].
  destruct (negb _); [by injection H as <- <-; auto|].
  destruct (TS.files w !! TS.filePath document) as [[pdfDoc|]|];
    try (by injection H as <- <-; auto).
  destruct (_ || _); [by injection H as <- <-; auto|].
  destruct (TS.array_index _) as [index|]; [|by injection H as <- <-; auto].
  destruct (getPages pdfDoc !! index) as [targetPage|]; [|by injection H as <- <-; auto].
  destruct (TS.placeSignature env pdfDoc index targetPage req) as [[placed finals]|];
    [|by injection H as <- <-; auto].
  cbn [fst] in H.
  destruct (fs_write_ok env (TS.newFilePath env document)) eqn:Hwrite;
    [|by injection H as <- <-; auto].
  cbn [TS.documents TS.files] in H.
  destruct (db_save_ok env) eqn:Hsave; [discriminate|].
  injection H as <- <-. cbn. split; [done|]. right.
  eexists document, _. repeat split; done.
Qed.

(** *** Outcomes of [applySignatures] *)

Lemma embedSignature_cases env document signature w :
  (JS.embedSignature env document signature w = (Throw JS.pdf_failure, w)) ∨
  (∃ pdfDoc firstPage image,
     JS.files w !! JS.filePath document = Some (PdfBytes pdfDoc) ∧
     getPages pdfDoc !! 0%nat = Some firstPage ∧
     fs_write_ok env (JS.filePath document) = true ∧
     JS.embedSignature env document signature w
     = (Return (),
        {| JS.documents := JS.documents w; JS.users := JS.users w;
           JS.files :=
             <[JS.filePath document :=
                 PdfBytes (draw_on pdfDoc 0
                   (drawImage image
                      (getWidth firstPage / 2 - 250 / 2)%Q
                      (getHeight firstPage / 2 - 125 / 2)%Q 250 125
                      (Some (9 # 10)%Q)))]> (JS.files w) |})).
Proof.
  unfold JS.embedSignature, JS.pdf_failure. run.
  destruct (JS.files w !! JS.filePath document) as [[pdfDoc|]|] eqn:Hfile; auto.
  set (decoded :=
    if startsWith signature "data:image/png" then _ else _).
  destruct (decoded w) as [[image|] w1] eqn:Hdecoded.
  - assert (w1 = w) as ->.
    { subst decoded. repeat case_match; simplify_eq; done. }
    destruct (getPages pdfDoc !! 0%nat) as [firstPage|] eqn:Hpage; auto.
    destruct (fs_write_ok env (JS.filePath document)) eqn:Hwrite; auto.
    right. eexists pdfDoc, firstPage, image. repeat split; done.
  - assert (w1 = w) as ->.
    { subst decoded. repeat case_match; simplify_eq; done. }
    auto.
Qed.

(** The check of lines 276-282 against the roles of the specification. *)
Lemma hasSignPermission_spec (document : JS.Document) (userId : string) :
  existsb (λ share, String.eqb (JS.share_user share) userId
                    && bool_decide (JS.permission share = JS.view_and_sign))
          (JS.sharedWith document) = true
  ↔ ∃ share, share ∈ JS.sharedWith document ∧ JS.share_user share = userId
             ∧ JS.permission share = JS.view_and_sign.
Proof.
  rewrite existsb_exists. split.
  - intros (share & Hin & Hshare). apply andb_true_iff in Hshare as [Huser Hperm].
    exists share. rewrite list_elem_of_In. apply string_eqb_true in Huser.
    apply bool_decide_eq_true in Hperm. done.
  - intros (share & Hin & Huser & Hperm). exists share.
    rewrite <- list_elem_of_In. split; [done|].
    apply andb_true_iff. split; [by apply string_eqb_true | by apply bool_decide_eq_true].
Qed.

Lemma applySignatures_success env userId id sig w resp w' :
  JS.applySignatures env userId id sig w = (Return resp, w') →
  ∃ signature document pdfDoc firstPage image,
    sig = Some signature ∧ signature ≠ "" ∧
    JS.documents w !! id = Some document ∧
    (JS.owner document = userId ∨
     ∃ share, share ∈ JS.sharedWith document ∧ JS.share_user share = userId
              ∧ JS.permission share = JS.view_and_sign) ∧
    JS.files w !! JS.filePath document = Some (PdfBytes pdfDoc) ∧
    getPages pdfDoc !! 0%nat = Some firstPage ∧
    fs_write_ok env (JS.filePath document) = true ∧
    db_save_ok env = true ∧
    w' = {| JS.documents :=
              <[id := JS.recordSigner env userId signature document]> (JS.documents w);
            JS.users := JS.users w;
            JS.files :=
              <[JS.filePath document :=
                  PdfBytes (draw_on pdfDoc 0
                    (drawImage image
                       (getWidth firstPage / 2 - 250 / 2)%Q
                       (getHeight firstPage / 2 - 125 / 2)%Q 250 125
                       (Some (9 # 10)%Q)))]> (JS.files w) |} ∧
    resp = {| JS.res_status := 200;
              JS.res_json := JS.SignedSuccessfully
                               (JS.recordSigner env userId signature document) |}.
Proof.
  unfold JS.applySignatures. intros H.
  destruct sig as [signature|]; [|discriminate].
  destruct (String.eqb signature "") eqn:Hsig; [discriminate|].
  apply string_eqb_false in Hsig.
  unfold mbind, handler_bind at 1 in H. unfold JS.findById in H.
  destruct (JS.documents w !! id) as [document|] eqn:Hdoc; [|discriminate].
  destruct (negb (String.eqb (JS.owner document) userId) && negb _) eqn:Hauth;
    [discriminate|].
  assert (JS.owner document = userId ∨
     ∃ share, share ∈ JS.sharedWith document ∧ JS.share_user share = userId
              ∧ JS.permission share = JS.view_and_sign) as Hauthorised.
  { apply andb_false_iff in Hauth as [Hauth|Hauth]; apply negb_false_iff in Hauth.
    - left. by apply string_eqb_true.
    - right. by apply hasSignPermission_spec. }
  unfold mbind, handler_bind at 1 in H.
  destruct (embedSignature_cases env document signature w)
    as [Hfail|(pdfDoc & firstPage & image & Hfile & Hpage & Hwrite & Hok)].
  { rewrite Hfail in H. discriminate. }
  rewrite Hok in H. run. cbn [JS.documents JS.users JS.files] in H.
  destruct (db_save_ok env) eqn:Hsave; [|discriminate].
  injection H as <- <-.
  eexists signature, document, pdfDoc, firstPage, image. repeat split; done.
Qed.

(** A failed run leaves the collection as it was. *)
Lemma applySignatures_failure env userId id sig w e w' :
  JS.applySignatures env userId id sig w = (Throw e, w') →
  JS.documents w' = JS.documents w ∧ JS.users w' = JS.users w ∧
  (JS.files w' = JS.files w ∨
   ∃ document bytes,
     JS.documents w !! id = Some document ∧
     fs_write_ok env (JS.filePath document) = true ∧ db_save_ok env = false ∧
     JS.files w' = <[JS.filePath document := bytes]> (JS.files w)).
Proof.
  unfold JS.applySignatures. intros H.
  destruct sig as [signature|]; [|by injection H as <- <-; auto].
  destruct (String.eqb signature ""); [by injection H as <- <-; auto|].
  unfold mbind, handler_bind at 1 in H. unfold JS.findById in H.
  destruct (JS.documents w !! id) as [document|] eqn:Hdoc; [|by injection H as <- <-; auto].
  destruct (_ && _); [by injection H as <- <-; auto|].
  unfold mbind, handler_bind at 1 in H.
  destruct (embedSignature_cases env document signature w)
    as [Hfail|(pdfDoc & firstPage & image & Hfile & Hpage & Hwrite & Hok)].
  { rewrite Hfail in H. by injection H as <- <-; auto. }
  rewrite Hok in H. run. cbn [JS.documents JS.users JS.files] in H.
  destruct (db_save_ok env) eqn:Hsave; [discriminate|].
  injection H as <- <-. cbn. repeat split; try done. right.
  eexists document, _. repeat split; done.
Qed.

Lemma placeSignature_error env pdfDoc index targetPage req e :
  TS.placeSignature env pdfDoc index targetPage req = Throw e →
  statusCode e = 200%Z ∨ statusCode e = 400%Z.
Proof.
  unfold TS.placeSignature. run. intros H.
  repeat case_match; simplify_eq; cbn; auto.
Qed.

(** Once the owner's valid request found its document, the handler fails
    only with 400 or 500. *)
Lemma applySignature_owner_error env id body w document req e w' :
  TS.documents w !! id = Some document → TS.validateBody body = Return req →
  TS.applySignature env (Some (TS.user document)) id body w = (Throw e, w') →
  statusCode e = 400%Z ∨ statusCode e = 500%Z.
Proof.
  intros Hdoc Hvalid. unfold TS.applySignature. run. rewrite Hvalid, Hdoc.
  rewrite (proj2 (string_eqb_true _ _) eq_refl). cbn [negb].
  destruct (TS.files w !! TS.filePath document) as [[pdfDoc|]|];
    try (intros H; injection H as <- <-; cbn; auto).
  destruct (_ || _); [intros H; injection H as <- <-; cbn; auto|].
  destruct (TS.array_index _) as [index|]; [|intros H; injection H as <- <-; cbn; auto].
  destruct (getPages pdfDoc !! index) as [targetPage|];
    [|intros H; injection H as <- <-; cbn; auto].
  destruct (TS.placeSignature env pdfDoc index targetPage req) as [[placed finals]|e0]
    eqn:Hplace.
  - cbn [fst].
    destruct (fs_write_ok env (TS.newFilePath env document));
      [|intros H; injection H as <- <-; cbn; auto].
    cbn [TS.documents TS.files].
    destruct (db_save_ok env); [discriminate|].
    intros H; injection H as <- <-; cbn; auto.
  - apply placeSignature_error in Hplace.
    intros H; injection H as <- <-; cbn.
    destruct Hplace as [-> | ->]; cbn; auto.
Qed.

(** Membership in a list given by its elements. *)
Ltac in_list :=
  cbn; repeat first [apply list_elem_of_here | apply list_elem_of_further].

(** A body that fails validation is answered with 400. *)
Lemma validateBody_error body e :
  TS.validateBody body = Throw e → statusCode e = 400%Z.
Proof.
  unfold TS.validateBody. run. intros H.
  repeat case_match; simplify_eq; reflexivity.
Qed.

(** White space beyond ASCII is trimmed too: a no-break space (U+00A0), an
    ideographic space (U+3000) and a byte order mark (U+FEFF) around a
    name. *)
Lemma trim_unicode_white_space :
  trim (MoreExamples.nbsp +:+ " Jane Roe" +:+ MoreExamples.ideographic_space
        +:+ MoreExamples.byte_order_mark) = "Jane Roe" ∧
  trim (" " +:+ MoreExamples.nbsp) = "".
Proof. split; vm_compute; reflexivity. Qed.

(** C2, as the code has it.  Both handlers validate the body before they
    look the document up, so a malformed request is answered with 400,
    whoever sends it.  For a request whose body passes, signing is refused
    with 403 exactly when the actor is neither the owner nor the holder of a
    [view_and_sign] grant; [applySignature] works on records that carry no
    grant list and checks the owner.  Whatever the body, the attempt of an
    actor who is not authorised fails, with 400 or 403, and changes
    nothing. *)
Theorem C2_sign_requires_owner_or_sign_grant :
  (∀ env userId id signature w document,
     JS.documents w !! id = Some document → signature ≠ "" →
     let authorised :=
       JS.owner document = userId ∨
       ∃ share, share ∈ JS.sharedWith document ∧ JS.share_user share = userId
                ∧ JS.permission share = JS.view_and_sign in
     let result := JS.applySignatures env userId id (Some signature) w in
     (result.1 = Throw {| statusCode := 403;
                          message := Msg "Not authorized to sign this document." |}
      ↔ ¬ authorised) ∧
     (¬ authorised → result.2 = w)) ∧
  (∀ env uid id body w document req,
     TS.documents w !! id = Some document → TS.validateBody body = Return req →
     let result := TS.applySignature env (Some uid) id body w in
     (result.1 = Throw {| statusCode := 403;
                          message := FailedToApply
                                       (Msg "Not authorized to sign this document.") |}
      ↔ TS.user document ≠ uid) ∧
     (TS.user document ≠ uid → result.2 = w)) ∧
  (∀ env userId id sig w,
     sig = None ∨ sig = Some "" →
     JS.applySignatures env userId id sig w
     = (Throw {| statusCode := 400; message := Msg "Signature data is required." |}, w)) ∧
  (∀ env uid id body w e,
     TS.validateBody body = Throw e →
     TS.applySignature env (Some uid) id body w = (Throw e, w) ∧ statusCode e = 400%Z) ∧
  (∀ env userId id sig w document,
     JS.documents w !! id = Some document →
     ¬ (JS.owner document = userId ∨
        ∃ share, share ∈ JS.sharedWith document ∧ JS.share_user share = userId
                 ∧ JS.permission share = JS.view_and_sign) →
     ∃ e, JS.applySignatures env userId id sig w = (Throw e, w) ∧
          (statusCode e = 400%Z ∨ statusCode e = 403%Z)) ∧
  (∀ env uid id body w document,
     TS.documents w !! id = Some document → TS.user document ≠ uid →
     ∃ e, TS.applySignature env (Some uid) id body w = (Throw e, w) ∧
          (statusCode e = 400%Z ∨ statusCode e = 403%Z)).
Proof.
  assert (HJS : ∀ env userId id signature w document,
    JS.documents w !! id = Some document → signature ≠ "" →
    ¬ (JS.owner document = userId ∨
       ∃ share, share ∈ JS.sharedWith document ∧ JS.share_user share = userId
                ∧ JS.permission share = JS.view_and_sign) →
    JS.applySignatures env userId id (Some signature) w
    = (Throw {| statusCode := 403;
                message := Msg "Not authorized to sign this document." |}, w)).
  { intros env userId id signature w document Hdoc Hsig Hno.
    unfold JS.applySignatures.
    apply string_eqb_false in Hsig. rewrite Hsig.
    unfold mbind, handler_bind at 1. unfold JS.findById. rewrite Hdoc.
    destruct (String.eqb (JS.owner document) userId) eqn:Howner.
    { apply string_eqb_true in Howner. destruct Hno. by left. }
    destruct (existsb _ _) eqn:Hgrant.
    { apply hasSignPermission_spec in Hgrant. destruct Hno. by right. }
    reflexivity. }
  assert (HTS : ∀ env uid id body w document req,
    TS.documents w !! id = Some document → TS.validateBody body = Return req →
    TS.user document ≠ uid →
    TS.applySignature env (Some uid) id body w
    = (Throw {| statusCode := 403;
                message := FailedToApply
                             (Msg "Not authorized to sign this document.") |}, w)).
  { intros env uid id body w document req Hdoc Hvalid Huser.
    unfold TS.applySignature. run. rewrite Hvalid, Hdoc.
    by rewrite (proj2 (string_eqb_false _ _) Huser). }
  assert (HJS400 : ∀ env userId id sig w,
    sig = None ∨ sig = Some "" →
    JS.applySignatures env userId id sig w
    = (Throw {| statusCode := 400; message := Msg "Signature data is required." |}, w)).
  { by intros env userId id sig w [-> | ->]. }
  assert (HTS400 : ∀ env uid id body w e,
    TS.validateBody body = Throw e →
    TS.applySignature env (Some uid) id body w = (Throw e, w) ∧ statusCode e = 400%Z).
  { intros env uid id body w e Hinvalid. split; [|by eapply validateBody_error].
    unfold TS.applySignature. run. by rewrite Hinvalid. }
  split; [|split; [|split; [|split; [|split]]]].
  - intros env userId id signature w document Hdoc Hsig authorised result.
    split; [split|].
    + intros Hthrow Hyes.
      destruct result as [o w'] eqn:Hresult. cbn in Hthrow. subst o.
      subst result. revert Hresult. unfold JS.applySignatures.
      apply string_eqb_false in Hsig. rewrite Hsig.
      unfold mbind, handler_bind at 1. unfold JS.findById. rewrite Hdoc.
      destruct (negb (String.eqb (JS.owner document) userId) && negb _) eqn:Hauth.
      { apply andb_true_iff in Hauth as [Howner Hgrant].
        apply negb_true_iff in Howner, Hgrant.
        destruct Hyes as [Hyes|Hyes].
        - apply string_eqb_false in Howner. done.
        - apply hasSignPermission_spec in Hyes. congruence. }
      unfold mbind, handler_bind at 1.
      destruct (embedSignature_cases env document signature w)
        as [Hfail|(pdfDoc & firstPage & image & Hfile & Hpage & Hwrite & Hok)].
      { rewrite Hfail. discriminate. }
      rewrite Hok. run. cbn [JS.documents JS.users JS.files].
      destruct (db_save_ok env); discriminate.
    + intros Hno. subst result. by rewrite (HJS _ _ _ _ _ _ Hdoc Hsig Hno).
    + intros Hno. subst result. by rewrite (HJS _ _ _ _ _ _ Hdoc Hsig Hno).
  - intros env uid id body w document req Hdoc Hvalid result.
    subst result.
    destruct (String.eqb (TS.user document) uid) eqn:Huser.
    + apply string_eqb_true in Huser. subst uid. split; [|done]. split; [|done].
      intros Hthrow. exfalso.
      destruct (TS.applySignature env (Some (TS.user document)) id body w)
        as [o w'] eqn:Hrun.
      cbn in Hthrow. subst o.
      by destruct (applySignature_owner_error _ _ _ _ _ _ _ _ Hdoc Hvalid Hrun).
    + apply string_eqb_false in Huser.
      rewrite (HTS _ _ _ _ _ _ _ Hdoc Hvalid Huser). done.
  - exact HJS400.
  - exact HTS400.
  - intros env userId id sig w document Hdoc Hno.
    destruct sig as [signature|].
    + destruct (decide (signature = "")) as [->|Hsig].
      * eexists. split; [apply HJS400; by right|]. by left.
      * eexists. split; [by apply (HJS _ _ _ _ _ _ Hdoc Hsig Hno)|]. by right.
    + eexists. split; [apply HJS400; by left|]. by left.
  - intros env uid id body w document Hdoc Huser.
    destruct (TS.validateBody body) as [req|e] eqn:Hvalid.
    + eexists. split; [by apply (HTS _ _ _ _ _ _ _ Hdoc Hvalid Huser)|]. by right.
    + destruct (HTS400 env uid id body w e Hvalid) as [Hrun Hcode].
      exists e. split; [done|]. by left.
Qed.

(** C2, as stated, fails: Bob neither owns Alice's document nor holds a
    grant on it, and his sign attempt is answered with 400, not with 403,
    when its body is malformed: a request without signature data at
    [applySignatures], a text signature of white space at [applySignature].
    Nothing is applied in either case. *)
Lemma C2_malformed_attempt_is_answered_400 :
  let env := Examples.server 1700000001000 true true in
  (∃ document,
     JS.documents Examples.js_uploaded !! "doc1" = Some document ∧
     JS.owner document ≠ "bob" ∧ JS.sharedWith document = [] ∧
     JS.applySignatures env "bob" "doc1" None Examples.js_uploaded
     = (Throw {| statusCode := 400; message := Msg "Signature data is required." |},
        Examples.js_uploaded)) ∧
  (∃ document,
     TS.documents Examples.ts_uploaded !! "doc1" = Some document ∧
     TS.user document ≠ "bob" ∧
     TS.applySignature env (Some "bob") "doc1" MoreExamples.blank_body Examples.ts_uploaded
     = (Throw {| statusCode := 400; message := Msg "Missing or empty signature data." |},
        Examples.ts_uploaded)).
Proof.
  cbv zeta. split.
  - exists Examples.js_document.
    split; [vm_compute; reflexivity|]. split; [discriminate|]. split; reflexivity.
  - exists Examples.ts_document.
    split; [vm_compute; reflexivity|]. split; [discriminate|].
    vm_compute. reflexivity.
Qed.

(** C3. The record is updated only after the new file was written: whenever
    a run of [applySignature] changed the collection, the write had succeeded
    and the file is on disk at the path the record now names.  If the write
    fails, the run fails and neither the collection nor the disk changes, and
    a request that got as far as the write fails with 500 (the write error,
    wrapped by the handler's [catch]).  [applySignatures] likewise leaves the
    record, its status and its [signedBy] entries untouched when its write
    fails. *)
Theorem C3_metadata_updated_only_after_write :
  (∀ env req_user id body w,
     let result := TS.applySignature env req_user id body w in
     TS.documents result.2 ≠ TS.documents w →
     ∃ document placed,
       TS.documents w !! id = Some document ∧
       fs_write_ok env (TS.newFilePath env document) = true ∧
       TS.files result.2 !! TS.newFilePath env document = Some (PdfBytes placed) ∧
       TS.documents result.2 !! id = Some (TS.signedDocument env document)) ∧
  (∀ env req_user id body w document,
     TS.documents w !! id = Some document →
     fs_write_ok env (TS.newFilePath env document) = false →
     ∃ e, TS.applySignature env req_user id body w = (Throw e, w)) ∧
  (∀ env id body w document req pdfDoc index targetPage placed,
     TS.validateBody body = Return req →
     TS.documents w !! id = Some document →
     TS.files w !! TS.filePath document = Some (PdfBytes pdfDoc) →
     (1 <= TS.page req)%Q → (TS.page req <= num_of_nat (length (getPages pdfDoc)))%Q →
     TS.array_index (TS.page req - 1) = Some index →
     getPages pdfDoc !! index = Some targetPage →
     TS.placeSignature env pdfDoc index targetPage req = Return placed →
     fs_write_ok env (TS.newFilePath env document) = false →
     TS.applySignature env (Some (TS.user document)) id body w
     = (Throw {| statusCode := 500;
                 message := FailedToApply (LibraryError "fs.writeFile") |}, w)) ∧
  (∀ env userId id sig w document,
     JS.documents w !! id = Some document →
     fs_write_ok env (JS.filePath document) = false →
     ∃ e, JS.applySignatures env userId id sig w = (Throw e, w)).
Proof.
  split; [|split; [|split]].
  - intros env req_user id body w result Hchanged.
    destruct result as [[resp|e] w'] eqn:Hrun; subst result.
    + apply applySignature_success in Hrun
        as (uid & req & document & pdfDoc & index & targetPage & placed & finals
            & _ & _ & Hdoc & _ & _ & _ & _ & _ & _ & Hwrite & _ & -> & _).
      exists document, placed. cbn. split; [done|]. split; [done|].
      split; apply lookup_insert_eq.
    + apply applySignature_failure in Hrun as [Hsame _]. cbn in Hchanged. done.
  - intros env req_user id body w document Hdoc Hwrite.
    destruct (TS.applySignature env req_user id body w) as [[resp|e] w'] eqn:Hrun.
    + apply applySignature_success in Hrun
        as (uid & req & document' & pdfDoc & index & targetPage & placed & finals
            & _ & _ & Hdoc' & _ & _ & _ & _ & _ & _ & Hwrite' & _).
      congruence.
    + exists e. f_equal.
      apply applySignature_failure in Hrun
        as [Hdocs [Hfiles|(document' & bytes & Hdoc' & Hwrite' & _)]];
        [|congruence].
      destruct w, w'. cbn in *. congruence.
  - intros env id body w document req pdfDoc index targetPage placed
      Hvalid Hdoc Hfile Hlow Hhigh Hindex Hpage Hplace Hwrite.
    unfold TS.applySignature. run. rewrite Hvalid, Hdoc.
    rewrite (proj2 (string_eqb_true _ _) eq_refl). cbn [negb]. rewrite Hfile.
    rewrite (proj2 (num_lt_false _ _) Hlow), (proj2 (num_lt_false _ _) Hhigh).
    cbn [orb]. rewrite Hindex, Hpage, Hplace, Hwrite. reflexivity.
  - intros env userId id sig w document Hdoc Hwrite.
    destruct (JS.applySignatures env userId id sig w) as [[resp|e] w'] eqn:Hrun.
    + apply applySignatures_success in Hrun
        as (signature & document' & pdfDoc & firstPage & image
            & _ & _ & Hdoc' & _ & _ & _ & Hwrite' & _).
      congruence.
    + exists e. f_equal.
      apply applySignatures_failure in Hrun
        as (Hdocs & Husers & [Hfiles|(document' & bytes & Hdoc' & Hwrite' & _)]);
        [|congruence].
      destruct w, w'. cbn in *. congruence.
Qed.

(** C6. A sign request whose page number is not between 1 and the page count
    of the stored PDF fails and changes neither the disk nor the record.  The
    error is the 400 of the page check: a number above the page count is
    refused when the PDF is loaded (lines 307-310), a number below 1 already
    by the validation of the body (lines 249-253). *)
Theorem C6_page_out_of_range env req_user id body w document pdfDoc n :
  TS.documents w !! id = Some document →
  TS.files w !! TS.filePath document = Some (PdfBytes pdfDoc) →
  TS.pageNumber body = Some n →
  ¬ (1 <= n ∧ n <= num_of_nat (length (getPages pdfDoc)))%Q →
  let result := TS.applySignature env req_user id body w in
  (∃ e, result = (Throw e, w)) ∧
  (∀ req, req_user = Some (TS.user document) → TS.validateBody body = Return req →
     result.1 = Throw {| statusCode := 400;
                         message := FailedToApply
                           (PageOutOfBounds n (length (getPages pdfDoc))) |}) ∧
  (∀ signatureData x y width height,
     is_Some req_user → (n < 1)%Q →
     TS.signatureData body = Some signatureData → trim signatureData ≠ "" →
     TS.signaturePosition body = Some (x, y) →
     TS.pdfPageDimensions body = Some (width, height) →
     (0 < width)%Q → (0 < height)%Q →
     result.1 = Throw {| statusCode := 400;
                         message := Msg "Invalid page number. Must be a positive integer." |}).
Proof.
  intros Hdoc Hfile Hn Hout result.
  assert (Hvalid : ∀ req, TS.validateBody body = Return req →
            TS.page req = n ∧ (1 <= n)%Q).
  { intros req. unfold TS.validateBody. run. rewrite Hn.
    intros H. repeat case_match; simplify_eq; cbn;
      (split; [done|]); by apply num_lt_false. }
  split; [|split].
  - destruct result as [[resp|e] w'] eqn:Hrun; subst result.
    + apply applySignature_success in Hrun
        as (uid & req & document' & pdfDoc' & index & targetPage & placed & finals
            & _ & Hreq & Hdoc' & _ & Hfile' & Hlow & Hhigh & _).
      apply Hvalid in Hreq as [<- _]. destruct Hout. split; [done|].
      congruence.
    + exists e. f_equal. revert Hrun. unfold TS.applySignature.
      destruct req_user as [uid|]; [|by intros H; injection H as <- <-].
      run. destruct (TS.validateBody body) as [req|] eqn:Hreq;
        [|by intros H; injection H as <- <-].
      destruct (Hvalid req eq_refl) as [Hpage Hlow]. rewrite Hdoc.
      destruct (negb _); [by intros H; injection H as <- <-|].
      rewrite Hfile, Hpage.
      assert (num_lt (num_of_nat (length (getPages pdfDoc))) n = true) as ->.
      { apply num_lt_true. apply Qnot_le_lt. intros Hhigh. by destruct Hout. }
      rewrite orb_true_r. by intros H; injection H as <- <-.
  - intros req -> Hreq. subst result.
    pose proof (Hvalid req Hreq) as [Hpage Hlow].
    unfold TS.applySignature. run. rewrite Hreq, Hdoc.
    rewrite (proj2 (string_eqb_true _ _) eq_refl). cbn [negb]. rewrite Hfile, Hpage.
    assert (num_lt (num_of_nat (length (getPages pdfDoc))) n = true) as ->.
    { apply num_lt_true. apply Qnot_le_lt. intros Hhigh. by destruct Hout. }
    rewrite orb_true_r. reflexivity.
  - intros signatureData x y width height [uid ->] Hlow Hdata Htrim Hpos Hdims Hwidth Hheight.
    subst result. unfold TS.applySignature, TS.validateBody. run.
    rewrite Hdata, Hpos, Hdims, Hn.
    rewrite (proj2 (string_eqb_false _ _) Htrim).
    assert (num_le width 0 = false) as ->.
    { apply not_true_iff_false. rewrite num_le_true. by apply Qlt_not_le. }
    assert (num_le height 0 = false) as ->.
    { apply not_true_iff_false. rewrite num_le_true. by apply Qlt_not_le. }
    cbn [orb]. rewrite (proj2 (num_lt_true _ _) Hlow). reflexivity.
Qed.

(** C4, as the code has it.  A successful [applySignature] writes exactly
    one file, in the signed-documents directory, named after the base name of
    [originalName], the clock and [.pdf], and points the record at it; no
    path is deleted and no other path is written, so the file the record
    named before is untouched whenever its path is not the new one.  A
    successful [applySignatures] writes back to [document.filePath] and
    creates no file. *)
Theorem C4_where_the_new_version_goes :
  (∀ env req_user id body w resp w',
     TS.applySignature env req_user id body w = (Return resp, w') →
     ∃ document placed document',
       let newFileName :=
         path_basename env (TS.originalName document)
                       (path_extname env (TS.originalName document))
         +:+ "_signed_" +:+ pretty (Date_now env) +:+ ".pdf" in
       let newFilePath :=
         path_join env (path_join env (dirname env) "../../signed_documents") newFileName in
       TS.documents w !! id = Some document ∧
       TS.files w' = <[newFilePath := PdfBytes placed]> (TS.files w) ∧
       TS.documents w' !! id = Some document' ∧
       TS.filePath document' = newFilePath ∧
       TS.fileName document' = trim newFileName ∧
       TS.originalName document' = TS.originalName document ∧
       (∀ p, p ≠ newFilePath → TS.files w' !! p = TS.files w !! p) ∧
       (TS.filePath document ≠ newFilePath →
        TS.files w' !! TS.filePath document = TS.files w !! TS.filePath document)) ∧
  (∀ env userId id sig w resp w',
     JS.applySignatures env userId id sig w = (Return resp, w') →
     ∃ document bytes document',
       JS.documents w !! id = Some document ∧
       JS.files w' = <[JS.filePath document := bytes]> (JS.files w) ∧
       JS.documents w' !! id = Some document' ∧
       JS.filePath document' = JS.filePath document ∧
       dom (JS.files w') = dom (JS.files w)).
Proof.
  split.
  - intros env req_user id body w resp w' Hrun.
    apply applySignature_success in Hrun
      as (uid & req & document & pdfDoc & index & targetPage & placed & finals
          & _ & _ & Hdoc & _ & _ & _ & _ & _ & _ & _ & _ & -> & _).
    exists document, placed, (TS.signedDocument env document). cbn.
    split; [done|]. split; [done|]. split; [apply lookup_insert_eq|].
    do 3 (split; [done|]).
    split; intros; by apply lookup_insert_ne.
  - intros env userId id sig w resp w' Hrun.
    apply applySignatures_success in Hrun
      as (signature & document & pdfDoc & firstPage & image
          & _ & _ & Hdoc & _ & Hfile & _ & _ & _ & -> & _).
    eexists document, _, (JS.recordSigner env userId signature document). cbn.
    split; [done|]. split; [done|]. split; [apply lookup_insert_eq|].
    split; [done|].
    rewrite dom_insert_L. apply subseteq_union_1_L, singleton_subseteq_l.
    by eapply elem_of_dom_2.
Qed.

(** C4, as stated, fails on [applySignatures]: Alice signs her uploaded
    document, the run succeeds, and the file the record pointed to has been
    overwritten in place; no new file exists. *)
Lemma C4_overwritten_in_place :
  let env := Examples.server 1700000001000 true true in
  let w := Examples.js_uploaded in
  let result := JS.applySignatures env "alice" "doc1" (Some Examples.png) w in
  ∃ document resp,
    JS.documents w !! "doc1" = Some document ∧
    result.1 = Return resp ∧ JS.res_status resp = 200%Z ∧
    JS.files w !! JS.filePath document = Some (PdfBytes Examples.three_pages) ∧
    JS.files result.2 !! JS.filePath document ≠ JS.files w !! JS.filePath document ∧
    size (JS.files result.2) = size (JS.files w).
Proof.
  cbv zeta. eexists _, _.
  split; [vm_compute; reflexivity|].
  split; [vm_compute; reflexivity|].
  split; [reflexivity|].
  split; [vm_compute; reflexivity|].
  split; [vm_compute; discriminate|].
  vm_compute. reflexivity.
Qed.

(** *** Drawing changes the document *)


(** *** Upserts on lists keyed by a user *)

Section keyed.
Context {A : Type} (key : A → string).

Lemma filter_key_absent (k : string) (l : list A) :
  k ∉ key <$> l → filter (λ a, key a = k) l = [].
Proof.
  induction l as [|a l IH]; [done|]. intros Hk. rewrite fmap_cons in Hk.
  apply not_elem_of_cons in Hk as [Hne Hk].
  rewrite filter_cons_False by congruence. auto.
Qed.

(** Replacing the first element found for [k] by one with the same key. *)
Lemma keys_insert_found (k : string) (l : list A) (i : nat) (a a' : A) :
  list_find (λ a, key a = k) l = Some (i, a) → key a' = key a →
  key <$> <[i := a']> l = key <$> l.
Proof.
  intros Hfind Hkey. apply list_find_Some in Hfind as (Hi & _ & _).
  rewrite list_fmap_insert, Hkey. apply list_insert_id.
  by rewrite list_lookup_fmap, Hi.
Qed.

Lemma filter_insert_found (k : string) (l : list A) (i : nat) (a a' : A) :
  NoDup (key <$> l) →
  list_find (λ a, key a = k) l = Some (i, a) → key a' = k →
  filter (λ a, key a = k) (<[i := a']> l) = [a'].
Proof.
  revert i. induction l as [|b l IH]; intros i Hnodup Hfind Hkey; [done|].
  rewrite fmap_cons in Hnodup. apply NoDup_cons in Hnodup as [Hb Hnodup].
  cbn in Hfind. destruct (decide (key b = k)) as [Hbk|Hbk].
  - injection Hfind as <- <-. change (<[0%nat:=a']> (b :: l)) with (a' :: l).
    rewrite filter_cons_True by done.
    rewrite filter_key_absent; [done|congruence].
  - destruct (list_find _ l) as [[j c]|] eqn:Hl; [|done].
    injection Hfind as <- <-. change (<[S j:=a']> (b :: l)) with (b :: <[j:=a']> l).
    rewrite filter_cons_False by done. by apply IH.
Qed.

Lemma filter_app_absent (k : string) (l : list A) (a' : A) :
  list_find (λ a, key a = k) l = None → key a' = k →
  filter (λ a, key a = k) (l ++ [a']) = [a'].
Proof.
  intros Hfind Hkey. rewrite filter_app, filter_key_absent.
  - rewrite app_nil_l. rewrite filter_cons_True by done. done.
  - intros Hin. apply list_elem_of_fmap in Hin as (a & Ha & Hin).
    eapply list_find_None in Hfind. eapply Forall_forall in Hfind; [|done].
    by destruct Hfind.
Qed.

Lemma NoDup_keys_app (k : string) (l : list A) (a' : A) :
  NoDup (key <$> l) → k ∉ key <$> l → key a' = k → NoDup (key <$> (l ++ [a'])).
Proof.
  intros Hnodup Hk Hkey. rewrite fmap_app. apply NoDup_app. split; [done|].
  split; [|apply NoDup_singleton].
  intros x Hx Hx'. cbn in Hx'. apply list_elem_of_singleton in Hx'. congruence.
Qed.

Lemma find_key_None (k : string) (l : list A) :
  list_find (λ a, key a = k) l = None ↔ k ∉ key <$> l.
Proof.
  rewrite list_find_None, Forall_forall. split.
  - intros Hall Hin. apply list_elem_of_fmap in Hin as (a & Ha & Hin).
    by apply (Hall a).
  - intros Hk a Hin Ha. apply Hk. apply list_elem_of_fmap. eauto.
Qed.
End keyed.

(** *** The signer's entry *)

Lemma recordSigner_entry env userId signature document :
  NoDup (JS.signer_user <$> JS.signedBy document) →
  let document' := JS.recordSigner env userId signature document in
  filter (λ s, JS.signer_user s = userId) (JS.signedBy document')
  = [{| JS.signer_user := userId; JS.signedAt := Date_now env;
        JS.signatureImage := signature |}] ∧
  NoDup (JS.signer_user <$> JS.signedBy document') ∧
  (userId ∈ JS.signer_user <$> JS.signedBy document →
   length (JS.signedBy document') = length (JS.signedBy document)) ∧
  (userId ∉ JS.signer_user <$> JS.signedBy document →
   JS.signedBy document' = JS.signedBy document ++
     [{| JS.signer_user := userId; JS.signedAt := Date_now env;
         JS.signatureImage := signature |}]).
Proof.
  intros Hnodup. cbn.
  destruct (list_find _ (JS.signedBy document)) as [[index entry]|] eqn:Hfind.
  - pose proof Hfind as Hfound. apply list_find_Some in Hfound as (Hi & Hentry & _).
    rewrite <- Hentry at 2. split; [|split; [|split]].
    + rewrite Hentry. by apply (filter_insert_found JS.signer_user) with entry.
    + by rewrite (keys_insert_found JS.signer_user userId _ _ entry).
    + intros _. apply length_insert.
    + intros Hk. apply (find_key_None JS.signer_user) in Hk. congruence.
  - split; [|split; [|split]].
    + by apply (filter_app_absent JS.signer_user).
    + apply (NoDup_keys_app JS.signer_user userId); [done| |done].
      by apply (find_key_None JS.signer_user).
    + intros Hk. by apply (find_key_None JS.signer_user) in Hfind.
    + done.
Qed.

(** *** Grants *)

(** The list [shareDocument] saves: lines 228-247. *)
Lemma shares_replace_keys (grantee : string) (perm : JS.Permission) (l : list JS.Share) :
  JS.share_user <$>
    map (λ share, if String.eqb (JS.share_user share) grantee
                  then {| JS.share_user := grantee; JS.permission := perm |}
                  else share) l
  = JS.share_user <$> l.
Proof.
  induction l as [|a l IH]; [done|]. cbn. f_equal; [|exact IH].
  destruct (String.eqb (JS.share_user a) grantee) eqn:Ha; [|done].
  apply string_eqb_true in Ha. done.
Qed.

Lemma shares_replace_filter (grantee : string) (perm : JS.Permission) (l : list JS.Share) :
  NoDup (JS.share_user <$> l) → grantee ∈ JS.share_user <$> l →
  filter (λ share, JS.share_user share = grantee)
    (map (λ share, if String.eqb (JS.share_user share) grantee
                   then {| JS.share_user := grantee; JS.permission := perm |}
                   else share) l)
  = [{| JS.share_user := grantee; JS.permission := perm |}].
Proof.
  induction l as [|a l IH]; intros Hnodup Hin.
  { by apply elem_of_nil in Hin. }
  rewrite fmap_cons in Hnodup, Hin. apply NoDup_cons in Hnodup as [Ha Hnodup].
  rewrite map_cons.
  destruct (String.eqb (JS.share_user a) grantee) eqn:Heq.
  - apply string_eqb_true in Heq. rewrite filter_cons_True by done.
    f_equal. apply (filter_key_absent JS.share_user).
    rewrite shares_replace_keys. congruence.
  - apply string_eqb_false in Heq. rewrite filter_cons_False by done.
    apply IH; [done|]. apply elem_of_cons in Hin as [Hin|Hin]; [congruence|done].
Qed.

Lemma isAlreadyShared_spec (grantee : string) (l : list JS.Share) :
  existsb (λ share, String.eqb (JS.share_user share) grantee) l = true
  ↔ grantee ∈ JS.share_user <$> l.
Proof.
  rewrite existsb_exists, list_elem_of_fmap. split.
  - intros (share & Hin & Heq). exists share. apply string_eqb_true in Heq.
    by rewrite list_elem_of_In.
  - intros (share & Heq & Hin). exists share. rewrite <- list_elem_of_In.
    split; [done|]. by apply string_eqb_true.
Qed.

(** A successful [shareDocument]: who asked, whom the email names, and the
    record saved. *)
Lemma shareDocument_success env userId id email perm w resp w' :
  JS.shareDocument env userId id email perm w = (Return resp, w') →
  ∃ document grantee shares,
    JS.documents w !! id = Some document ∧ JS.owner document = userId ∧
    JS.users w !! email = Some grantee ∧ grantee ≠ userId ∧
    db_save_ok env = true ∧
    (if existsb (λ share, String.eqb (JS.share_user share) grantee) (JS.sharedWith document)
     then shares =
            map (λ share, if String.eqb (JS.share_user share) grantee
                          then {| JS.share_user := grantee; JS.permission := perm |}
                          else share) (JS.sharedWith document)
     else shares = JS.sharedWith document
                     ++ [{| JS.share_user := grantee; JS.permission := perm |}]) ∧
    w' = {| JS.documents := <[id := JS.set_sharedWith document shares]> (JS.documents w);
            JS.users := JS.users w; JS.files := JS.files w |}.
Proof.
  unfold JS.shareDocument. run. intros H.
  destruct (JS.documents w !! id) as [document|] eqn:Hdoc; [|discriminate].
  destruct (String.eqb (JS.owner document) userId) eqn:Howner; [|discriminate].
  cbn [negb] in H.
  destruct (JS.users w !! email) as [grantee|] eqn:Huser; [|discriminate].
  destruct (String.eqb grantee userId) eqn:Hself; [discriminate|].
  apply string_eqb_true in Howner. apply string_eqb_false in Hself.
  destruct (existsb _ _) eqn:Hshared;
    destruct (db_save_ok env) eqn:Hsave; try discriminate;
    injection H as <- <-;
    eexists document, grantee, _; rewrite Hshared; repeat split; done.
Qed.

(** A refused or failed [shareDocument] changes nothing. *)
Lemma shareDocument_failure env userId id email perm w e w' :
  JS.shareDocument env userId id email perm w = (Throw e, w') → w' = w.
Proof.
  unfold JS.shareDocument. run. intros H.
  repeat case_match; simplify_eq; done.
Qed.

(** *** The invariants of the collection *)

Lemma well_formed_insert (w : JS.World) id document us fs :
  JS.well_formed w → JS.document_ok document →
  JS.well_formed {| JS.documents := <[id := document]> (JS.documents w);
                    JS.users := us; JS.files := fs |}.
Proof.
  intros Hw Hdoc id' document'. cbn. rewrite lookup_insert.
  case_decide; [by intros [= <-]|]. apply Hw.
Qed.

Lemma handle_well_formed env r w :
  JS.well_formed w → JS.well_formed (JS.handle env r w).2.
Proof.
  intros Hw. destruct (JS.handle env r w) as [[resp|e] w'] eqn:Hrun; cbn [snd].
  - destruct r as [userId file|userId id|userId id email perm|userId id sig];
      cbn [JS.handle] in Hrun.
    + revert Hrun. unfold JS.uploadDocument. run.
      destruct file as [file|]; [|discriminate].
      repeat case_match; intros; simplify_eq.
      apply well_formed_insert; [done|]. repeat split; cbn; try apply NoDup_nil_2.
      apply not_elem_of_nil.
    + revert Hrun. unfold JS.deleteDocument. run.
      repeat case_match; intros; simplify_eq.
      all: intros id' document'; cbn; rewrite lookup_delete.
      all: case_decide; [done|]; apply Hw.
    + apply shareDocument_success in Hrun
        as (document & grantee & shares & Hdoc & Howner & Huser & Hself & _ & Hshares & ->).
      apply well_formed_insert; [done|].
      destruct (Hw _ _ Hdoc) as (Hgrants & Hsigners & Hnotowner).
      unfold JS.document_ok. cbn.
      destruct (existsb _ _) eqn:Hshared; subst shares.
      * rewrite shares_replace_keys. done.
      * apply not_true_iff_false in Hshared. rewrite isAlreadyShared_spec in Hshared.
        split; [|split; [done|]].
        -- by apply (NoDup_keys_app JS.share_user grantee).
        -- rewrite fmap_app, elem_of_app. intros [Hin|Hin]; [done|].
           cbn in Hin. apply list_elem_of_singleton in Hin. congruence.
    + apply applySignatures_success in Hrun
        as (signature & document & pdfDoc & firstPage & image
            & _ & _ & Hdoc & _ & _ & _ & _ & _ & -> & _).
      apply well_formed_insert; [done|].
      destruct (Hw _ _ Hdoc) as (Hgrants & Hsigners & Hnotowner).
      destruct (recordSigner_entry env userId signature document Hsigners)
        as (_ & Hnodup & _).
      split; [done|]. split; [done|]. done.
  - assert (JS.documents w' = JS.documents w) as Hsame.
    { destruct r as [userId file|userId id|userId id email perm|userId id sig];
        cbn [JS.handle] in Hrun.
      - revert Hrun. unfold JS.uploadDocument. run.
        repeat case_match; intros; simplify_eq; done.
      - revert Hrun. unfold JS.deleteDocument. run.
        repeat case_match; intros; simplify_eq; done.
      - by rewrite (shareDocument_failure _ _ _ _ _ _ _ _ Hrun).
      - by apply applySignatures_failure in Hrun as [-> _]. }
    intros id document. rewrite Hsame. apply Hw.
Qed.

(** Every world the controller reaches satisfies the invariants. *)
Lemma reachable_well_formed w : JS.reachable w → JS.well_formed w.
Proof.
  induction 1 as [us fs|env r w _ IH|w us fs _ IH].
  - intros id document. cbn. by rewrite lookup_empty.
  - by apply handle_well_formed.
  - exact IH.
Qed.

(** *** Paths of signed versions *)






(** C8. Two share requests in a row for the same grantee: the record ends
    with exactly one grant for the grantee, and it carries the permission of
    the second request. *)
Theorem C8_sharing_twice env1 env2 userId id email perm1 perm2 w resp1 w1 resp2 w2 :
  JS.reachable w →
  JS.shareDocument env1 userId id email perm1 w = (Return resp1, w1) →
  JS.shareDocument env2 userId id email perm2 w1 = (Return resp2, w2) →
  ∃ grantee document1 document2,
    JS.users w !! email = Some grantee ∧
    JS.documents w1 !! id = Some document1 ∧
    JS.documents w2 !! id = Some document2 ∧
    filter (λ share, JS.share_user share = grantee) (JS.sharedWith document2)
    = [{| JS.share_user := grantee; JS.permission := perm2 |}] ∧
    length (JS.sharedWith document2) = length (JS.sharedWith document1) ∧
    resp2 = {| JS.res_status := 200;
               JS.res_json := JS.PermissionUpdated email document2 |}.
Proof.
  intros Hreach Hrun1 Hrun2.
  assert (Hreach1 : JS.reachable w1).
  { change w1 with (Return resp1, w1).2. rewrite <- Hrun1.
    apply (JS.reachable_step env1 (JS.ShareWith userId id email perm1) w Hreach). }
  apply reachable_well_formed in Hreach, Hreach1.
  pose proof Hrun2 as Hresp2.
  apply shareDocument_success in Hrun1
    as (document & grantee & shares1 & Hdoc & _ & Huser & _ & _ & Hshares1 & Hw1).
  apply shareDocument_success in Hrun2
    as (document1 & grantee' & shares2 & Hdoc1 & _ & Huser' & _ & Hsave2 & Hshares2 & ->).
  assert (grantee' = grantee) as ->.
  { subst w1. cbn in Huser'. congruence. }
  assert (document1 = JS.set_sharedWith document shares1) as Hdocument1.
  { subst w1. cbn in Hdoc1. rewrite lookup_insert_eq in Hdoc1. congruence. }
  assert (Hgranted : grantee ∈ JS.share_user <$> JS.sharedWith document1).
  { rewrite Hdocument1. cbn. destruct (existsb _ _) eqn:Hshared; subst shares1.
    - rewrite shares_replace_keys. by apply isAlreadyShared_spec.
    - rewrite fmap_app, elem_of_app. right. cbn. apply list_elem_of_singleton. done. }
  destruct (Hreach1 _ _ Hdoc1) as (Hgrants1 & _).
  pose proof (proj2 (isAlreadyShared_spec grantee (JS.sharedWith document1)) Hgranted)
    as Hshared.
  rewrite Hshared in Hshares2. subst shares2.
  eexists grantee, document1, _.
  split; [done|]. split; [done|]. split; [cbn; apply lookup_insert_eq|].
  split; [by apply shares_replace_filter|].
  split; [cbn; by rewrite length_map|].
  revert Hresp2. unfold JS.shareDocument. run. rewrite Hdoc1.
  destruct (String.eqb (JS.owner document1) userId); [|discriminate]. cbn [negb].
  rewrite Huser'. destruct (String.eqb grantee userId); [discriminate|].
  rewrite Hshared, Hsave2. intros [= <-]. done.
Qed.

(** C10. The owner cannot share a document with themselves: the request is
    refused with 400 and the world is unchanged; and in no reachable world is
    the owner of a document among its grantees. *)
Theorem C10_no_sharing_with_oneself :
  (∀ env userId id email perm w document,
     JS.documents w !! id = Some document → JS.owner document = userId →
     JS.users w !! email = Some userId →
     JS.shareDocument env userId id email perm w
     = (Throw {| statusCode := 400;
                 message := Msg "Cannot share a document with yourself" |}, w)) ∧
  (∀ w id document,
     JS.reachable w → JS.documents w !! id = Some document →
     JS.owner document ∉ JS.share_user <$> JS.sharedWith document).
Proof.
  split.
  - intros env userId id email perm w document Hdoc Howner Huser.
    unfold JS.shareDocument. run. rewrite Hdoc.
    rewrite (proj2 (string_eqb_true _ _) Howner). cbn [negb]. rewrite Huser.
    rewrite (proj2 (string_eqb_true _ _) eq_refl). reflexivity.
  - intros w id document Hreach Hdoc.
    apply reachable_well_formed in Hreach. by destruct (Hreach _ _ Hdoc) as (_ & _ & ?).
Qed.



(** ** The theorems at concrete requests *)

Lemma C5_mapping_scenario_witness :
  ∃ x y width height finalX finalY,
    TS.placeSignature (Examples.server 0 true true) Examples.three_pages 0
                      Examples.page_612x792 Examples.scenario_request
    = Return (draw_on Examples.three_pages 0
                (drawImage {| image_width := 300; image_height := 150 |}
                           x y width height None),
              (finalX, finalY)) ∧
    (getWidth Examples.page_612x792 / TS.dimensions_width Examples.scenario_request
     == 2.04)%Q ∧
    (getHeight Examples.page_612x792 / TS.dimensions_height Examples.scenario_request
     == 1.98)%Q ∧
    (width == 306)%Q ∧ (height == 148.5)%Q ∧
    (x == 102)%Q ∧ (y == 445.5)%Q ∧
    TS.inside_page Examples.page_612x792 x y width height ∧
    (finalX == 102)%Q ∧ (finalY == 445.5)%Q.
Proof.
  apply (C5_mapping_scenario (Examples.server 0 true true) Examples.three_pages 0%nat
           Examples.page_612x792 Examples.scenario_request Examples.png_base64
           {| image_width := 300; image_height := 150 |});
    try reflexivity.
  discriminate.
Defined.

Lemma C2_sign_requires_owner_or_sign_grant_witness :
  (JS.applySignatures (Examples.server 1700000001000 true true) "bob" "doc1"
                      (Some Examples.png) Examples.js_uploaded).2
  = Examples.js_uploaded ∧
  (TS.applySignature (Examples.server 1700000001000 true true) (Some "bob") "doc1"
                     (Examples.image_body 50 100 1) Examples.ts_uploaded).2
  = Examples.ts_uploaded.
Proof.
  destruct C2_sign_requires_owner_or_sign_grant as (HJS & HTS & _). split.
  - apply (HJS (Examples.server 1700000001000 true true) "bob" "doc1" Examples.png
               Examples.js_uploaded Examples.js_document).
    + vm_compute. reflexivity.
    + discriminate.
    + intros [Howner|(share & Hin & _)].
      * discriminate Howner.
      * cbn in Hin. by apply elem_of_nil in Hin.
  - apply (HTS (Examples.server 1700000001000 true true) "bob" "doc1"
               (Examples.image_body 50 100 1) Examples.ts_uploaded Examples.ts_document
               Examples.scenario_request).
    + vm_compute. reflexivity.
    + reflexivity.
    + discriminate.
Defined.

Lemma C3_metadata_updated_only_after_write_witness :
  (∃ e, TS.applySignature (Examples.server 1700000001000 false true) (Some "alice") "doc1"
                          (Examples.image_body 50 100 1) Examples.ts_uploaded
        = (Throw e, Examples.ts_uploaded)) ∧
  TS.applySignature (Examples.server 1700000001000 false true) (Some "alice") "doc1"
                    (Examples.image_body 50 100 1) Examples.ts_uploaded
  = (Throw {| statusCode := 500;
              message := FailedToApply (LibraryError "fs.writeFile") |},
     Examples.ts_uploaded) ∧
  (∃ e, JS.applySignatures (Examples.server 1700000001000 false true) "alice" "doc1"
                           (Some Examples.png) Examples.js_uploaded
        = (Throw e, Examples.js_uploaded)).
Proof.
  destruct C3_metadata_updated_only_after_write as (_ & Hfail & Herror & HJS).
  split; [|split].
  - apply (Hfail _ _ _ _ _ Examples.ts_document); [vm_compute|]; reflexivity.
  - eapply (Herror (Examples.server 1700000001000 false true) "doc1"
              (Examples.image_body 50 100 1) Examples.ts_uploaded Examples.ts_document
              Examples.scenario_request Examples.three_pages 0%nat Examples.page_612x792).
    + reflexivity.
    + vm_compute. reflexivity.
    + vm_compute. reflexivity.
    + discriminate.
    + discriminate.
    + reflexivity.
    + reflexivity.
    + vm_compute. reflexivity.
    + reflexivity.
  - apply (HJS _ _ _ _ _ Examples.js_document); [vm_compute|]; reflexivity.
Defined.

Lemma C4_where_the_new_version_goes_witness :
  (∃ document placed document',
     TS.documents Examples.ts_uploaded !! "doc1" = Some document ∧
     TS.files Examples.ts_signed
     = <["/srv/server/controllers/../../signed_documents/contract_signed_1700000001000.pdf"
         := PdfBytes placed]> (TS.files Examples.ts_uploaded) ∧
     TS.documents Examples.ts_signed !! "doc1" = Some document') ∧
  (∃ document bytes,
     JS.documents Examples.js_uploaded !! "doc1" = Some document ∧
     JS.files Examples.js_signed
     = <[JS.filePath document := bytes]> (JS.files Examples.js_uploaded)).
Proof.
  destruct C4_where_the_new_version_goes as [HTS HJS]. split.
  - destruct (HTS (Examples.server 1700000001000 true true) (Some "alice") "doc1"
                  (Examples.image_body 50 100 1) Examples.ts_uploaded
                  Examples.ts_signed_response Examples.ts_signed)
      as (document & placed & document' & Hdoc & Hfiles & Hdoc' & _).
    { vm_compute. reflexivity. }
    exists document, placed, document'. split; [done|]. split; [|done].
    rewrite Hfiles. f_equal.
    assert (document = Examples.ts_document) as ->.
    { revert Hdoc. vm_compute. congruence. }
    vm_compute. reflexivity.
  - destruct (HJS (Examples.server 1700000001000 true true) "alice" "doc1"
                  (Some Examples.png) Examples.js_uploaded
                  {| JS.res_status := 200;
                     JS.res_json := JS.SignedSuccessfully
                       (JS.recordSigner (Examples.server 1700000001000 true true)
                                        "alice" Examples.png Examples.js_document) |}
                  Examples.js_signed)
      as (document & bytes & document' & Hdoc & Hfiles & _).
    { vm_compute. reflexivity. }
    exists document, bytes. done.
Defined.

Lemma C6_page_out_of_range_witness :
  (∃ e, TS.applySignature (Examples.server 1700000001000 true true) (Some "alice") "doc1"
                          (Examples.image_body 50 100 5) Examples.ts_uploaded
        = (Throw e, Examples.ts_uploaded)) ∧
  (TS.applySignature (Examples.server 1700000001000 true true) (Some "alice") "doc1"
                     (Examples.image_body 50 100 5) Examples.ts_uploaded).1
  = Throw {| statusCode := 400; message := FailedToApply (PageOutOfBounds 5 3) |}.
Proof.
  destruct (C6_page_out_of_range (Examples.server 1700000001000 true true) (Some "alice")
              "doc1" (Examples.image_body 50 100 5) Examples.ts_uploaded
              Examples.ts_document Examples.three_pages 5)
    as (Hfails & Herror & _).
  - vm_compute. reflexivity.
  - vm_compute. reflexivity.
  - reflexivity.
  - intros [_ Hhigh]. vm_compute in Hhigh. exact (Hhigh eq_refl).
  - split; [exact Hfails|].
    eapply Herror; reflexivity.
Defined.


Lemma C8_sharing_twice_witness :
  ∃ grantee document1 document2,
    JS.users Examples.js_uploaded !! "bob@example.org" = Some grantee ∧
    JS.documents Examples.js_shared !! "doc1" = Some document1 ∧
    JS.documents Examples.js_shared_twice !! "doc1" = Some document2 ∧
    filter (λ share, JS.share_user share = grantee) (JS.sharedWith document2)
    = [{| JS.share_user := grantee; JS.permission := JS.view_and_sign |}].
Proof.
  destruct (C8_sharing_twice (Examples.server 1700000001000 true true)
              (Examples.server 1700000002000 true true)
              "alice" "doc1" "bob@example.org" JS.view JS.view_and_sign
              Examples.js_uploaded
              {| JS.res_status := 200;
                 JS.res_json := JS.SharedSuccessfully "bob@example.org"
                   (JS.set_sharedWith Examples.js_document
                      [{| JS.share_user := "bob"; JS.permission := JS.view |}]) |}
              Examples.js_shared
              {| JS.res_status := 200;
                 JS.res_json := JS.PermissionUpdated "bob@example.org"
                   (JS.set_sharedWith Examples.js_document
                      [{| JS.share_user := "bob"; JS.permission := JS.view_and_sign |}]) |}
              Examples.js_shared_twice)
    as (grantee & document1 & document2 & Huser & Hdoc1 & Hdoc2 & Hgrant & _).
  - apply (JS.reachable_step (Examples.server 1700000000000 true true)
             (JS.Upload "alice" (Some Examples.js_upload)) Examples.js_empty).
    apply JS.reachable_init.
  - vm_compute. reflexivity.
  - vm_compute. reflexivity.
  - exists grantee, document1, document2. done.
Defined.


Lemma C10_no_sharing_with_oneself_witness :
  JS.shareDocument (Examples.server 1700000001000 true true) "alice" "doc1"
                   "alice@example.org" JS.view_and_sign Examples.js_uploaded
  = (Throw {| statusCode := 400;
              message := Msg "Cannot share a document with yourself" |},
     Examples.js_uploaded) ∧
  "alice" ∉ JS.share_user <$> JS.sharedWith Examples.js_document.
Proof.
  destruct C10_no_sharing_with_oneself as [Hself Hnever]. split.
  - apply (Hself _ _ _ _ _ _ Examples.js_document); [vm_compute| |vm_compute]; reflexivity.
  - apply (Hnever Examples.js_uploaded "doc1" Examples.js_document).
    + apply (JS.reachable_step (Examples.server 1700000000000 true true)
               (JS.Upload "alice" (Some Examples.js_upload)) Examples.js_empty).
      apply JS.reachable_init.
    + vm_compute. reflexivity.
Defined.

(** ** Further properties of the controllers *)

(** X1. What validation guarantees (lines 231-276): a body that passes has
    signature data that is not blank (white space is what
    [String.prototype.trim] removes, inside and outside ASCII), a viewport of
    positive width and height, a page number of at least 1 and one of the
    three signature types; for the image types the data starts with
    [data:image/] and the file extension is png, jpeg or jpg in any letter
    case.  A body that does not pass is answered with 400 and one of the
    seven messages of the handler. *)
Theorem X1_validateBody_sound body :
  match TS.validateBody body with
  | Return req =>
      TS.signatureData body = Some (TS.data req) ∧ trim (TS.data req) ≠ "" ∧
      TS.signaturePosition body = Some (TS.position_x req, TS.position_y req) ∧
      TS.pdfPageDimensions body = Some (TS.dimensions_width req, TS.dimensions_height req) ∧
      (0 < TS.dimensions_width req)%Q ∧ (0 < TS.dimensions_height req)%Q ∧
      TS.pageNumber body = Some (TS.page req) ∧ (1 <= TS.page req)%Q ∧
      TS.signatureType body = Some (TS.type req) ∧
      TS.type req ∈ ["draw"; "upload"; "text"] ∧
      (TS.type req ≠ "text" →
       startsWith (TS.data req) "data:image/" = true ∧
       ∃ ext, TS.signatureFileExtension body = Some ext ∧
              toLowerCase ext ∈ ["png"; "jpeg"; "jpg"])
  | Throw e =>
      statusCode e = 400%Z ∧
      message e ∈
        [Msg "Missing or empty signature data.";
         Msg "Invalid signaturePosition. Must be an object with numeric x and y.";
         Msg "Invalid PDF container dimensions. Must be an object with positive numeric width and height.";
         Msg "Invalid page number. Must be a positive integer.";
         Msg ("Invalid signature type. Must be " +:+ dquote +:+ "draw" +:+ dquote +:+ ", "
              +:+ dquote +:+ "upload" +:+ dquote +:+ ", or " +:+ dquote +:+ "text"
              +:+ dquote +:+ ".");
         Msg "Image signature data must be a valid data URL (e.g., data:image/png;base64,...).";
         Msg ("Missing or invalid signature file extension for image types. Must be "
              +:+ dquote +:+ "png" +:+ dquote +:+ " or " +:+ dquote +:+ "jpeg"
              +:+ dquote +:+ ".")]
  end.
Proof.
  assert (Hmessage : ∀ e, TS.validateBody body = Throw e →
    message e ∈
      [Msg "Missing or empty signature data.";
       Msg "Invalid signaturePosition. Must be an object with numeric x and y.";
       Msg "Invalid PDF container dimensions. Must be an object with positive numeric width and height.";
       Msg "Invalid page number. Must be a positive integer.";
       Msg ("Invalid signature type. Must be " +:+ dquote +:+ "draw" +:+ dquote +:+ ", "
              +:+ dquote +:+ "upload" +:+ dquote +:+ ", or " +:+ dquote +:+ "text"
              +:+ dquote +:+ ".");
       Msg "Image signature data must be a valid data URL (e.g., data:image/png;base64,...).";
       Msg ("Missing or invalid signature file extension for image types. Must be "
              +:+ dquote +:+ "png" +:+ dquote +:+ " or " +:+ dquote +:+ "jpeg"
              +:+ dquote +:+ ".")]).
  { unfold TS.validateBody. run. intros e H.
    repeat case_match; simplify_eq; in_list. }
  destruct (TS.validateBody body) as [req|e] eqn:Hvalid;
    [|split; [by eapply validateBody_error|by apply Hmessage]].
  clear Hmessage. revert Hvalid.
  unfold TS.validateBody. run.
  destruct (TS.signatureData body) as [signatureData|]; [|done].
  destruct (String.eqb (trim signatureData) "") eqn:Hdata; [done|].
  apply string_eqb_false in Hdata.
  destruct (TS.signaturePosition body) as [[x y]|]; [|done].
  destruct (TS.pdfPageDimensions body) as [[width height]|]; [|done].
  destruct (num_le width 0) eqn:Hwidth; [done|].
  destruct (num_le height 0) eqn:Hheight; [done|]. cbn [orb].
  apply not_true_iff_false in Hwidth, Hheight.
  rewrite num_le_true in Hwidth, Hheight.
  apply Qnot_le_lt in Hwidth, Hheight.
  destruct (TS.pageNumber body) as [pageNumber|]; [|done].
  destruct (num_lt pageNumber 1) eqn:Hpage; [done|].
  apply num_lt_false in Hpage.
  destruct (TS.signatureType body) as [signatureType|]; [|done].
  destruct (String.eqb signatureType "") eqn:Hempty; [done|]. cbn [orb].
  destruct (includes _ signatureType) eqn:Htype; [|done]. cbn [negb].
  assert (Hin : signatureType ∈ ["draw"; "upload"; "text"]).
  { unfold includes in Htype. apply existsb_exists in Htype as (s & Hs & Heq).
    apply string_eqb_true in Heq. subst s. by apply list_elem_of_In. }
  destruct (String.eqb signatureType "draw" || String.eqb signatureType "upload")
    eqn:Himage.
  - destruct (startsWith signatureData "data:image/") eqn:Hprefix; [|done].
    cbn [negb].
    destruct (TS.signatureFileExtension body) as [ext|]; [|done].
    destruct (String.eqb ext "") eqn:Hext; [done|]. cbn [orb].
    destruct (includes _ (toLowerCase ext)) eqn:Hlower; [|done]. intros [= <-]. cbn.
    do 10 (split; [done|]). intros _. split; [done|].
    exists ext. split; [done|].
    unfold includes in Hlower. apply existsb_exists in Hlower as (s & Hs & Heq).
    apply string_eqb_true in Heq. rewrite Heq. by apply list_elem_of_In.
  - intros [= <-]. cbn. do 10 (split; [done|]). intros Htext. exfalso.
    apply orb_false_iff in Himage as [Hdraw Hupload].
    apply string_eqb_false in Hdraw, Hupload.
    repeat (apply elem_of_cons in Hin as [Hin|Hin]; [congruence|]).
    by apply elem_of_nil in Hin.
Qed.

(** X2. How a failed [applySignature] is answered: after the error
    middleware the status is one of 400, 401, 403, 404 and 500; and a body
    that fails validation is answered with that validation error before the
    document is looked up, whoever asks and whether or not the document
    exists. *)
Theorem X2_applySignature_error_statuses env req_user id body w e w' :
  TS.applySignature env req_user id body w = (Throw e, w') →
  statusCode (errorHandler e) ∈ [400; 401; 403; 404; 500]%Z ∧
  (req_user = None → statusCode e = 401%Z) ∧
  (∀ e0, is_Some req_user → TS.validateBody body = Throw e0 → e = e0 ∧ w' = w).
Proof.
  unfold TS.applySignature. intros H.
  destruct req_user as [uid|].
  2:{ injection H as <- <-. cbn. split; [in_list|]. split; [done|].
      by intros e0 [? ?]. }
  split; [|split; [done|]].
  - run. destruct (TS.validateBody body) as [req|e0] eqn:Hvalid;
      [|injection H as <- <-; unfold errorHandler;
        rewrite (validateBody_error _ _ Hvalid); in_list].
    destruct (TS.documents w !! id) as [document|];
      [|injection H as <- <-; cbn; in_list].
    destruct (negb _); [injection H as <- <-; cbn; in_list|].
    destruct (TS.files w !! TS.filePath document) as [[pdfDoc|]|];
      try (injection H as <- <-; cbn; in_list).
    destruct (_ || _); [injection H as <- <-; cbn; in_list|].
    destruct (TS.array_index _) as [index|]; [|injection H as <- <-; cbn; in_list].
    destruct (getPages pdfDoc !! index) as [targetPage|];
      [|injection H as <- <-; cbn; in_list].
    destruct (TS.placeSignature env pdfDoc index targetPage req) as [[placed finals]|e0]
      eqn:Hplace.
    + cbn [fst] in H.
      destruct (fs_write_ok env (TS.newFilePath env document));
        [|injection H as <- <-; cbn; in_list].
      cbn [TS.documents TS.files] in H.
      destruct (db_save_ok env); [discriminate|].
      injection H as <- <-; cbn; in_list.
    + apply placeSignature_error in Hplace.
      injection H as <- <-. cbn.
      destruct Hplace as [-> | ->]; cbn; in_list.
  - intros e0 _ Hinvalid. revert H. run. rewrite Hinvalid. by intros [= <- <-].
Qed.

Lemma validateBody_page_low body req :
  TS.validateBody body = Return req → (1 <= TS.page req)%Q.
Proof.
  unfold TS.validateBody. run. intros H.
  repeat case_match; simplify_eq; cbn; by apply num_lt_false.
Qed.

(** X3. Image data URLs that pass validation but cannot be embedded (lines
    353-365), for the owner's request on a stored PDF and a page in range: a
    data URL without a comma gives 500 (the base64 part is [undefined]); one
    with a comma whose prefix is neither [data:image/png], [data:image/jpeg]
    nor [data:image/jpg] gives 400, whatever file extension the body declares.
    Nothing is written in either case. *)
Theorem X3_image_data_url_edges env id body w document req pdfDoc index targetPage :
  TS.validateBody body = Return req → TS.type req ≠ "text" →
  TS.documents w !! id = Some document →
  TS.files w !! TS.filePath document = Some (PdfBytes pdfDoc) →
  (TS.page req <= num_of_nat (length (getPages pdfDoc)))%Q →
  TS.array_index (TS.page req - 1) = Some index →
  getPages pdfDoc !! index = Some targetPage →
  let result := TS.applySignature env (Some (TS.user document)) id body w in
  (split_comma_1 (TS.data req) = None →
   result = (Throw {| statusCode := 500;
                      message := FailedToApply (LibraryError "TypeError") |}, w)) ∧
  (is_Some (split_comma_1 (TS.data req)) →
   startsWith (TS.data req) "data:image/png" = false →
   startsWith (TS.data req) "data:image/jpeg" = false →
   startsWith (TS.data req) "data:image/jpg" = false →
   result = (Throw {| statusCode := 400;
                      message := FailedToApply
                        (Msg "Unsupported signature image format. Only PNG and JPEG are supported.") |},
             w)).
Proof.
  intros Hvalid Htype Hdoc Hfile Hhigh Hindex Hpage result.
  pose proof (validateBody_page_low _ _ Hvalid) as Hlow.
  apply string_eqb_false in Htype.
  assert (Hrun : ∀ o, TS.placeSignature env pdfDoc index targetPage req = Throw o →
            result = (Throw {| statusCode := if (statusCode o =? 200)%Z then 500%Z
                                             else statusCode o;
                               message := FailedToApply (message o) |}, w)).
  { intros o Ho. subst result. unfold TS.applySignature. run. rewrite Hvalid, Hdoc.
    rewrite (proj2 (string_eqb_true _ _) eq_refl). cbn [negb]. rewrite Hfile.
    rewrite (proj2 (num_lt_false _ _) Hlow), (proj2 (num_lt_false _ _) Hhigh).
    cbn [orb]. rewrite Hindex, Hpage, Ho. reflexivity. }
  split.
  - intros Hcomma. rewrite (Hrun {| statusCode := 200; message := LibraryError "TypeError" |});
      [done|].
    unfold TS.placeSignature. run. by rewrite Htype, Hcomma.
  - intros [part Hcomma] Hpng Hjpeg Hjpg.
    rewrite (Hrun {| statusCode := 400;
                     message := Msg "Unsupported signature image format. Only PNG and JPEG are supported." |});
      [done|].
    unfold TS.placeSignature. run. by rewrite Htype, Hcomma, Hpng, Hjpeg, Hjpg.
Qed.

(** X4. A stored path that is missing on disk, or holds bytes that pdf-lib
    cannot load, makes the owner's valid sign request fail with 500; nothing
    is written and the record is unchanged (lines 303-304). *)
Theorem X4_unreadable_source env id body w document req :
  TS.validateBody body = Return req →
  TS.documents w !! id = Some document →
  let result := TS.applySignature env (Some (TS.user document)) id body w in
  (TS.files w !! TS.filePath document = None →
   result = (Throw {| statusCode := 500;
                      message := FailedToApply (LibraryError "ENOENT") |}, w)) ∧
  (∀ raw, TS.files w !! TS.filePath document = Some (OtherBytes raw) →
   result = (Throw {| statusCode := 500;
                      message := FailedToApply (LibraryError "PDFDocument.load") |}, w)).
Proof.
  intros Hvalid Hdoc result. subst result. unfold TS.applySignature. run.
  rewrite Hvalid, Hdoc, (proj2 (string_eqb_true _ _) eq_refl). cbn [negb].
  split; [intros ->|intros raw ->]; reflexivity.
Qed.

(** X5. When the viewport has the size of the page, the mapping is the
    vertical flip alone: the artifact is drawn at the x the request gives and
    at y = pageHeight - y - artifactHeight; an image is drawn 150 wide with
    its aspect ratio, a text at the font's height (lines 319-381). *)
Theorem X5_identity_viewport env pdfDoc index targetPage req placed finals :
  (0 < getWidth targetPage)%Q → (0 < getHeight targetPage)%Q →
  (TS.dimensions_width req == getWidth targetPage)%Q →
  (TS.dimensions_height req == getHeight targetPage)%Q →
  TS.placeSignature env pdfDoc index targetPage req = Return (placed, finals) →
  ∃ op, placed = draw_on pdfDoc index op ∧
    match op with
    | drawText text x y size =>
        text = TS.data req ∧ (size == 24)%Q ∧ (x == TS.position_x req)%Q ∧
        (y == getHeight targetPage - TS.position_y req - heightAtSize env 24)%Q
    | drawImage image x y width height _ =>
        (x == TS.position_x req)%Q ∧ (width == 150)%Q ∧
        (height == inject_Z (Zpos (image_height image))
                   * (150 / inject_Z (Zpos (image_width image))))%Q ∧
        (y == getHeight targetPage - TS.position_y req - height)%Q
    end.
Proof.
  intros HW HH Hw Hh.
  assert (HsX : (getWidth targetPage / TS.dimensions_width req == 1)%Q).
  { rewrite Hw. field. intros E. rewrite E in HW. discriminate. }
  assert (HsY : (getHeight targetPage / TS.dimensions_height req == 1)%Q).
  { rewrite Hh. field. intros E. rewrite E in HH. discriminate. }
  unfold TS.placeSignature. run. intros H.
  repeat case_match; simplify_eq; eexists; (split; [reflexivity|]); cbn;
    rewrite ?HsX, ?HsY, ?Qmult_1_r; repeat split; reflexivity.
Qed.

(** The artifact the block draws, with its size: a text at 24pt, as wide as
    the font measures it and as high as the font; or an image, 150 viewport
    units wide in its aspect ratio, scaled to the page. *)
Lemma placeSignature_artifact env pdfDoc index targetPage req placed finalX finalY :
  TS.placeSignature env pdfDoc index targetPage req = Return (placed, (finalX, finalY)) →
  ∃ op x y width height,
    placed = draw_on pdfDoc index op ∧
    ((TS.type req = "text" ∧ op = drawText (TS.data req) x y 24 ∧
      widthOfTextAtSize env (TS.data req) 24 = Some width ∧
      height = heightAtSize env 24) ∨
     (TS.type req ≠ "text" ∧
      ∃ image, op = drawImage image x y width height None ∧
        width = (150 * (getWidth targetPage / TS.dimensions_width req))%Q ∧
        height = (inject_Z (Zpos (image_height image))
                  * (150 / inject_Z (Zpos (image_width image)))
                  * (getHeight targetPage / TS.dimensions_height req))%Q)) ∧
    x = (TS.position_x req * (getWidth targetPage / TS.dimensions_width req))%Q ∧
    y = (getHeight targetPage
         - TS.position_y req * (getHeight targetPage / TS.dimensions_height req)
         - height)%Q ∧
    finalX = Math_max 0 (Math_min x (getWidth targetPage - width)) ∧
    finalY = Math_max 0 (Math_min y (getHeight targetPage - height)).
Proof.
  unfold TS.placeSignature. run. intros H.
  destruct (String.eqb (TS.type req) "text") eqn:Htype.
  - apply string_eqb_true in Htype.
    destruct (widthOfTextAtSize env (TS.data req) 24) as [textWidth|] eqn:Hwidth;
      [|discriminate].
    injection H as <- <- <-.
    eexists _, _, _, textWidth, (heightAtSize env 24).
    split; [reflexivity|]. split; [left; done|]. done.
  - apply string_eqb_false in Htype.
    destruct (split_comma_1 (TS.data req)) as [part|]; [|discriminate].
    destruct (startsWith (TS.data req) "data:image/png").
    + destruct (embedPng env part) as [image|]; [|discriminate].
      injection H as <- <- <-.
      eexists _, _, _, _, _.
      split; [reflexivity|]. split; [right; split; [done|]; by eexists|]. done.
    + destruct (startsWith (TS.data req) "data:image/jpeg"
                || startsWith (TS.data req) "data:image/jpg").
      * destruct (embedJpg env part) as [image|]; [|discriminate].
        injection H as <- <- <-.
        eexists _, _, _, _, _.
        split; [reflexivity|]. split; [right; split; [done|]; by eexists|]. done.
      * discriminate.
Qed.

(** X13. The position lines 393-394 compute, for the artifact the block
    drew (a text as wide as the font measures it at 24pt and as high as the
    font, or an image of the width and height it was drawn with): it is never
    negative, it keeps the artifact inside the page on an axis where the
    artifact fits, it is 0 where the artifact is larger than the page, and it
    is the mapped position itself when that already lies inside the page. *)
Theorem X13_clamped_position env pdfDoc index targetPage req placed finalX finalY :
  TS.placeSignature env pdfDoc index targetPage req = Return (placed, (finalX, finalY)) →
  ∃ op x y width height,
    placed = draw_on pdfDoc index op ∧
    ((TS.type req = "text" ∧ op = drawText (TS.data req) x y 24 ∧
      widthOfTextAtSize env (TS.data req) 24 = Some width ∧
      height = heightAtSize env 24) ∨
     (TS.type req ≠ "text" ∧
      ∃ image, op = drawImage image x y width height None ∧
        width = (150 * (getWidth targetPage / TS.dimensions_width req))%Q ∧
        height = (inject_Z (Zpos (image_height image))
                  * (150 / inject_Z (Zpos (image_width image)))
                  * (getHeight targetPage / TS.dimensions_height req))%Q)) ∧
    (x == TS.position_x req * (getWidth targetPage / TS.dimensions_width req))%Q ∧
    (y == getHeight targetPage
          - TS.position_y req * (getHeight targetPage / TS.dimensions_height req)
          - height)%Q ∧
    (0 <= finalX)%Q ∧ (0 <= finalY)%Q ∧
    (width <= getWidth targetPage → finalX + width <= getWidth targetPage)%Q ∧
    (height <= getHeight targetPage → finalY + height <= getHeight targetPage)%Q ∧
    (getWidth targetPage < width → finalX == 0)%Q ∧
    (getHeight targetPage < height → finalY == 0)%Q ∧
    (0 <= x → x + width <= getWidth targetPage → finalX == x)%Q ∧
    (0 <= y → y + height <= getHeight targetPage → finalY == y)%Q.
Proof.
  intros H. apply placeSignature_artifact in H
    as (op & x & y & width & height & Hplaced & Hartifact & Hx & Hy & -> & ->).
  exists op, x, y, width, height. split; [done|]. split; [done|]. clear Hartifact.
  rewrite Hx, Hy. unfold Math_max, Math_min.
  assert (Hclamp : ∀ a b : Q,
    (0 <= Qmax 0 (Qmin a b))%Q ∧
    (0 <= b → Qmax 0 (Qmin a b) <= b)%Q ∧
    (b < 0 → Qmax 0 (Qmin a b) == 0)%Q ∧
    (0 <= a → a <= b → Qmax 0 (Qmin a b) == a)%Q).
  { intros a b. split; [apply Q.le_max_l|]. split; [|split].
    - intros Hb. apply Q.max_lub; [done|apply Q.le_min_r].
    - intros Hb. apply Q.max_l. eapply Qle_trans; [apply Q.le_min_r|]. by apply Qlt_le_weak.
    - intros Ha Hab. rewrite Q.min_l by done. by apply Q.max_r. }
  split; [reflexivity|]. split; [reflexivity|].
  set (a := (TS.position_x req * (getWidth targetPage / TS.dimensions_width req))%Q).
  set (b := (getHeight targetPage
             - TS.position_y req * (getHeight targetPage / TS.dimensions_height req)
             - height)%Q).
  destruct (Hclamp a (getWidth targetPage - width)%Q) as (Hx0 & Hx1 & Hx2 & Hx3).
  destruct (Hclamp b (getHeight targetPage - height)%Q) as (Hy0 & Hy1 & Hy2 & Hy3).
  split; [done|]. split; [done|].
  split; [intros Hfit; assert (0 <= getWidth targetPage - width)%Q by lra;
          specialize (Hx1 ltac:(done)); lra|].
  split; [intros Hfit; assert (0 <= getHeight targetPage - height)%Q by lra;
          specialize (Hy1 ltac:(done)); lra|].
  split; [intros Hbig; apply Hx2; lra|].
  split; [intros Hbig; apply Hy2; lra|].
  split; [intros ? ?; apply Hx3; lra | intros ? ?; apply Hy3; lra].
Qed.

Lemma draw_on_pages (doc : PDFDocument) (i : nat) (op : DrawOp) (page : PDFPage) :
  getPages doc !! i = Some page →
  length (getPages (draw_on doc i op)) = length (getPages doc) ∧
  getPages (draw_on doc i op) !! i
  = Some {| getWidth := getWidth page; getHeight := getHeight page;
            content := content page ++ [op] |} ∧
  ∀ j, j ≠ i → getPages (draw_on doc i op) !! j = getPages doc !! j.
Proof.
  intros Hpage. unfold draw_on. rewrite Hpage. cbn.
  split; [apply length_insert|]. split.
  - apply list_lookup_insert_eq. by eapply lookup_lt_Some.
  - intros j Hj. by apply list_lookup_insert_ne.
Qed.

(** X14. Signing keeps what the PDF held: the file a successful
    [applySignature] writes has as many pages as the file it read, every page
    but the target page (number [pageNumber], counted from 1) is the same,
    and the target page keeps its size and its earlier content, with one
    drawing operation added at the end. *)
Theorem X14_signing_keeps_content env req_user id body w resp w' :
  TS.applySignature env req_user id body w = (Return resp, w') →
  ∃ req document pdfDoc placed index targetPage op,
    TS.validateBody body = Return req ∧
    TS.documents w !! id = Some document ∧
    TS.files w !! TS.filePath document = Some (PdfBytes pdfDoc) ∧
    TS.files w' !! TS.newFilePath env document = Some (PdfBytes placed) ∧
    (inject_Z (Z.of_nat index) == TS.page req - 1)%Q ∧
    getPages pdfDoc !! index = Some targetPage ∧
    length (getPages placed) = length (getPages pdfDoc) ∧
    getPages placed !! index
    = Some {| getWidth := getWidth targetPage; getHeight := getHeight targetPage;
              content := content targetPage ++ [op] |} ∧
    ∀ j, j ≠ index → getPages placed !! j = getPages pdfDoc !! j.
Proof.
  intros Hrun. pose proof Hrun as Hsteps. apply applySignature_success in Hsteps
    as (uid & req & document & pdfDoc & index & targetPage & placed & [finalX finalY]
        & -> & Hvalid & Hdoc & <- & Hfile & Hlow & Hhigh & Hpage & Hplace & _ & _ & -> & _).
  apply placeSignature_draws_unclamped in Hplace
    as (op & width & height & x & y & -> & _).
  destruct (draw_on_pages pdfDoc index op targetPage Hpage) as (Hlen & Htarget & Hothers).
  exists req, document, pdfDoc, (draw_on pdfDoc index op), index, targetPage, op.
  split; [done|]. split; [done|]. split; [done|].
  split; [cbn; apply lookup_insert_eq|].
  split; [|done].
  (* the index the handler used is [pageNumber - 1] *)
  revert Hrun. unfold TS.applySignature. run. rewrite Hvalid, Hdoc.
  rewrite (proj2 (string_eqb_true _ _) eq_refl). cbn [negb]. rewrite Hfile.
  rewrite (proj2 (num_lt_false _ _) Hlow), (proj2 (num_lt_false _ _) Hhigh). cbn [orb].
  destruct (TS.array_index (TS.page req - 1)) as [index'|] eqn:Hindex; [|discriminate].
  assert (Hq : (inject_Z (Z.of_nat index') == TS.page req - 1)%Q).
  { revert Hindex. unfold TS.array_index.
    destruct (_ && _) eqn:Hint; [|discriminate]. intros [= <-].
    apply andb_true_iff in Hint as [Hden Hnum].
    apply Z.eqb_eq in Hden. apply Z.leb_le in Hnum.
    eapply Qeq_trans; [|apply Qred_correct].
    destruct (Qred (TS.page req - 1)) as [num den]. cbn in *.
    rewrite Z2Nat.id by done. injection Hden as ->. reflexivity. }
  destruct (getPages pdfDoc !! index') as [targetPage'|] eqn:Hpage'; [|discriminate].
  destruct (TS.placeSignature env pdfDoc index' targetPage' req) as [[placed' finals']|]
    eqn:Hplace'; [|discriminate].
  cbn [fst].
  destruct (fs_write_ok env (TS.newFilePath env document)); [|discriminate].
  cbn [TS.documents TS.files]. destruct (db_save_ok env); [|discriminate].
  intros Hworld. injection Hworld as _ Hfiles.
  assert (PdfBytes placed' = PdfBytes (draw_on pdfDoc index op)) as [= ->].
  { apply (f_equal (λ m, m !! TS.newFilePath env document)) in Hfiles.
    rewrite !lookup_insert_eq in Hfiles. injection Hfiles as Hfiles. by rewrite Hfiles. }
  destruct finals' as [fx fy]. apply placeSignature_draws_unclamped in Hplace'
    as (op' & _ & _ & _ & _ & Hsame & _).
  destruct (decide (index' = index)) as [->|Hne]; [done|].
  exfalso.
  destruct (draw_on_pages pdfDoc index' op' targetPage' Hpage') as (_ & Htarget' & _).
  rewrite <- Hsame in Htarget'. rewrite Hothers in Htarget' by done.
  rewrite Hpage' in Htarget'. injection Htarget' as Hcontent.
  apply (f_equal (λ p, length (content p))) in Hcontent. cbn in Hcontent.
  rewrite length_app in Hcontent. cbn in Hcontent. lia.
Qed.

(** *** What a request does to the collection *)

Lemma handle_documents env req_user r w :
  let w' := (TS.handle env req_user r w).2 in
  TS.documents w' = TS.documents w ∨
  (∃ file, r = TS.Upload (Some file) ∧ is_Some req_user ∧
     TS.documents w !! new_ObjectId env = None ∧
     ∃ document, TS.documents w' = <[new_ObjectId env := document]> (TS.documents w)) ∨
  (∃ id document, r = TS.Delete id ∧ TS.documents w !! id = Some document ∧
     req_user = Some (TS.user document) ∧
     TS.documents w' = delete id (TS.documents w)) ∨
  (∃ id document document',
     (∃ s, r = TS.Update id s) ∧
     TS.documents w !! id = Some document ∧ req_user = Some (TS.user document) ∧
     TS.documents w' = <[id := document']> (TS.documents w) ∧
     (TS.user document' = TS.user document ∧
      TS.originalName document' = TS.originalName document ∧
      TS.fileType document' = TS.fileType document ∧
      TS.fileSize document' = TS.fileSize document ∧
      TS.uploadDate document' = TS.uploadDate document) ∧
     TS.fileName document' = TS.fileName document ∧
     TS.filePath document' = TS.filePath document ∧
     TS.lastSignedAt document' = TS.lastSignedAt document) ∨
  (∃ id document,
     (∃ body, r = TS.Sign id body) ∧
     TS.documents w !! id = Some document ∧ req_user = Some (TS.user document) ∧
     TS.documents w' = <[id := TS.signedDocument env document]> (TS.documents w)).
Proof.
  destruct r as [file| |id|id|id|id body_status|id body]; cbn [TS.handle].
  - unfold TS.uploadDocument. run.
    destruct file as [file|]; [|by left].
    destruct req_user as [uid|]; [|by left].
    destruct (_ || _); [by left|].
    destruct (TS.documents w !! new_ObjectId env) eqn:Hnew; [by left|].
    destruct (db_save_ok env); [|by left].
    right. left. exists file. split; [done|]. split; [by eexists|]. split; [done|].
    eexists. reflexivity.
  - unfold TS.getMyDocuments. run. destruct req_user; left; reflexivity.
  - unfold TS.getDocumentById. run. repeat case_match; simplify_eq; left; reflexivity.
  - unfold TS.deleteDocument. run.
    destruct req_user as [uid|]; [|by left].
    destruct (TS.documents w !! id) as [document|] eqn:Hdoc; [|by left].
    destruct (String.eqb (TS.user document) uid) eqn:Huser; [|by left].
    apply string_eqb_true in Huser. subst uid.
    right. right. left. exists id, document. done.
  - unfold TS.viewDocument. run. repeat case_match; simplify_eq; left; reflexivity.
  - unfold TS.updateDocument. run.
    destruct req_user as [uid|]; [|by left].
    destruct (TS.documents w !! id) as [document|] eqn:Hdoc; [|by left].
    destruct (String.eqb (TS.user document) uid) eqn:Huser; [|by left].
    apply string_eqb_true in Huser. subst uid. cbn [negb].
    destruct (match body_status with Some _ => _ | None => _ end) as [new_status|];
      [|by left].
    destruct (db_save_ok env); [|by left].
    right. right. right. left. eexists id, document, _.
    split; [by eexists|]. repeat split; done.
  - destruct (TS.applySignature env req_user id body w) as [[resp|e] w'] eqn:Hrun.
    + apply applySignature_success in Hrun
        as (uid & req & document & pdfDoc & index & targetPage & placed & finals
            & -> & _ & Hdoc & <- & _ & _ & _ & _ & _ & _ & _ & -> & _).
      right. right. right. right. exists id, document. split; [by eexists|]. done.
    + apply applySignature_failure in Hrun as [Hsame _]. by left.
Qed.

(** X6. A stored record changes or disappears only through a request of its
    owner that names it: a delete, a metadata update or a sign.  Uploads,
    reads, and every request by somebody else leave it as it is. *)
Theorem X6_only_the_owner_changes_a_record env req_user r w id document :
  TS.documents w !! id = Some document →
  TS.documents (TS.handle env req_user r w).2 !! id ≠ Some document →
  req_user = Some (TS.user document) ∧
  (r = TS.Delete id ∨ (∃ s, r = TS.Update id s) ∨ (∃ body, r = TS.Sign id body)).
Proof.
  intros Hdoc Hchanged.
  destruct (handle_documents env req_user r w)
    as [Hsame|[(file & _ & _ & Hnew & document' & Hsame)
      |[(id' & document' & -> & Hdoc' & -> & Hsame)
      |[(id' & stored & document' & [s ->] & Hdoc' & -> & Hsame & _)
      |(id' & stored & [body ->] & Hdoc' & -> & Hsame)]]]];
    rewrite Hsame in Hchanged.
  - done.
  - rewrite lookup_insert_ne in Hchanged by congruence. done.
  - destruct (decide (id' = id)) as [->|Hne].
    + assert (document' = document) as -> by congruence. auto.
    + rewrite lookup_delete_ne in Hchanged by done. done.
  - destruct (decide (id' = id)) as [->|Hne].
    + assert (stored = document) as -> by congruence. eauto.
    + rewrite lookup_insert_ne in Hchanged by done. done.
  - destruct (decide (id' = id)) as [->|Hne].
    + assert (stored = document) as -> by congruence. eauto.
    + rewrite lookup_insert_ne in Hchanged by done. done.
Qed.

(** X7. No request changes who owns a record, its original name, its MIME
    type, its size or its upload date: a record found under the same id
    before and after a request agrees on these fields. *)
Theorem X7_identity_fields_are_immutable env req_user r w id document document' :
  TS.documents w !! id = Some document →
  TS.documents (TS.handle env req_user r w).2 !! id = Some document' →
  TS.user document' = TS.user document ∧
  TS.originalName document' = TS.originalName document ∧
  TS.fileType document' = TS.fileType document ∧
  TS.fileSize document' = TS.fileSize document ∧
  TS.uploadDate document' = TS.uploadDate document.
Proof.
  intros Hdoc Hdoc'.
  destruct (handle_documents env req_user r w)
    as [Hsame|[(file & _ & _ & Hnew & created & Hsame)
      |[(id' & stored & -> & Hstored & -> & Hsame)
      |[(id' & stored & updated & [s ->] & Hstored & -> & Hsame & Hid & _)
      |(id' & stored & [body ->] & Hstored & -> & Hsame)]]]];
    rewrite Hsame in Hdoc'.
  - by simplify_eq.
  - rewrite lookup_insert_ne in Hdoc' by congruence. by simplify_eq.
  - rewrite lookup_delete in Hdoc'. case_decide; [done|]. by simplify_eq.
  - rewrite lookup_insert in Hdoc'. case_decide; simplify_eq; [exact Hid|done].
  - rewrite lookup_insert in Hdoc'. case_decide; simplify_eq; done.
Qed.

(** X8. Upload, then read back.  A successful upload answers 201, stores
    under a fresh id a record owned by the uploader, with status pending and
    no signing date, named after the Multer file, and touches neither the
    other records nor the disk; the owner then reads that record back through
    [getDocumentById], and any other user is refused with 403. *)
Theorem X8_upload_then_read env uid file w resp w' :
  TS.uploadDocument env (Some uid) (Some file) w = (Return resp, w') →
  ∃ document,
    resp = {| TS.res_status := 201;
              TS.res_json := TS.DocumentUploaded (new_ObjectId env) document |} ∧
    TS.documents w !! new_ObjectId env = None ∧
    w' = {| TS.documents := <[new_ObjectId env := document]> (TS.documents w);
            TS.files := TS.files w |} ∧
    TS.user document = uid ∧ TS.status document = TS.pending ∧
    TS.lastSignedAt document = None ∧
    TS.originalName document = TS.originalname file ∧
    TS.filePath document = TS.path file ∧
    TS.fileName document = trim (TS.filename file) ∧
    TS.fileType document = TS.mimetype file ∧
    TS.getDocumentById (Some uid) (new_ObjectId env) w'
    = (Return {| TS.res_status := 200; TS.res_json := TS.DocumentJson document |}, w') ∧
    ∀ other, other ≠ uid →
      TS.getDocumentById (Some other) (new_ObjectId env) w'
      = (Throw {| statusCode := 403;
                  message := Msg "Not authorized to view this document" |}, w').
Proof.
  unfold TS.uploadDocument. run. intros H.
  destruct (_ || _); [discriminate|].
  destruct (TS.documents w !! new_ObjectId env) eqn:Hnew; [discriminate|].
  destruct (db_save_ok env); [|discriminate].
  injection H as <- <-. eexists. split; [reflexivity|]. split; [done|].
  split; [reflexivity|]. do 7 (split; [reflexivity|]).
  unfold TS.getDocumentById. run. cbn [TS.documents].
  rewrite lookup_insert_eq. cbn [TS.user].
  split.
  - by rewrite (proj2 (string_eqb_true _ _) eq_refl).
  - intros other Hother. rewrite (proj2 (string_eqb_false uid other)) by done. done.
Qed.



(** X11. The metadata update at its edges (line 454), for the owner: with
    no status in the body, or the empty string, the record is saved as it was
    and 200 is answered with the current status; with a status outside the
    schema's enum the save fails validation, the error middleware answers
    500, and nothing changes. *)
Theorem X11_update_edges env id w document :
  TS.documents w !! id = Some document →
  (∀ body_status, body_status = None ∨ body_status = Some "" →
     db_save_ok env = true →
     let result := TS.updateDocument env (Some (TS.user document)) id body_status w in
     result.1 = Return {| TS.res_status := 200;
                          TS.res_json := TS.DocumentUpdated id (TS.originalName document)
                                                            (TS.status document) |} ∧
     TS.documents result.2 = TS.documents w ∧ TS.files result.2 = TS.files w) ∧
  (∀ s, s ≠ "" → TS.status_of_string s = None →
     ∃ e, TS.updateDocument env (Some (TS.user document)) id (Some s) w = (Throw e, w) ∧
          statusCode (errorHandler e) = 500%Z).
Proof.
  intros Hdoc. split.
  - intros body_status Hstatus Hsave result. subst result.
    unfold TS.updateDocument. run. rewrite Hdoc.
    rewrite (proj2 (string_eqb_true _ _) eq_refl). cbn [negb].
    assert (match body_status with
            | Some s => if String.eqb s "" then Some (TS.status document)
                        else TS.status_of_string s
            | None => Some (TS.status document)
            end = Some (TS.status document)) as ->.
    { by destruct Hstatus as [-> | ->]. }
    rewrite Hsave. cbn. split; [done|]. split; [|done].
    apply insert_id. rewrite Hdoc. by destruct document.
  - intros s Hs Hinvalid. eexists. split.
    { unfold TS.updateDocument. run. rewrite Hdoc.
      rewrite (proj2 (string_eqb_true _ _) eq_refl). cbn [negb].
      rewrite (proj2 (string_eqb_false _ _) Hs), Hinvalid. reflexivity. }
    reflexivity.
Qed.

(** X12. Without an authenticated user every handler answers 401 and
    changes nothing; the one exception is an upload without a file, which is
    answered 400 first. *)
Theorem X12_unauthenticated env r w :
  ∃ e, TS.handle env None r w = (Throw e, w) ∧
       (r = TS.Upload None → statusCode e = 400%Z) ∧
       (r ≠ TS.Upload None → statusCode e = 401%Z).
Proof.
  destruct r as [[file|]| |id|id|id|id body_status|id body]; cbn [TS.handle];
    (eexists; split; [reflexivity|]; split; intros; simplify_eq; reflexivity).
Qed.

(** *** Sharing and signing in the ES-module controller *)

(** The grants a successful [shareDocument] leaves for the grantee. *)
Lemma shareDocument_grant env userId id email perm w resp w' :
  JS.well_formed w →
  JS.shareDocument env userId id email perm w = (Return resp, w') →
  ∃ document grantee document',
    JS.documents w !! id = Some document ∧ JS.owner document = userId ∧
    JS.users w !! email = Some grantee ∧ grantee ≠ userId ∧
    JS.documents w' = <[id := document']> (JS.documents w) ∧
    JS.users w' = JS.users w ∧ JS.files w' = JS.files w ∧
    document' = JS.set_sharedWith document (JS.sharedWith document') ∧
    filter (λ share, JS.share_user share = grantee) (JS.sharedWith document')
    = [{| JS.share_user := grantee; JS.permission := perm |}] ∧
    filter (λ share, JS.share_user share ≠ grantee) (JS.sharedWith document')
    = filter (λ share, JS.share_user share ≠ grantee) (JS.sharedWith document).
Proof.
  intros Hw Hrun. apply shareDocument_success in Hrun
    as (document & grantee & shares & Hdoc & Howner & Huser & Hself & _ & Hshares & ->).
  destruct (Hw _ _ Hdoc) as (Hgrants & _).
  exists document, grantee, (JS.set_sharedWith document shares).
  do 4 (split; [done|]). do 4 (split; [reflexivity|]). cbn [JS.sharedWith JS.set_sharedWith].
  destruct (existsb _ _) eqn:Hshared; subst shares.
  - split; [apply shares_replace_filter; [done|by apply isAlreadyShared_spec]|].
    clear. induction (JS.sharedWith document) as [|a l IH]; [done|].
    rewrite map_cons. destruct (String.eqb (JS.share_user a) grantee) eqn:Ha.
    + apply string_eqb_true in Ha.
      rewrite !filter_cons_False by (cbn; intros Hne; by apply Hne). exact IH.
    + apply string_eqb_false in Ha. rewrite !filter_cons_True by done. by rewrite IH.
  - apply not_true_iff_false in Hshared. rewrite isAlreadyShared_spec in Hshared.
    split.
    + apply (filter_app_absent JS.share_user); [|done].
      by apply (find_key_None JS.share_user).
    + rewrite filter_app.
      rewrite filter_cons_False by (cbn; intros Hne; by apply Hne).
      by rewrite filter_nil, app_nil_r.
Qed.

(** X15. Holding a grant, even [view_and_sign], gives no right to delete or
    to share: both handlers refuse anybody but the owner with 403 and change
    nothing. *)
Theorem X15_grantees_cannot_delete_or_share env userId id email perm w document :
  JS.documents w !! id = Some document → JS.owner document ≠ userId →
  JS.deleteDocument env userId id w
  = (Throw {| statusCode := 403;
              message := Msg "Not authorized to delete this document" |}, w) ∧
  JS.shareDocument env userId id email perm w
  = (Throw {| statusCode := 403;
              message := Msg "Not authorized to share this document" |}, w).
Proof.
  intros Hdoc Howner. apply string_eqb_false in Howner.
  unfold JS.deleteDocument, JS.shareDocument. run. rewrite Hdoc, Howner. done.
Qed.


(** X17. Sharing decides who may sign.  After the owner shared a document
    with [view_and_sign], a sign request of the grantee is not refused with
    403; after sharing it with [view], also when that replaces an earlier
    [view_and_sign] grant, the grantee's sign request is refused with 403 and
    changes nothing. *)
Theorem X17_share_then_sign env env2 userId id email perm w resp w' signature :
  JS.reachable w →
  JS.shareDocument env userId id email perm w = (Return resp, w') →
  signature ≠ "" →
  ∃ grantee,
    JS.users w !! email = Some grantee ∧
    let attempt := JS.applySignatures env2 grantee id (Some signature) w' in
    (perm = JS.view →
     attempt = (Throw {| statusCode := 403;
                         message := Msg "Not authorized to sign this document." |}, w')) ∧
    (perm = JS.view_and_sign → ∀ e, attempt.1 = Throw e → statusCode e ≠ 403%Z).
Proof.
  intros Hreach Hrun Hsig. apply reachable_well_formed in Hreach.
  destruct (shareDocument_grant _ _ _ _ _ _ _ _ Hreach Hrun)
    as (document & grantee & document' & Hdoc & Howner & Huser & Hself & Hdocs & _ & _
        & Hdocument' & Hgrant & _).
  exists grantee. split; [done|]. cbv zeta.
  assert (Hdoc' : JS.documents w' !! id = Some document').
  { rewrite Hdocs. apply lookup_insert_eq. }
  assert (Howner' : String.eqb (JS.owner document') grantee = false).
  { apply string_eqb_false. rewrite Hdocument'. cbn. congruence. }
  apply string_eqb_false in Hsig.
  split.
  - intros ->.
    unfold JS.applySignatures. rewrite Hsig.
    unfold mbind, handler_bind at 1. unfold JS.findById. rewrite Hdoc', Howner'.
    cbn [negb andb].
    destruct (existsb _ (JS.sharedWith document')) eqn:Hsign; [|done].
    apply hasSignPermission_spec in Hsign as (share & Hin & Hshare & Hperm).
    assert (share ∈ filter (λ share, JS.share_user share = grantee)
                      (JS.sharedWith document')) as Hfiltered.
    { by apply list_elem_of_filter. }
    rewrite Hgrant in Hfiltered. apply list_elem_of_singleton in Hfiltered.
    subst share. discriminate.
  - intros ->.
    unfold JS.applySignatures. rewrite Hsig.
    unfold mbind, handler_bind at 1. unfold JS.findById. rewrite Hdoc', Howner'.
    cbn [negb andb].
    assert (existsb (λ share, String.eqb (JS.share_user share) grantee
                              && bool_decide (JS.permission share = JS.view_and_sign))
                    (JS.sharedWith document') = true) as ->.
    { apply hasSignPermission_spec.
      exists {| JS.share_user := grantee; JS.permission := JS.view_and_sign |}.
      split; [|done].
      assert ({| JS.share_user := grantee; JS.permission := JS.view_and_sign |}
              ∈ filter (λ share, JS.share_user share = grantee)
                  (JS.sharedWith document')) as Hin.
      { rewrite Hgrant. by apply list_elem_of_singleton. }
      by apply list_elem_of_filter in Hin as [_ Hin]. }
    cbn [negb]. intros e.
    unfold mbind, handler_bind at 1.
    destruct (embedSignature_cases env2 document' signature w')
      as [Hfail|(pdfDoc & firstPage & image & _ & _ & _ & Hok)].
    + rewrite Hfail. cbn. intros [= <-]. done.
    + rewrite Hok. run. cbn [JS.documents JS.users JS.files].
      destruct (db_save_ok env2); cbn; [done|]. intros [= <-]. done.
Qed.



(** X19. [applySignatures] draws the image 250 x 125 around the centre of
    the first page, at opacity 0.9, whatever the request says: the rectangle
    lies inside the page exactly when the page is at least 250 x 125, and the
    other pages and the earlier content of the first page are kept. *)
Theorem X19_centred_on_the_first_page env userId id sig w resp w' :
  JS.applySignatures env userId id sig w = (Return resp, w') →
  ∃ document pdfDoc signed firstPage image x y,
    JS.documents w !! id = Some document ∧
    JS.files w !! JS.filePath document = Some (PdfBytes pdfDoc) ∧
    JS.files w' !! JS.filePath document = Some (PdfBytes signed) ∧
    getPages pdfDoc !! 0%nat = Some firstPage ∧
    getPages signed !! 0%nat
    = Some {| getWidth := getWidth firstPage; getHeight := getHeight firstPage;
              content := content firstPage
                         ++ [drawImage image x y 250 125 (Some (9 # 10)%Q)] |} ∧
    (∀ j, j ≠ 0%nat → getPages signed !! j = getPages pdfDoc !! j) ∧
    (x + 250 / 2 == getWidth firstPage / 2)%Q ∧
    (y + 125 / 2 == getHeight firstPage / 2)%Q ∧
    ((0 <= x ∧ x + 250 <= getWidth firstPage ∧ 0 <= y ∧ y + 125 <= getHeight firstPage)
     ↔ (250 <= getWidth firstPage ∧ 125 <= getHeight firstPage))%Q.
Proof.
  intros Hrun. apply applySignatures_success in Hrun
    as (signature & document & pdfDoc & firstPage & image
        & _ & _ & Hdoc & _ & Hfile & Hpage & _ & _ & -> & _).
  destruct (draw_on_pages pdfDoc 0
              (drawImage image (getWidth firstPage / 2 - 250 / 2)%Q
                         (getHeight firstPage / 2 - 125 / 2)%Q 250 125 (Some (9 # 10)%Q))
              firstPage Hpage) as (_ & Htarget & Hothers).
  eexists document, pdfDoc, _, firstPage, image, _, _.
  split; [done|]. split; [done|]. split; [cbn; apply lookup_insert_eq|].
  split; [done|]. split; [exact Htarget|]. split; [exact Hothers|].
  split; [field|]. split; [field|].
  assert (HW : (getWidth firstPage / 2 * 2 == getWidth firstPage)%Q) by field.
  assert (HH : (getHeight firstPage / 2 * 2 == getHeight firstPage)%Q) by field.
  set (hw := (getWidth firstPage / 2)%Q) in *.
  set (hh := (getHeight firstPage / 2)%Q) in *.
  change (250 / 2)%Q with (250 # 2)%Q. change (125 / 2)%Q with (125 # 2)%Q.
  split; [intros (?&?&?&?) | intros [? ?]]; repeat split; lra.
Qed.

(** X20. For a signer the handler authorises (the owner, or the holder of a
    [view_and_sign] grant), whatever goes wrong between reading the PDF and
    writing it back is answered with 500 and the one message of the [catch]
    block, and changes nothing: a missing or unreadable file, a data URL that
    is not PNG or JPEG (the 400 set for it is overwritten), a data URL
    without a comma, a PDF without pages. *)
Theorem X20_pdf_failures env userId id signature w document :
  JS.documents w !! id = Some document →
  (JS.owner document = userId ∨
   ∃ share, share ∈ JS.sharedWith document ∧ JS.share_user share = userId
            ∧ JS.permission share = JS.view_and_sign) →
  signature ≠ "" →
  (JS.files w !! JS.filePath document = None ∨
   (∃ raw, JS.files w !! JS.filePath document = Some (OtherBytes raw)) ∨
   (startsWith signature "data:image/png" = false ∧
    startsWith signature "data:image/jpeg" = false ∧
    startsWith signature "data:image/jpg" = false) ∨
   split_comma_1 signature = None ∨
   JS.files w !! JS.filePath document = Some (PdfBytes {| getPages := [] |})) →
  JS.applySignatures env userId id (Some signature) w
  = (Throw {| statusCode := 500;
              message := Msg "Failed to apply signature to the PDF document." |}, w).
Proof.
  intros Hdoc Hauthorised Hsig Hcase. apply string_eqb_false in Hsig.
  unfold JS.applySignatures. rewrite Hsig.
  unfold mbind, handler_bind at 1. unfold JS.findById. rewrite Hdoc.
  assert (negb (String.eqb (JS.owner document) userId)
          && negb (existsb (λ share, String.eqb (JS.share_user share) userId
                                     && bool_decide (JS.permission share = JS.view_and_sign))
                           (JS.sharedWith document)) = false) as ->.
  { destruct Hauthorised as [Howner|Hgrant].
    - by rewrite (proj2 (string_eqb_true _ _) Howner).
    - apply hasSignPermission_spec in Hgrant. rewrite Hgrant. apply andb_false_r. }
  unfold mbind, handler_bind at 1.
  assert (JS.embedSignature env document signature w = (Throw JS.pdf_failure, w)) as ->;
    [|reflexivity].
  unfold JS.embedSignature. run.
  destruct Hcase as [->|[[raw ->]|[(Hpng & Hjpeg & Hjpg)|[Hcomma| ->]]]]; try reflexivity.
  - rewrite Hpng, Hjpeg, Hjpg. repeat case_match; simplify_eq; reflexivity.
  - rewrite Hcomma. repeat case_match; simplify_eq; reflexivity.
  - repeat case_match; simplify_eq; reflexivity.
Qed.

(** X21. Status and signer entries go together: in every world the
    controller reaches, a record either is [pending] and has no [signedBy]
    entry, or is [signed] and has at least one. *)
Theorem X21_status_tracks_signers w id document :
  JS.reachable w → JS.documents w !! id = Some document →
  (JS.status document = "pending" ∧ JS.signedBy document = []) ∨
  (JS.status document = "signed" ∧ JS.signedBy document ≠ []).
Proof.
  intros Hreach. revert id document.
  induction Hreach as [us fs|env r w _ IH|w us fs _ IH]; intros id document.
  - cbn. by rewrite lookup_empty.
  - destruct (JS.handle env r w) as [[resp|e] w'] eqn:Hrun; cbn [snd].
    + destruct r as [userId file|userId id'|userId id' email perm|userId id' sig];
        cbn [JS.handle] in Hrun.
      * revert Hrun. unfold JS.uploadDocument. run.
        destruct file as [file|]; [|discriminate].
        destruct (_ || _); [discriminate|].
        destruct (JS.documents w !! new_ObjectId env); [discriminate|].
        destruct (db_save_ok env); [|discriminate].
        intros [= <- <-]. cbn. rewrite lookup_insert. case_decide; [|apply IH].
        intros [= <-]. by left.
      * revert Hrun. unfold JS.deleteDocument. run.
        destruct (JS.documents w !! id') as [stored|]; [|discriminate].
        destruct (negb _); [discriminate|].
        intros [= <- <-]. cbn. rewrite lookup_delete. case_decide; [done|apply IH].
      * apply shareDocument_success in Hrun
          as (stored & grantee & shares & Hdoc & _ & _ & _ & _ & _ & ->).
        cbn. rewrite lookup_insert. case_decide; [|apply IH].
        intros [= <-]. cbn. by apply (IH id').
      * apply applySignatures_success in Hrun
          as (signature & stored & pdfDoc & firstPage & image
              & _ & _ & Hdoc & _ & _ & _ & _ & _ & -> & _).
        cbn. rewrite lookup_insert. case_decide; [|apply IH].
        intros [= <-]. right. split; [done|]. cbn.
        destruct (list_find _ (JS.signedBy stored)) as [[index entry]|] eqn:Hfind.
        -- apply list_find_Some in Hfind as (Hi & _).
           intros Hnil. apply (f_equal length) in Hnil.
           rewrite length_insert in Hnil. apply lookup_lt_Some in Hi. cbn in Hnil. lia.
        -- intros Hnil. by apply app_eq_nil in Hnil as [_ ?].
    + assert (JS.documents w' = JS.documents w) as ->; [|apply IH].
      destruct r as [userId file|userId id'|userId id' email perm|userId id' sig];
        cbn [JS.handle] in Hrun.
      * revert Hrun. unfold JS.uploadDocument. run.
        repeat case_match; intros; simplify_eq; done.
      * revert Hrun. unfold JS.deleteDocument. run.
        repeat case_match; intros; simplify_eq; done.
      * by rewrite (shareDocument_failure _ _ _ _ _ _ _ _ Hrun).
      * by apply applySignatures_failure in Hrun as [-> _].
  - apply IH.
Qed.

(** X22. In every world the controller reaches, a record holds at most one
    grant per grantee and at most one [signedBy] entry per signer. *)
Theorem X22_one_grant_one_entry w id document :
  JS.reachable w → JS.documents w !! id = Some document →
  NoDup (JS.share_user <$> JS.sharedWith document) ∧
  NoDup (JS.signer_user <$> JS.signedBy document).
Proof.
  intros Hreach Hdoc. apply reachable_well_formed in Hreach.
  by destruct (Hreach _ _ Hdoc) as (? & ? & _).
Qed.

(** X23. After the owner deleted a document the id answers 404 to every
    later sign, share and delete request, which change nothing.  The file is
    gone from the record's path when the removal succeeded; when the file
    system refused it, the error was only logged and the disk is as it was,
    the file left behind without a record. *)
Theorem X23_after_delete env0 env userId id w resp w' :
  JS.deleteDocument env0 userId id w = (Return resp, w') →
  ∃ document,
    JS.documents w !! id = Some document ∧ JS.owner document = userId ∧
    JS.documents w' !! id = None ∧
    (fs_unlink_ok env0 (JS.filePath document) = true →
     JS.files w' = delete (JS.filePath document) (JS.files w) ∧
     JS.files w' !! JS.filePath document = None) ∧
    (fs_unlink_ok env0 (JS.filePath document) = false → JS.files w' = JS.files w) ∧
    (∀ actor signature, signature ≠ "" →
       JS.applySignatures env actor id (Some signature) w'
       = (Throw {| statusCode := 404; message := Msg "Document not found." |}, w')) ∧
    (∀ actor email perm,
       JS.shareDocument env actor id email perm w'
       = (Throw {| statusCode := 404; message := Msg "Document not found" |}, w')) ∧
    (∀ actor,
       JS.deleteDocument env actor id w'
       = (Throw {| statusCode := 404; message := Msg "Document not found" |}, w')).
Proof.
  unfold JS.deleteDocument at 1. run. intros Hrun.
  destruct (JS.documents w !! id) as [document|] eqn:Hdoc; [|discriminate].
  destruct (String.eqb (JS.owner document) userId) eqn:Howner; [|discriminate].
  apply string_eqb_true in Howner. injection Hrun as <- <-.
  exists document. split; [done|]. split; [done|].
  split; [cbn; apply lookup_delete_eq|]. cbn [JS.files].
  split; [intros ->; split; [done|apply lookup_delete_eq]|].
  split; [by intros ->|].
  split; [|split].
  - intros actor signature Hsig. apply string_eqb_false in Hsig.
    unfold JS.applySignatures. rewrite Hsig. run. cbn [JS.documents].
    by rewrite lookup_delete_eq.
  - intros actor email perm. unfold JS.shareDocument. run. cbn [JS.documents].
    by rewrite lookup_delete_eq.
  - intros actor. unfold JS.deleteDocument. run. cbn [JS.documents].
    by rewrite lookup_delete_eq.
Qed.

(** X24. The error middleware never answers an error with 200: a handler
    that threw without setting a status gets 500, any other status is sent as
    it was set, and the message is passed on. *)
Theorem X24_errorHandler_status e :
  statusCode (errorHandler e) ≠ 200%Z ∧
  (statusCode e = 200%Z → statusCode (errorHandler e) = 500%Z) ∧
  (statusCode e ≠ 200%Z → statusCode (errorHandler e) = statusCode e) ∧
  message (errorHandler e) = message e ∧
  errorHandler (errorHandler e) = errorHandler e.
Proof.
  unfold errorHandler. cbn.
  destruct (Z.eqb_spec (statusCode e) 200) as [Heq|Hne].
  - cbn. repeat split; done.
  - cbn. rewrite (proj2 (Z.eqb_neq _ _) Hne). repeat split; done.
Qed.

(** *** The middleware *)

(** X25. [protect] calls [next()] only for a header that starts with
    [Bearer], whose second space-separated word is a non-empty token that
    jsonwebtoken verifies under a configured secret; [req.user] is then what
    [User.findById] finds for the id in the token.  Every other request is
    answered with 401: with the message for a missing token when the header
    is absent or does not start with [Bearer], with "token failed" otherwise.
    The two middlewares differ in the message for a missing token only:
    "Not authorized, no token provided" in the TypeScript one,
    "Not authorized, no token" in the ES-module one. *)
Theorem X25_protect tokens authorization :
  match Auth.protect tokens authorization with
  | Return req_user =>
      ∃ header token secret id,
        authorization = Some header ∧ startsWith header "Bearer" = true ∧
        Auth.split_space_1 header = Some token ∧ token ≠ "" ∧
        Auth.JWT_SECRET tokens = Some secret ∧ secret ≠ "" ∧
        Auth.jwt_verify tokens token secret = Some id ∧
        req_user = Auth.User_findById tokens id
  | Throw e =>
      statusCode e = 401%Z ∧
      (message e = Msg "Not authorized, no token provided" ∨
       message e = Msg "Not authorized, token failed") ∧
      (message e = Msg "Not authorized, no token provided" ↔
       ∀ header, authorization = Some header → startsWith header "Bearer" = false)
  end ∧
  match Auth.protect_js tokens authorization with
  | Return req_user => Auth.protect tokens authorization = Return req_user
  | Throw e =>
      statusCode e = 401%Z ∧
      (message e = Msg "Not authorized, no token" ∨
       message e = Msg "Not authorized, token failed") ∧
      (message e = Msg "Not authorized, no token" ↔
       ∀ header, authorization = Some header → startsWith header "Bearer" = false) ∧
      ∃ e', Auth.protect tokens authorization = Throw e' ∧
            (message e = Msg "Not authorized, token failed"
             ↔ message e' = Msg "Not authorized, token failed")
  end.
Proof.
  split.
  - unfold Auth.protect, error.
    destruct authorization as [header|].
    2:{ cbn. split; [done|]. split; [by left|]. split; [by intros|done]. }
    destruct (startsWith header "Bearer") eqn:Hbearer.
    2:{ cbn. split; [done|]. split; [by left|]. split; [|done].
        intros _ header' [= <-]. done. }
    assert (Hfailed : ∀ e : HttpError,
      e = {| statusCode := 401; message := Msg "Not authorized, token failed" |} →
      statusCode e = 401%Z ∧
      (message e = Msg "Not authorized, no token provided" ∨
       message e = Msg "Not authorized, token failed") ∧
      (message e = Msg "Not authorized, no token provided" ↔
       ∀ header0, Some header = Some header0 → startsWith header0 "Bearer" = false)).
    { intros e ->. cbn. split; [done|]. split; [by right|]. split; [done|].
      intros Hall. specialize (Hall header eq_refl). congruence. }
    destruct (Auth.split_space_1 header) as [token|] eqn:Htoken; [|by apply Hfailed].
    destruct (Auth.JWT_SECRET tokens) as [secret|] eqn:Hsecret; [|by apply Hfailed].
    destruct (String.eqb secret "") eqn:Hs; [by apply Hfailed|].
    destruct (String.eqb token "") eqn:Ht; [by apply Hfailed|]. cbn [orb].
    destruct (Auth.jwt_verify tokens token secret) as [id|] eqn:Hverify; [|by apply Hfailed].
    apply string_eqb_false in Hs, Ht.
    exists header, token, secret, id. repeat split; done.
  - unfold Auth.protect_js, Auth.protect, error.
    destruct authorization as [header|].
    2:{ cbn. split; [done|]. split; [by left|]. split; [by split|].
        eexists. split; [reflexivity|]. cbn. by split. }
    destruct (startsWith header "Bearer") eqn:Hbearer.
    2:{ cbn. split; [done|]. split; [by left|]. split.
        - split; [|done]. intros _ header' [= <-]. done.
        - eexists. split; [reflexivity|]. cbn. by split. }
    assert (Hfailed : ∀ e : HttpError,
      e = {| statusCode := 401; message := Msg "Not authorized, token failed" |} →
      statusCode e = 401%Z ∧
      (message e = Msg "Not authorized, no token" ∨
       message e = Msg "Not authorized, token failed") ∧
      (message e = Msg "Not authorized, no token" ↔
       ∀ header0, Some header = Some header0 → startsWith header0 "Bearer" = false) ∧
      ∃ e', Throw (A := option ObjectId) e = Throw e' ∧
            (message e = Msg "Not authorized, token failed"
             ↔ message e' = Msg "Not authorized, token failed")).
    { intros e ->. cbn. split; [done|]. split; [by right|]. split.
      - split; [done|]. intros Hall. specialize (Hall header eq_refl). congruence.
      - eexists. split; [reflexivity|]. done. }
    destruct (Auth.split_space_1 header) as [token|] eqn:Htoken; [|by apply Hfailed].
    destruct (Auth.JWT_SECRET tokens) as [secret|] eqn:Hsecret; [|by apply Hfailed].
    destruct (String.eqb secret "" || String.eqb token "") eqn:Hs; [by apply Hfailed|].
    destruct (Auth.jwt_verify tokens token secret) as [id|] eqn:Hverify; [|by apply Hfailed].
    reflexivity.
Qed.

Lemma after_space_app (a t : string) :
  Auth.after_space a = None → Auth.after_space (a +:+ " " +:+ t) = Some t.
Proof.
  induction a as [|c a IH]; [done|].
  change (String c a +:+ " " +:+ t) with (String c (a +:+ " " +:+ t)). cbn.
  destruct (Ascii.eqb c Auth.space); [done|]. exact IH.
Qed.

Lemma until_space_id (t : string) : Auth.after_space t = None → Auth.until_space t = t.
Proof.
  induction t as [|c t IH]; [done|]. cbn.
  destruct (Ascii.eqb c Auth.space); [done|]. intros H. by rewrite IH.
Qed.

Lemma prefix_app (p s : string) : String.prefix p (p +:+ s) = true.
Proof.
  induction p as [|c p IH]; [by destruct s|].
  change (String c p +:+ s) with (String c (p +:+ s)). cbn.
  destruct (ascii_dec c c); [exact IH|done].
Qed.

(** X26. The scheme is matched by its first six characters only: whatever
    follows [Bearer] up to the first space is ignored, so [Bearer <token>]
    and [BearerXYZ <token>] are accepted alike when the token verifies. *)
Theorem X26_bearer_is_a_prefix tokens junk token secret id :
  Auth.after_space junk = None → Auth.after_space token = None → token ≠ "" →
  Auth.JWT_SECRET tokens = Some secret → secret ≠ "" →
  Auth.jwt_verify tokens token secret = Some id →
  Auth.protect tokens (Some ("Bearer" +:+ junk +:+ " " +:+ token))
  = Return (Auth.User_findById tokens id).
Proof.
  intros Hjunk Htoken Hne Hsecret Hs Hverify. unfold Auth.protect, startsWith.
  rewrite prefix_app.
  assert (Auth.split_space_1 ("Bearer" +:+ junk +:+ " " +:+ token) = Some token) as ->.
  { unfold Auth.split_space_1.
    change ("Bearer" +:+ junk +:+ " " +:+ token)
      with ("Bearer" +:+ (junk +:+ " " +:+ token)).
    assert (Auth.after_space ("Bearer" +:+ (junk +:+ " " +:+ token))
            = Auth.after_space (junk +:+ " " +:+ token)) as -> by reflexivity.
    rewrite after_space_app by done. cbn. by rewrite until_space_id. }
  rewrite Hsecret, (proj2 (string_eqb_false _ _) Hs), (proj2 (string_eqb_false _ _) Hne).
  cbn [orb]. by rewrite Hverify.
Qed.

(** X27. Behind [protect], a request changes the world only for a user that
    exists: when the middleware does not hand on an existing user, because
    the header is refused or because the token names a user that is gone,
    the route answers 401 and nothing changes. *)
Theorem X27_protected_routes tokens env authorization r w :
  (∀ uid, Auth.protect tokens authorization ≠ Return (Some uid)) →
  (∀ file, r ≠ TS.Upload file) →
  ∃ e, Auth.route tokens env authorization r w = (Throw e, w) ∧ statusCode e = 401%Z.
Proof.
  intros Hnone Hupload. unfold Auth.route. run.
  destruct (Auth.protect tokens authorization) as [[uid|]|e] eqn:Hprotect.
  - by destruct (Hnone uid).
  - destruct r as [file| |id|id|id|id body_status|id body]; cbn [TS.handle];
      [by destruct (Hupload file)|..]; eexists; (split; [reflexivity|done]).
  - exists e. split; [done|].
    revert Hprotect. unfold Auth.protect, error.
    repeat case_match; intros; simplify_eq; done.
Qed.

Lemma append_assoc (a b c : string) : (a +:+ b) +:+ c = a +:+ (b +:+ c).
Proof.
  induction a as [|x a IH]; [done|].
  change ((String x a +:+ b) +:+ c) with (String x ((a +:+ b) +:+ c)).
  by rewrite IH.
Qed.

(** X28. What the upload route refuses before the handler runs: for an
    authenticated request, a file part that is not [application/pdf] is
    rejected with "Only PDF files are allowed!", one larger than 10MB or sent
    under another field name by Multer's limits; the error middleware
    answers 500, no file is stored and no record is created. *)
Theorem X28_upload_refused tokens env uploadDir random authorization file w req_user :
  Auth.protect tokens authorization = Return req_user →
  let result := Upload.route tokens env uploadDir random authorization (Some file) w in
  (Upload.fieldname file = "document" → Upload.mimetype file ≠ "application/pdf" →
   result = (Throw {| statusCode := 200;
                      message := LibraryError "Only PDF files are allowed!" |}, w)) ∧
  (Upload.fieldname file = "document" → Upload.mimetype file = "application/pdf" →
   (Upload.fileSize_limit < Upload.size file)%Q →
   result = (Throw {| statusCode := 200; message := LibraryError "LIMIT_FILE_SIZE" |}, w)) ∧
  (Upload.fieldname file ≠ "document" →
   result = (Throw {| statusCode := 200;
                      message := LibraryError "LIMIT_UNEXPECTED_FILE" |}, w)) ∧
  (∀ e, result.1 = Throw e → statusCode e = 200%Z → statusCode (errorHandler e) = 500%Z).
Proof.
  intros Hprotect result. subst result.
  unfold Upload.route, Upload.upload_single, Upload.fileFilter. run. rewrite Hprotect.
  split; [|split; [|split]].
  - intros Hfield Hmime. rewrite (proj2 (string_eqb_true _ _) Hfield). cbn [negb].
    by rewrite (proj2 (string_eqb_false _ _) Hmime).
  - intros Hfield Hmime Hsize. rewrite (proj2 (string_eqb_true _ _) Hfield). cbn [negb].
    rewrite (proj2 (string_eqb_true _ _) Hmime).
    by rewrite (proj2 (num_lt_true _ _) Hsize).
  - intros Hfield. by rewrite (proj2 (string_eqb_false _ _) Hfield).
  - intros e _ Hstatus. unfold errorHandler. cbn. by rewrite Hstatus.
Qed.

(** X29. What a successful upload through the route leaves behind: the
    request came from an existing user, who owns the new record; the file
    part was a PDF by its MIME type, of at most 10MB, sent as [document]; it
    is stored under the upload directory as
    [document-<Date.now()>-<Math.round(Math.random() * 1E9)><extension of the
    original name>], and the pending record points to it. *)
Theorem X29_upload_route tokens env uploadDir random authorization incoming w resp w' :
  Upload.route tokens env uploadDir random authorization incoming w = (Return resp, w') →
  ∃ uid file document,
    Auth.protect tokens authorization = Return (Some uid) ∧
    incoming = Some file ∧
    Upload.fieldname file = "document" ∧
    Upload.mimetype file = "application/pdf" ∧
    (Upload.size file <= Upload.fileSize_limit)%Q ∧
    TS.documents w !! new_ObjectId env = None ∧
    TS.documents w' = <[new_ObjectId env := document]> (TS.documents w) ∧
    TS.user document = uid ∧ TS.status document = TS.pending ∧
    TS.fileType document = "application/pdf" ∧
    TS.originalName document = Upload.originalname file ∧
    TS.filePath document
    = path_join env uploadDir
        ("document-" +:+ pretty (Date_now env) +:+ "-"
         +:+ pretty (Upload.Math_round (random * 1000000000))
         +:+ path_extname env (Upload.originalname file)) ∧
    TS.files w' = <[TS.filePath document := Upload.bytes file]> (TS.files w) ∧
    resp = {| TS.res_status := 201;
              TS.res_json := TS.DocumentUploaded (new_ObjectId env) document |}.
Proof.
  unfold Upload.route, Upload.upload_single, Upload.fileFilter. run. intros H.
  destruct (Auth.protect tokens authorization) as [req_user|] eqn:Hprotect; [|discriminate].
  destruct incoming as [file|].
  2:{ revert H. unfold TS.uploadDocument. run. intros H. discriminate H. }
  destruct (String.eqb (Upload.fieldname file) "document") eqn:Hfield; [|discriminate].
  cbn [negb] in H.
  destruct (String.eqb (Upload.mimetype file) "application/pdf") eqn:Hmime; [|discriminate].
  destruct (num_lt Upload.fileSize_limit (Upload.size file)) eqn:Hsize; [discriminate|].
  apply string_eqb_true in Hfield, Hmime. apply num_lt_false in Hsize.
  unfold TS.fs_writeFile in H. run.
  destruct (fs_write_ok env _) eqn:Hwrite; [|discriminate].
  revert H. unfold TS.uploadDocument. run. cbn [TS.documents TS.files].
  destruct req_user as [uid|]; [|discriminate].
  destruct (_ || _); [discriminate|].
  cbn [TS.originalname TS.filename TS.path TS.mimetype TS.size].
  cbn [TS.documents].
  destruct (TS.documents w !! new_ObjectId env) eqn:Hnew; cbv beta; [discriminate|].
  destruct (db_save_ok env); [|discriminate].
  cbn [TS.documents TS.files]. intros [= <- <-].
  eexists uid, file, _. do 6 (split; [done|]). split; [reflexivity|].
  cbn [TS.user TS.status TS.fileType TS.originalName TS.filePath].
  unfold Upload.filename. rewrite Hfield. repeat split; try done.
  f_equal. by rewrite <- !append_assoc.
Qed.

(** X30. Who may fetch the content of a document: [getDocumentContent]
    answers 403 exactly when the user is neither the owner nor a grantee,
    with whatever permission; it never changes the world; and once the owner
    has shared the document, the grantee is not refused. *)
Theorem X30_content_access resolve userId id w document :
  JS.documents w !! id = Some document →
  let result := JSRead.getDocumentContent resolve userId id w in
  result.2 = w ∧
  (result.1 = Throw {| statusCode := 403;
                       message := Msg "Not authorized to view this document content" |}
   ↔ ¬ (JS.owner document = userId ∨ userId ∈ JS.share_user <$> JS.sharedWith document)) ∧
  (∀ env email perm resp w',
     JS.shareDocument env (JS.owner document) id email perm w = (Return resp, w') →
     JS.users w !! email = Some userId →
     ∀ e, (JSRead.getDocumentContent resolve userId id w').1 = Throw e →
          statusCode e = 404%Z).
Proof.
  intros Hdoc result. subst result.
  assert (Haccess : ∀ doc, JSRead.hasAccess doc userId = true
            ↔ JS.owner doc = userId ∨ userId ∈ JS.share_user <$> JS.sharedWith doc).
  { intros doc. unfold JSRead.hasAccess.
    by rewrite orb_true_iff, string_eqb_true, isAlreadyShared_spec. }
  split; [|split].
  - unfold JSRead.getDocumentContent. run. rewrite Hdoc.
    repeat case_match; simplify_eq; done.
  - unfold JSRead.getDocumentContent. run. rewrite Hdoc.
    destruct (JSRead.hasAccess document userId) eqn:Hhas; cbn [negb].
    + split; [|intros Hno; destruct Hno; by apply Haccess].
      repeat case_match; simplify_eq; cbn; discriminate.
    + split; [|done]. intros _ Hyes. apply Haccess in Hyes. congruence.
  - intros env email perm resp w' Hshare Huser e.
    apply shareDocument_success in Hshare
      as (document0 & grantee & shares & Hdoc0 & _ & Huser0 & _ & _ & Hshares & ->).
    assert (document0 = document) as -> by congruence.
    assert (grantee = userId) as -> by congruence.
    unfold JSRead.getDocumentContent. run. cbn [JS.documents].
    rewrite lookup_insert_eq.
    assert (JSRead.hasAccess (JS.set_sharedWith document shares) userId = true) as ->.
    { apply Haccess. right. cbn. destruct (existsb _ _) eqn:Hshared; subst shares.
      - rewrite shares_replace_keys. by apply isAlreadyShared_spec.
      - rewrite fmap_app, elem_of_app. right. cbn. by apply list_elem_of_singleton. }
    cbn [negb]. repeat case_match; simplify_eq; cbn; intros; simplify_eq; done.
Qed.

(** ** The further properties at concrete requests *)

Lemma js_uploaded_reachable : JS.reachable Examples.js_uploaded.
Proof.
  apply (JS.reachable_step (Examples.server 1700000000000 true true)
           (JS.Upload "alice" (Some Examples.js_upload)) Examples.js_empty).
  apply JS.reachable_init.
Defined.

Lemma X2_applySignature_error_statuses_witness :
  statusCode (errorHandler
    {| statusCode := 403;
       message := FailedToApply (Msg "Not authorized to sign this document.") |})
  ∈ [400; 401; 403; 404; 500]%Z.
Proof.
  refine (proj1 (X2_applySignature_error_statuses
            (Examples.server 1700000001000 true true) (Some "bob") "doc1"
            (Examples.image_body 50 100 1) Examples.ts_uploaded _ Examples.ts_uploaded _)).
  vm_compute. reflexivity.
Defined.

Lemma X3_image_data_url_edges_witness :
  TS.applySignature (Examples.server 1700000001000 true true) (Some "alice") "doc1"
                    MoreExamples.gif_body Examples.ts_uploaded
  = (Throw {| statusCode := 400;
              message := FailedToApply
                (Msg "Unsupported signature image format. Only PNG and JPEG are supported.") |},
     Examples.ts_uploaded).
Proof.
  destruct (X3_image_data_url_edges (Examples.server 1700000001000 true true) "doc1"
              MoreExamples.gif_body Examples.ts_uploaded Examples.ts_document
              MoreExamples.gif_request Examples.three_pages 0%nat Examples.page_612x792)
    as [_ Hunsupported].
  - reflexivity.
  - discriminate.
  - vm_compute. reflexivity.
  - vm_compute. reflexivity.
  - discriminate.
  - reflexivity.
  - reflexivity.
  - apply Hunsupported; [by eexists|reflexivity..].
Defined.

Lemma X4_unreadable_source_witness :
  TS.applySignature (Examples.server 1700000001000 true true) (Some "alice") "doc1"
                    (Examples.image_body 50 100 1) MoreExamples.ts_lost
  = (Throw {| statusCode := 500; message := FailedToApply (LibraryError "ENOENT") |},
     MoreExamples.ts_lost).
Proof.
  destruct (X4_unreadable_source (Examples.server 1700000001000 true true) "doc1"
              (Examples.image_body 50 100 1) MoreExamples.ts_lost Examples.ts_document
              Examples.scenario_request) as [Hmissing _].
  - reflexivity.
  - vm_compute. reflexivity.
  - apply Hmissing. vm_compute. reflexivity.
Defined.

Lemma X5_identity_viewport_witness :
  ∃ placed finals op,
    TS.placeSignature (Examples.server 0 true true) Examples.three_pages 0
                      Examples.page_612x792 MoreExamples.identity_request
    = Return (placed, finals) ∧
    placed = draw_on Examples.three_pages 0 op.
Proof.
  destruct (TS.placeSignature (Examples.server 0 true true) Examples.three_pages 0
              Examples.page_612x792 MoreExamples.identity_request)
    as [[placed finals]|e] eqn:Hplace.
  - destruct (X5_identity_viewport (Examples.server 0 true true) Examples.three_pages
                0%nat Examples.page_612x792 MoreExamples.identity_request placed finals)
      as (op & Hop & _); [reflexivity..|exact Hplace|].
    exists placed, finals, op. done.
  - exfalso. vm_compute in Hplace. discriminate Hplace.
Defined.

Lemma X6_only_the_owner_changes_a_record_witness :
  Some "alice" = Some (TS.user Examples.ts_document).
Proof.
  refine (proj1 (X6_only_the_owner_changes_a_record
            (Examples.server 1700000001000 true true) (Some "alice")
            (TS.Sign "doc1" (Examples.image_body 50 100 1))
            Examples.ts_uploaded "doc1" Examples.ts_document _ _)).
  - vm_compute. reflexivity.
  - vm_compute. intros H. discriminate H.
Defined.

Lemma X7_identity_fields_are_immutable_witness :
  TS.originalName (TS.signedDocument (Examples.server 1700000001000 true true)
                                     Examples.ts_document)
  = TS.originalName Examples.ts_document.
Proof.
  refine (proj1 (proj2 (X7_identity_fields_are_immutable
            (Examples.server 1700000001000 true true) (Some "alice")
            (TS.Sign "doc1" (Examples.image_body 50 100 1))
            Examples.ts_uploaded "doc1" Examples.ts_document _ _ _))).
  - vm_compute. reflexivity.
  - vm_compute. reflexivity.
Defined.

Lemma X8_upload_then_read_witness :
  ∃ document,
    TS.getDocumentById (Some "alice") "doc1" Examples.ts_uploaded
    = (Return {| TS.res_status := 200; TS.res_json := TS.DocumentJson document |},
       Examples.ts_uploaded).
Proof.
  destruct (X8_upload_then_read (Examples.server 1700000000000 true true) "alice"
              Examples.ts_upload Examples.ts_empty
              {| TS.res_status := 201;
                 TS.res_json := TS.DocumentUploaded "doc1" Examples.ts_document |}
              Examples.ts_uploaded)
    as (document & _ & _ & _ & _ & _ & _ & _ & _ & _ & _ & Hread & _).
  - vm_compute. reflexivity.
  - exists document. exact Hread.
Defined.



Lemma X11_update_edges_witness :
  ∃ e, TS.updateDocument (Examples.server 1700000002000 true true) (Some "alice") "doc1"
                         (Some "rejected") Examples.ts_uploaded
       = (Throw e, Examples.ts_uploaded) ∧
       statusCode (errorHandler e) = 500%Z.
Proof.
  destruct (X11_update_edges (Examples.server 1700000002000 true true) "doc1"
              Examples.ts_uploaded Examples.ts_document) as [_ Hinvalid].
  - vm_compute. reflexivity.
  - apply (Hinvalid "rejected"); [discriminate|reflexivity].
Defined.

Lemma X13_clamped_position_witness :
  ∃ placed finalX finalY width height,
    TS.placeSignature (Examples.server 0 true true) Examples.three_pages 0
                      Examples.page_612x792 Examples.scenario_request
    = Return (placed, (finalX, finalY)) ∧
    (width == 306)%Q ∧ (height == 297 # 2)%Q ∧
    (0 <= finalX)%Q ∧ (0 <= finalY)%Q ∧
    (finalX + width <= 612)%Q ∧ (finalY + height <= 792)%Q.
Proof.
  destruct (TS.placeSignature (Examples.server 0 true true) Examples.three_pages 0
              Examples.page_612x792 Examples.scenario_request)
    as [[placed [finalX finalY]]|e] eqn:Hplace.
  - destruct (X13_clamped_position _ _ _ _ _ _ _ _ Hplace)
      as (op & x & y & width & height & Hplaced & Hartifact & _ & _ & HX & HY & HfitX & HfitY & _).
    assert (width = (150 * (612 / 300))%Q ∧ height = (150 * (150 / 300) * (792 / 400))%Q)
      as [-> ->].
    { destruct Hartifact as [(Htext & _)|(_ & image & Hop & -> & ->)];
        [discriminate Htext|].
      split; [reflexivity|].
      assert (image = {| image_width := 300; image_height := 150 |}) as ->; [|reflexivity].
      vm_compute in Hplace. injection Hplace as Hplace _ _. subst placed.
      unfold draw_on in Hplaced. cbn in Hplaced. injection Hplaced as Hplaced.
      congruence. }
    exists placed, finalX, finalY, (150 * (612 / 300))%Q, (150 * (150 / 300) * (792 / 400))%Q.
    split; [done|]. split; [reflexivity|]. split; [reflexivity|].
    split; [done|]. split; [done|].
    split; [apply HfitX; discriminate|apply HfitY; discriminate].
  - exfalso. vm_compute in Hplace. discriminate Hplace.
Defined.

Lemma X14_signing_keeps_content_witness :
  ∃ pdfDoc placed,
    TS.files Examples.ts_uploaded !! "uploads/document-1700000000000.pdf"
    = Some (PdfBytes pdfDoc) ∧
    length (getPages placed) = length (getPages pdfDoc).
Proof.
  destruct (X14_signing_keeps_content (Examples.server 1700000001000 true true)
              (Some "alice") "doc1" (Examples.image_body 50 100 1) Examples.ts_uploaded
              Examples.ts_signed_response Examples.ts_signed)
    as (req & document & pdfDoc & placed & index & targetPage & op
        & _ & Hdoc & Hfile & _ & _ & _ & Hlength & _).
  - vm_compute. reflexivity.
  - exists pdfDoc, placed. split; [|done].
    assert (document = Examples.ts_document) as ->.
    { revert Hdoc. vm_compute. congruence. }
    exact Hfile.
Defined.

Lemma X15_grantees_cannot_delete_or_share_witness :
  JS.deleteDocument (Examples.server 1700000003000 true true) "bob" "doc1"
                    Examples.js_shared_twice
  = (Throw {| statusCode := 403;
              message := Msg "Not authorized to delete this document" |},
     Examples.js_shared_twice).
Proof.
  refine (proj1 (X15_grantees_cannot_delete_or_share
            (Examples.server 1700000003000 true true) "bob" "doc1" "carol@example.org"
            JS.view Examples.js_shared_twice
            (JS.set_sharedWith Examples.js_document
               [{| JS.share_user := "bob"; JS.permission := JS.view_and_sign |}]) _ _)).
  - vm_compute. reflexivity.
  - discriminate.
Defined.


Lemma X17_share_then_sign_witness :
  JS.applySignatures (Examples.server 1700000002000 true true) "bob" "doc1"
                     (Some Examples.png) Examples.js_shared
  = (Throw {| statusCode := 403;
              message := Msg "Not authorized to sign this document." |},
     Examples.js_shared).
Proof.
  destruct (X17_share_then_sign (Examples.server 1700000001000 true true)
              (Examples.server 1700000002000 true true) "alice" "doc1"
              "bob@example.org" JS.view Examples.js_uploaded
              {| JS.res_status := 200;
                 JS.res_json := JS.SharedSuccessfully "bob@example.org"
                   (JS.set_sharedWith Examples.js_document
                      [{| JS.share_user := "bob"; JS.permission := JS.view |}]) |}
              Examples.js_shared Examples.png)
    as (grantee & Huser & Hview & _).
  - exact js_uploaded_reachable.
  - vm_compute. reflexivity.
  - discriminate.
  - assert (grantee = "bob") as ->.
    { revert Huser. vm_compute. congruence. }
    apply Hview. reflexivity.
Defined.


Lemma X19_centred_on_the_first_page_witness :
  ∃ firstPage x y,
    getPages Examples.three_pages !! 0%nat = Some firstPage ∧
    (x + 250 / 2 == getWidth firstPage / 2)%Q ∧
    (y + 125 / 2 == getHeight firstPage / 2)%Q.
Proof.
  destruct (X19_centred_on_the_first_page (Examples.server 1700000001000 true true)
              "alice" "doc1" (Some Examples.png) Examples.js_uploaded
              {| JS.res_status := 200;
                 JS.res_json := JS.SignedSuccessfully
                   (JS.recordSigner (Examples.server 1700000001000 true true)
                                    "alice" Examples.png Examples.js_document) |}
              Examples.js_signed)
    as (document & pdfDoc & signed & firstPage & image & x & y
        & Hdoc & Hfile & _ & Hpage & _ & _ & Hx & Hy & _).
  - vm_compute. reflexivity.
  - exists firstPage, x, y. split; [|done].
    assert (document = Examples.js_document) as ->.
    { revert Hdoc. vm_compute. congruence. }
    assert (pdfDoc = Examples.three_pages) as ->.
    { revert Hfile. vm_compute. congruence. }
    exact Hpage.
Defined.

Lemma X20_pdf_failures_witness :
  JS.applySignatures (Examples.server 1700000001000 true true) "alice" "doc1"
                     (Some Examples.png) MoreExamples.js_lost
  = (Throw {| statusCode := 500;
              message := Msg "Failed to apply signature to the PDF document." |},
     MoreExamples.js_lost) ∧
  JS.applySignatures (Examples.server 1700000001000 true true) "bob" "doc1"
                     (Some Examples.png) MoreExamples.js_lost_shared
  = (Throw {| statusCode := 500;
              message := Msg "Failed to apply signature to the PDF document." |},
     MoreExamples.js_lost_shared).
Proof.
  split.
  - apply (X20_pdf_failures (Examples.server 1700000001000 true true) "alice" "doc1"
             Examples.png MoreExamples.js_lost Examples.js_document).
    + vm_compute. reflexivity.
    + left. reflexivity.
    + discriminate.
    + left. vm_compute. reflexivity.
  - apply (X20_pdf_failures (Examples.server 1700000001000 true true) "bob" "doc1"
             Examples.png MoreExamples.js_lost_shared
             (JS.set_sharedWith Examples.js_document
                [{| JS.share_user := "bob"; JS.permission := JS.view_and_sign |}])).
    + vm_compute. reflexivity.
    + right. exists {| JS.share_user := "bob"; JS.permission := JS.view_and_sign |}.
      split; [apply list_elem_of_here|]. split; reflexivity.
    + discriminate.
    + left. vm_compute. reflexivity.
Defined.

(** The world in which Alice and Bob both signed is one the controller
    reaches. *)
Lemma js_signed_by_both_reachable : JS.reachable MoreExamples.js_signed_by_both.
Proof.
  apply (JS.reachable_step (Examples.server 1700000004000 true true)
           (JS.Sign "bob" "doc1" (Some Examples.png)) MoreExamples.js_signed_by_alice).
  apply (JS.reachable_step (Examples.server 1700000003000 true true)
           (JS.Sign "alice" "doc1" (Some Examples.png)) Examples.js_shared_twice).
  apply (JS.reachable_step (Examples.server 1700000002000 true true)
           (JS.ShareWith "alice" "doc1" "bob@example.org" JS.view_and_sign)
           Examples.js_shared).
  apply (JS.reachable_step (Examples.server 1700000001000 true true)
           (JS.ShareWith "alice" "doc1" "bob@example.org" JS.view)
           Examples.js_uploaded).
  exact js_uploaded_reachable.
Qed.

Lemma X21_status_tracks_signers_witness :
  JS.documents MoreExamples.js_signed_by_both !! "doc1"
  = Some MoreExamples.js_document_signed_by_both ∧
  length (JS.signedBy MoreExamples.js_document_signed_by_both) = 2%nat ∧
  ((JS.status MoreExamples.js_document_signed_by_both = "pending"
    ∧ JS.signedBy MoreExamples.js_document_signed_by_both = []) ∨
   (JS.status MoreExamples.js_document_signed_by_both = "signed"
    ∧ JS.signedBy MoreExamples.js_document_signed_by_both ≠ [])).
Proof.
  assert (Hdoc : JS.documents MoreExamples.js_signed_by_both !! "doc1"
                 = Some MoreExamples.js_document_signed_by_both).
  { vm_compute. reflexivity. }
  split; [exact Hdoc|]. split; [reflexivity|].
  exact (X21_status_tracks_signers MoreExamples.js_signed_by_both "doc1"
           MoreExamples.js_document_signed_by_both js_signed_by_both_reachable Hdoc).
Defined.

Lemma X22_one_grant_one_entry_witness :
  JS.documents MoreExamples.js_signed_by_both !! "doc1"
  = Some MoreExamples.js_document_signed_by_both ∧
  length (JS.sharedWith MoreExamples.js_document_signed_by_both) = 1%nat ∧
  length (JS.signedBy MoreExamples.js_document_signed_by_both) = 2%nat ∧
  NoDup (JS.share_user <$> JS.sharedWith MoreExamples.js_document_signed_by_both) ∧
  NoDup (JS.signer_user <$> JS.signedBy MoreExamples.js_document_signed_by_both).
Proof.
  assert (Hdoc : JS.documents MoreExamples.js_signed_by_both !! "doc1"
                 = Some MoreExamples.js_document_signed_by_both).
  { vm_compute. reflexivity. }
  split; [exact Hdoc|]. split; [reflexivity|]. split; [reflexivity|].
  exact (X22_one_grant_one_entry MoreExamples.js_signed_by_both "doc1"
           MoreExamples.js_document_signed_by_both js_signed_by_both_reachable Hdoc).
Defined.

Lemma X23_after_delete_witness :
  let locked := Examples.server 1700000001000 false true in
  JS.applySignatures (Examples.server 1700000002000 true true) "alice" "doc1"
                     (Some Examples.png) MoreExamples.js_deleted
  = (Throw {| statusCode := 404; message := Msg "Document not found." |},
     MoreExamples.js_deleted) ∧
  JS.files MoreExamples.js_deleted !! "uploads/document-1700000000000.pdf" = None ∧
  JS.documents (JS.deleteDocument locked "alice" "doc1" Examples.js_uploaded).2 !! "doc1"
  = None ∧
  JS.files (JS.deleteDocument locked "alice" "doc1" Examples.js_uploaded).2
  = JS.files Examples.js_uploaded.
Proof.
  cbv zeta.
  destruct (X23_after_delete (Examples.server 1700000001000 true true)
              (Examples.server 1700000002000 true true) "alice" "doc1"
              Examples.js_uploaded
              {| JS.res_status := 200; JS.res_json := JS.DocumentRemoved |}
              MoreExamples.js_deleted)
    as (document & Hdoc & _ & _ & Hremoved & _ & Hsign & _).
  { vm_compute. reflexivity. }
  assert (document = Examples.js_document) as ->.
  { revert Hdoc. vm_compute. congruence. }
  destruct (X23_after_delete (Examples.server 1700000001000 false true)
              (Examples.server 1700000002000 true true) "alice" "doc1"
              Examples.js_uploaded
              {| JS.res_status := 200; JS.res_json := JS.DocumentRemoved |}
              (JS.deleteDocument (Examples.server 1700000001000 false true) "alice" "doc1"
                                 Examples.js_uploaded).2)
    as (document' & Hdoc' & _ & Hrecord & _ & Hkept & _).
  { vm_compute. reflexivity. }
  assert (document' = Examples.js_document) as ->.
  { revert Hdoc'. vm_compute. congruence. }
  split; [apply Hsign; discriminate|].
  split; [exact (proj2 (Hremoved eq_refl))|].
  split; [exact Hrecord|]. exact (Hkept eq_refl).
Defined.

Lemma X26_bearer_is_a_prefix_witness :
  Auth.protect MoreExamples.tokens (Some "BearerXYZ token-of-alice") = Return (Some "alice").
Proof.
  apply (X26_bearer_is_a_prefix MoreExamples.tokens "XYZ" "token-of-alice" "secret" "alice");
    try reflexivity; discriminate.
Defined.

Lemma X27_protected_routes_witness :
  ∃ e, Auth.route MoreExamples.tokens (Examples.server 1700000002000 true true)
                  (Some "Bearer token-of-gone") (TS.Delete "doc1") Examples.ts_uploaded
       = (Throw e, Examples.ts_uploaded) ∧ statusCode e = 401%Z.
Proof.
  apply X27_protected_routes.
  - intros uid. vm_compute. discriminate.
  - discriminate.
Defined.

Lemma X28_upload_refused_witness :
  Upload.route MoreExamples.tokens (Examples.server 1700000000000 true true) "uploads"
               (1 # 2) (Some "Bearer token-of-alice") (Some MoreExamples.png_part)
               MoreExamples.no_documents
  = (Throw {| statusCode := 200;
              message := LibraryError "Only PDF files are allowed!" |},
     MoreExamples.no_documents).
Proof.
  destruct (X28_upload_refused MoreExamples.tokens (Examples.server 1700000000000 true true)
              "uploads" (1 # 2) (Some "Bearer token-of-alice") MoreExamples.png_part
              MoreExamples.no_documents (Some "alice")) as [Hmime _].
  - vm_compute. reflexivity.
  - apply Hmime; [reflexivity|discriminate].
Defined.

Lemma X29_upload_route_witness :
  ∃ resp w' document,
    Upload.route MoreExamples.tokens (Examples.server 1700000000000 true true) "uploads"
                 (1 # 2) (Some "Bearer token-of-alice") (Some MoreExamples.pdf_part)
                 MoreExamples.no_documents
    = (Return resp, w') ∧
    TS.fileType document = "application/pdf" ∧
    TS.filePath document = "uploads/document-1700000000000-500000000.pdf".
Proof.
  destruct (Upload.route MoreExamples.tokens (Examples.server 1700000000000 true true)
              "uploads" (1 # 2) (Some "Bearer token-of-alice")
              (Some MoreExamples.pdf_part) MoreExamples.no_documents)
    as [[resp|e] w'] eqn:Hrun.
  - destruct (X29_upload_route _ _ _ _ _ _ _ _ _ Hrun)
      as (uid & file & document & _ & Hfile & _ & _ & _ & _ & _ & _ & _ & Htype & _
          & Hpath & _).
    exists resp, w', document. split; [done|]. split; [done|].
    rewrite Hpath. injection Hfile as <-. vm_compute. reflexivity.
  - exfalso. vm_compute in Hrun. discriminate Hrun.
Defined.

Lemma X30_content_access_witness :
  (JSRead.getDocumentContent (λ name, "uploads/" +:+ name) "bob" "doc1"
                             Examples.js_uploaded).1
  = Throw {| statusCode := 403;
             message := Msg "Not authorized to view this document content" |}.
Proof.
  destruct (X30_content_access (λ name, "uploads/" +:+ name) "bob" "doc1"
              Examples.js_uploaded Examples.js_document) as (_ & Hrefused & _).
  - vm_compute. reflexivity.
  - apply Hrefused. intros [Howner|Hgrantee].
    + discriminate Howner.
    + cbn in Hgrantee. by apply elem_of_nil in Hgrantee.
Defined.
